(** * Vendigo: the stock ledger and the metrics aggregator

    A shallow embedding of the Express handlers of the two server files
    ([server.js], the current one, and the older CommonJS variant), of the
    SQL statements they send, of the dashboard functions that call them
    ([services/api.ts], [pages/Inventory.tsx], [pages/Dashboard.tsx]) and of
    the shell script that spreads a restock over the machines.

    - JavaScript values are a tagged union; the guards of the handlers
      ([!x], [x == null], [isNaN(x)], [x || 0], [Number(x)]) are the
      ECMAScript operations on it.
    - A table is the list of its rows; a statement is a function on tables.
    - A handler takes the store and the request and returns the store and
      the HTTP response; [NOW()] is an argument. *)

From Stdlib Require Import ZArith String Ascii DecimalString DecimalZ DecimalPos.
From stdpp Require Import base decidable option numbers list strings gmap sorting.

Local Open Scope string_scope.
Local Open Scope Z_scope.
Local Open Scope list_scope.

(** ** JavaScript values and the operations the handlers use *)

Module Js.

(** Numbers: the integers and [NaN]. Fractions and infinities are outside the
    embedding; an integer stands for the double of the same value. That is
    exact for the integers of magnitude at most 2^53; beyond, a double
    rounds, and a statement that carries an integer through a string, a path
    segment or a request body holds for JavaScript within that range only. *)
Inductive JsNumber : Type :=
| NaN
| Num (z : Z).

(** [JObj repr] is an object or an array: [repr] is what its [toString]
    returns (the empty string for [[]], the text [[object Object]] for [{}]). *)
Inductive JsValue : Type :=
| JUndefined
| JNull
| JBool (b : bool)
| JNumber (n : JsNumber)
| JStr (s : string)
| JObj (repr : string).

#[global] Instance JsNumber_eq_dec : EqDecision JsNumber.
Proof. solve_decision. Defined.

#[global] Instance JsValue_eq_dec : EqDecision JsValue.
Proof. solve_decision. Defined.

(** The decimal literal of an integer: what [String(n)], a template literal
    and the driver's text protocol write for it. JavaScript writes a number
    in digits below 10^21 and in exponent form ([1e+21]) from there on; the
    exponent form is outside the embedding. *)
Definition decimal (z : Z) : string := NilZero.string_of_int (Z.to_int z).

(** An optional minus sign and decimal digits, read as an integer. *)
Definition integer_literal (s : string) : option Z :=
  Z.of_int <$> NilZero.int_of_string s.

(** What the embedding takes from the platform rather than from the
    repository: the string functions of the JavaScript engine on strings
    that are not integer literals, and how the MySQL driver and server read
    a bound parameter that is not an integer number when the column is an
    integer ([None]: the statement fails). *)
Class Runtime : Type := {
  StringToNumber_other : string → JsNumber;
  parseInt10_other : string → JsNumber;
  trim : string → string;
  toLowerCase : string → string;
  bind_other : JsValue → option Z
}.

Definition is_numeric (n : JsNumber) : bool :=
  match n with NaN => false | Num _ => true end.

(** [ToBoolean]: what [!x], [x || y] and [if (x)] test. *)
Definition truthy (v : JsValue) : bool :=
  match v with
  | JUndefined | JNull => false
  | JBool b => b
  | JNumber NaN => false
  | JNumber (Num z) => negb (z =? 0)%Z
  | JStr s => negb (String.eqb s "")
  | JObj _ => true
  end.

(** [!x] *)
Definition js_not (v : JsValue) : bool := negb (truthy v).

(** [x == null] *)
Definition is_nullish (v : JsValue) : bool :=
  match v with JUndefined | JNull => true | _ => false end.

(** [x || y] and [x ?? y] *)
Definition js_or (x y : JsValue) : JsValue := if truthy x then x else y.
Definition js_coalesce (x y : JsValue) : JsValue := if is_nullish x then y else x.

Section WithRuntime.
Context `{rt : Runtime}.

(** [StringToNumber] and [parseInt(s, 10)]: on an integer literal, its value
    (in JavaScript the double nearest to it, which is the value itself up to
    magnitude 2^53). *)
Definition StringToNumber (s : string) : JsNumber :=
  match integer_literal s with
  | Some z => Num z
  | None => StringToNumber_other s
  end.

Definition parseInt10 (s : string) : JsNumber :=
  match integer_literal s with
  | Some z => Num z
  | None => parseInt10_other s
  end.

(** [ToNumber], as [Number(x)], unary [+x] and [isNaN(x)] apply it. *)
Definition ToNumber (v : JsValue) : JsNumber :=
  match v with
  | JUndefined => NaN
  | JNull => Num 0
  | JBool b => Num (if b then 1 else 0)
  | JNumber n => n
  | JStr s => StringToNumber s
  | JObj repr => StringToNumber repr
  end.

Definition Number (v : JsValue) : JsValue := JNumber (ToNumber v).

Definition isNaN (v : JsValue) : bool := negb (is_numeric (ToNumber v)).

(** A bound parameter read as an integer column value. *)
Definition bind_int (v : JsValue) : option Z :=
  match v with
  | JNumber (Num z) => Some z
  | _ => bind_other v
  end.

End WithRuntime.

(** [String(x)] and [`${x}`]. *)
Definition ToString (n : JsNumber) : string :=
  match n with NaN => "NaN" | Num z => decimal z end.

Definition String_ (v : JsValue) : string :=
  match v with
  | JUndefined => "undefined"
  | JNull => "null"
  | JBool b => if b then "true" else "false"
  | JNumber n => ToString n
  | JStr s => s
  | JObj repr => repr
  end.

(** [a - b], [Math.max(a, b)], [a < b] on numbers. *)
Definition js_sub (a b : JsNumber) : JsNumber :=
  match a, b with Num x, Num y => Num (x - y) | _, _ => NaN end.

Definition Math_max (a b : JsNumber) : JsNumber :=
  match a, b with Num x, Num y => Num (Z.max x y) | _, _ => NaN end.

Definition js_lt (a b : JsNumber) : bool :=
  match a, b with Num x, Num y => (x <? y)%Z | _, _ => false end.

Definition js_le (a b : JsNumber) : bool :=
  match a, b with Num x, Num y => (x <=? y)%Z | _, _ => false end.

(** A number after [JSON.stringify] and the server's [JSON.parse]: [NaN] is
    written as [null]. *)
Definition json_number (n : JsNumber) : JsValue :=
  match n with NaN => JNull | Num z => JNumber (Num z) end.

(** *** An instance to evaluate with

    It reads ASCII: white space is TAB, LF, VT, FF, CR and SPACE. Beyond the
    integer literals it knows the empty string and white space around a
    literal ([Number]) and a literal with a plus sign or followed by other
    characters ([parseInt]); any other string is not a number for it, also
    one that JavaScript reads as a number ([1.0], [1e3], [0x10]): it serves
    to evaluate on integer input. *)

Definition is_ws (a : ascii) : bool :=
  let n := N_of_ascii a in ((9 <=? n) && (n <=? 13) || (n =? 32))%N.

Definition is_digit (a : ascii) : bool :=
  let n := N_of_ascii a in ((48 <=? n) && (n <=? 57))%N.

Fixpoint skip_ws (s : string) : string :=
  match s with
  | String a s' => if is_ws a then skip_ws s' else s
  | EmptyString => EmptyString
  end.

Fixpoint digits_prefix (s : string) : string :=
  match s with
  | String a s' => if is_digit a then String a (digits_prefix s') else EmptyString
  | EmptyString => EmptyString
  end.

Definition ascii_trim (s : string) : string :=
  String.rev (skip_ws (String.rev (skip_ws s))).

Definition ascii_lower (a : ascii) : ascii :=
  let n := N_of_ascii a in
  if ((65 <=? n) && (n <=? 90))%N then ascii_of_N (n + 32) else a.

Definition ascii_toLowerCase (s : string) : string :=
  string_of_list_ascii (ascii_lower <$> list_ascii_of_string s).

Definition ascii_StringToNumber (s : string) : JsNumber :=
  match integer_literal (ascii_trim s) with
  | Some z => Num z
  | None => if String.eqb (ascii_trim s) "" then Num 0 else NaN
  end.

Definition ascii_parseInt10 (s : string) : JsNumber :=
  let unsigned (t : string) : option Z :=
    Z.of_uint <$> NilZero.uint_of_string (digits_prefix t) in
  match skip_ws s with
  | String "-" t => from_option (λ z, Num (- z)) NaN (unsigned t)
  | String "+" t => from_option Num NaN (unsigned t)
  | t => from_option Num NaN (unsigned t)
  end.

(** MySQL in strict mode: a boolean is 0 or 1, a string must be an integer
    literal, anything else is refused. *)
Definition strict_bind_other (v : JsValue) : option Z :=
  match v with
  | JBool b => Some (if b then 1 else 0)
  | JStr s => integer_literal s
  | _ => None
  end.

Definition ascii_runtime : Runtime :=
  {| StringToNumber_other := ascii_StringToNumber;
     parseInt10_other := ascii_parseInt10;
     trim := ascii_trim;
     toLowerCase := ascii_toLowerCase;
     bind_other := strict_bind_other |}.

(** [s.startsWith(t)] and [s.endsWith(t)]: [t] is at the start of [s]; [s]
    is [t] or a tail of [s] ends with [t]. *)
Definition startsWith (s t : string) : bool := String.prefix t s.

Fixpoint endsWith (s t : string) : bool :=
  String.eqb s t
  || match s with
     | String _ s' => endsWith s' t
     | EmptyString => false
     end.

End Js.

(** ** The relational store *)

(** The tables of the schema, with the columns the statements name. The
    schema file is not part of the sources: column types follow the
    statements (integer ids and quantities) and amounts are integers, a
    count of the smallest currency unit. A column that may hold NULL is an
    option. *)

Module Product.
Record t : Type := mk {
  product_id : Z;
  name : string;
  price : Z;
  unit : string
}.
End Product.

Module Machine.
Record t : Type := mk {
  machine_id : Z;
  location : option string;
  description : option string
}.
End Machine.

Module Inventory.
Record t : Type := mk {
  inv_id : Z;
  machine_id : Z;
  product_id : Z;
  qty : Z;
  last_restock : Z
}.

Definition set_qty (q : Z) (r : t) : t :=
  mk (inv_id r) (machine_id r) (product_id r) q (last_restock r).

Definition restocked (q : Z) (now : Z) (r : t) : t :=
  mk (inv_id r) (machine_id r) (product_id r) q now.

(** The pair the unique key is on. *)
Definition pair_of (r : t) : Z * Z := (machine_id r, product_id r).
End Inventory.

Module Sale.
Record t : Type := mk {
  total_amount : Z;
  sale_time : Z
}.
End Sale.

Module SaleItem.
Record t : Type := mk {
  product_id : Z;
  qty : Z
}.
End SaleItem.

Record Store : Type := mkStore {
  products : list Product.t;
  machines : list Machine.t;
  inventory : list Inventory.t;
  sales : list Sale.t;
  sale_items : list SaleItem.t
}.

Definition with_inventory (st : Store) (rows : list Inventory.t) : Store :=
  mkStore (products st) (machines st) rows (sales st) (sale_items st).

Module Sql.

(** [COALESCE(x, d)] with a last argument that is not NULL. *)
Definition COALESCE {A} (x : option A) (d : A) : A := default d x.

(** [NULLIF(s, t)] *)
Definition NULLIF (s : option string) (t : string) : option string :=
  match s with
  | Some s' => if decide (s' = t) then None else Some s'
  | None => None
  end.

(** [SUM]: NULL values are skipped, and the sum of no value is NULL. *)
Fixpoint SUM (l : list (option Z)) : option Z :=
  match l with
  | [] => None
  | None :: l' => SUM l'
  | Some x :: l' => Some (x + default 0 (SUM l'))
  end.

(** [COUNT( * )] *)
Definition COUNT {A} (l : list A) : Z := Z.of_nat (length l).

(** [a * b] on values that may be NULL. *)
Definition times (a b : option Z) : option Z :=
  match a, b with
  | Some x, Some y => Some (x * y)
  | _, _ => None
  end.

(** [l JOIN r ON on] *)
Definition JOIN {A B} (l : list A) (r : list B) (on : A → B → bool)
    : list (A * B) :=
  flat_map (λ a, (λ b, (a, b)) <$> filter (λ b, on a b = true) r) l.

(** [l LEFT JOIN r ON on]: a row of [l] with no partner is kept, with NULLs.
    [left_block] is what one row of [l] gives. *)
Definition left_block {A B} (r : list B) (on : A → B → bool) (a : A)
    : list (A * option B) :=
  match filter (λ b, on a b = true) r with
  | [] => [(a, None)]
  | bs => (λ b, (a, Some b)) <$> bs
  end.

Definition LEFT_JOIN {A B} (l : list A) (r : list B) (on : A → B → bool)
    : list (A * option B) :=
  flat_map (left_block r on) l.

(** [GROUP BY key]: the groups in the order of their first rows, each with
    its rows in order. *)
Fixpoint group_add {K A} `{EqDecision K} (k : K) (x : A)
    (groups : list (K * list A)) : list (K * list A) :=
  match groups with
  | [] => [(k, [x])]
  | (k', xs) :: rest =>
      if decide (k = k') then (k', xs ++ [x]) :: rest
      else (k', xs) :: group_add k x rest
  end.

Definition GROUP_BY {K A} `{EqDecision K} (key : A → K) (l : list A)
    : list (K * list A) :=
  foldl (λ groups x, group_add (key x) x groups) [] l.

(** [ORDER BY key DESC]. MySQL leaves the order of equal keys open, and may
    choose differently each time a statement runs; the merge sort here is
    one such order, and two statements need not agree on it. *)
Definition desc_by {A} (key : A → Z) : relation A := λ a b, key b ≤ key a.

#[global] Instance desc_by_dec {A} (key : A → Z) (a b : A) :
  Decision (desc_by key a b) := Z.le_dec (key b) (key a).

Definition ORDER_BY_DESC {A} (key : A → Z) (l : list A) : list A :=
  merge_sort (desc_by key) l.

(** [LIMIT n] *)
Definition LIMIT {A} (n : nat) (l : list A) : list A := take n l.

(** [ORDER BY key] on an integer key, ascending. *)
Definition asc_by {A} (key : A → Z) : relation A := λ a b, key a ≤ key b.

#[global] Instance asc_by_dec {A} (key : A → Z) (a b : A) :
  Decision (asc_by key a b) := Z.le_dec (key a) (key b).

Definition ORDER_BY {A} (key : A → Z) (l : list A) : list A :=
  merge_sort (asc_by key) l.

(** [ORDER BY key] on a text key follows the collation of the column, which
    the schema sets; the schema is not in the sources. *)
Class Collation : Type := { collate_le : string → string → bool }.

Definition text_by `{Collation} {A} (key : A → string) : relation A :=
  λ a b, collate_le (key a) (key b) = true.

#[global] Instance text_by_dec `{Collation} {A} (key : A → string) (a b : A) :
  Decision (text_by key a b).
Proof. unfold text_by. apply _. Defined.

Definition ORDER_BY_TEXT `{Collation} {A} (key : A → string) (l : list A) : list A :=
  merge_sort (text_by key) l.

(** An instance to evaluate with: the binary collation, which compares
    strings byte by byte. *)
Definition binary_collation : Collation := {| collate_le := String.leb |}.

(** Times. A DATETIME is a count of seconds on the calendar and a DATE a
    count of days: [DATE(t)] is the day of [t], and a DATE compared with a
    DATETIME stands for its midnight. *)
Definition DATE (t : Z) : Z := t / 86400.
Definition midnight (d : Z) : Z := d * 86400.

End Sql.

(** The constraints of the schema on the ledger table. *)

(** Modelled from the spec: the schema is not in the sources. "InventoryRecord
    — uniquely keyed by (machine_id, product_id)": the unique key of the
    ledger table is on the pair. *)
Definition unique_pairs (rows : list Inventory.t) : Prop :=
  NoDup (Inventory.pair_of <$> rows).

(** Modelled from the spec: with that key, the row an [INSERT] offers is a
    duplicate, for [ON DUPLICATE KEY UPDATE], when a row of its pair exists. *)
Definition duplicate_key (rows : list Inventory.t) (m p : Z) : Prop :=
  Exists (λ r, Inventory.pair_of r = (m, p)) rows.

#[global] Instance duplicate_key_dec (rows : list Inventory.t) (m p : Z) :
  Decision (duplicate_key rows m p).
Proof. unfold duplicate_key. apply _. Defined.

(** The primary keys: [inv_id], [machine_id], [product_id]. *)
Definition unique_ids (rows : list Inventory.t) : Prop :=
  NoDup (Inventory.inv_id <$> rows).

(** Modelled from the spec: "machine_id and product_id must reference existing
    Machine/Product rows (foreign-key requirement)". *)
Definition references_exist (st : Store) (m p : Z) : Prop :=
  m ∈ Machine.machine_id <$> machines st ∧ p ∈ Product.product_id <$> products st.

(** The [INSERT] names no [inv_id]: the store generates one above all ids in
    use. *)
Definition fresh_inv_id (rows : list Inventory.t) : Z :=
  1 + foldr Z.max 0 (Inventory.inv_id <$> rows).

(** ** Requests and responses *)

Module Http.
Import Js.

(** What [res.json] sends: scalars, object literals (their keys in order) and
    arrays. *)
Local Unset Elimination Schemes.
Inductive Json : Type :=
| JVal (v : JsValue)
| JObject (fields : list (string * Json))
| JArray (items : list Json).
Local Set Elimination Schemes.

Record Response : Type := mkResponse {
  status : Z;
  body : Json
}.

(** [const { k } = req.body]: a key that is absent reads as [undefined]. *)
Definition field (body : gmap string JsValue) (k : string) : JsValue :=
  default JUndefined (body !! k).

(** [obj.k] on a response object. *)
Fixpoint assoc (k : string) (fields : list (string * Json)) : option Json :=
  match fields with
  | [] => None
  | (k', v) :: rest => if decide (k = k') then Some v else assoc k rest
  end.

Definition get (k : string) (j : Json) : option Json :=
  match j with
  | JObject fields => assoc k fields
  | _ => None
  end.

Definition error_message (msg : string) : Json :=
  JObject [("error", JVal (JStr msg))].

(** The error handler at the end of the file: every [next(e)] ends here. *)
Definition internal_error : Response :=
  mkResponse 500 (error_message "Internal Server Error").

Definition ok_true : Json := JObject [("ok", JVal (JBool true))].

(** How the driver returns a column. The pool is created with the driver's
    defaults, so an integer column (and [COUNT]) is a number and a DECIMAL
    (what [SUM] returns) is a string. *)
Definition int_column (z : Z) : JsValue := JNumber (Num z).
Definition decimal_column (z : Z) : JsValue := JStr (decimal z).
Definition text_column (s : string) : JsValue := JStr s.

(** A text column that may hold NULL. *)
Definition nullable_text (s : option string) : JsValue :=
  match s with
  | Some s => JStr s
  | None => JNull
  end.

(** How a DATE column reaches the response: the driver makes a [Date] object
    of it and [res.json] writes that as a string, both by the time zone of
    the server. *)
Class DateEncoding : Type := { date_column : Z → JsValue }.

(** An instance to evaluate with: the number of the day in decimal. *)
Definition day_number : DateEncoding := {| date_column := λ d, JStr (decimal d) |}.

End Http.

(** ** Reading a response in JavaScript *)

(** What the client code does with the value [res.json()] gave it. *)
Module Read.
Import Js Http.

(** [Array.prototype.join(",")] *)
Fixpoint join (parts : list string) : string :=
  match parts with
  | [] => ""
  | s :: rest =>
      match rest with
      | [] => s
      | _ => s +:+ "," +:+ join rest
      end
  end.

(** [String(x)] and [`${x}`]: an object gives [[object Object]], an array its
    elements joined by commas, with nothing for [null] and [undefined]. *)
Fixpoint to_string (j : Json) : string :=
  match j with
  | JVal v => String_ v
  | JObject _ => "[object Object]"
  | JArray items =>
      join ((fix elements (l : list Json) : list string :=
               match l with
               | [] => []
               | x :: l' =>
                   match x with
                   | JVal JUndefined | JVal JNull => ""
                   | _ => to_string x
                   end :: elements l'
               end) items)
  end.

(** The value as the operators see it. *)
Definition value (j : Json) : JsValue :=
  match j with
  | JVal v => v
  | _ => JObj (to_string j)
  end.

(** [o.k] for a key that no prototype defines; it is a [TypeError] ([None])
    when [o] is [null] or [undefined], and [undefined] when the key is
    absent. [o?.k] is [undefined] instead of the error. *)
Definition dot (o : Json) (k : string) : option Json :=
  match o with
  | JVal JUndefined | JVal JNull => None
  | JObject fields => Some (default (JVal JUndefined) (assoc k fields))
  | _ => Some (JVal JUndefined)
  end.

Definition opt (o : Json) (k : string) : Json := default (JVal JUndefined) (dot o k).

(** [x ?? y], [x || y] *)
Definition nullish (j : Json) : bool :=
  match j with
  | JVal v => is_nullish v
  | _ => false
  end.

Definition coalesce (x y : Json) : Json := if nullish x then y else x.

Definition or_else (x y : Json) : Json := if truthy (value x) then x else y.

(** [Number(x)] *)
Definition number `{rt : Runtime} (j : Json) : Json := JVal (Number (value j)).

(** [data.map(f)]: a [TypeError] unless [data] is an array, and when [f]
    throws. *)
Definition map_array (f : Json → option Json) (data : Json) : option (list Json) :=
  match data with
  | JArray items => mapM f items
  | _ => None
  end.

(** [res.ok] *)
Definition ok (res : Response) : bool := (200 <=? status res) && (status res <=? 299).

(** [res.json()] on the client: what [res.json(x)] sent, but a [SyntaxError]
    ([None]) when [x] was [undefined], for which nothing is sent. *)
Definition parsed (res : Response) : option Json :=
  match body res with
  | JVal JUndefined => None
  | j => Some j
  end.

End Read.

(** ** server.js *)

Module Server.
Import Js Http Sql.

(** The rows of the two grouped queries, as the driver returns them. *)
Module TopSelling.
Record t : Type := mk {
  product_name : JsValue;
  total_sales : JsValue
}.
End TopSelling.

Module Distribution.
Record t : Type := mk {
  machine_id : JsValue;
  machine_name : JsValue;
  total_qty : JsValue;
  total_value : JsValue
}.
End Distribution.

Section Handlers.
Context `{rt : Runtime}.

(** [UPDATE inventory SET qty = ? WHERE inv_id = ?] *)
Definition update_qty (st : Store) (qty invId : JsValue) : option Store :=
  q ← bind_int qty;
  id ← bind_int invId;
  Some (with_inventory st
          ((λ r, if decide (Inventory.inv_id r = id)
                 then Inventory.set_qty q r else r) <$> inventory st)).

(** [SELECT i.inv_id, i.machine_id, i.product_id, p.name AS product_name,
    p.price, i.qty FROM inventory i JOIN products p
    ON p.product_id = i.product_id WHERE inv_id = ?] *)
Definition joined_row (ip : Inventory.t * Product.t) : Json :=
  let (i, p) := ip in
  JObject [("inv_id", JVal (int_column (Inventory.inv_id i)));
           ("machine_id", JVal (int_column (Inventory.machine_id i)));
           ("product_id", JVal (int_column (Inventory.product_id i)));
           ("product_name", JVal (text_column (Product.name p)));
           ("price", JVal (decimal_column (Product.price p)));
           ("qty", JVal (int_column (Inventory.qty i)))].

Definition select_row (st : Store) (invId : JsValue) : option (list Json) :=
  id ← bind_int invId;
  Some (joined_row <$>
          filter (λ ip, Inventory.inv_id ip.1 = id)
            (JOIN (inventory st) (products st)
               (λ i p, bool_decide (Product.product_id p = Inventory.product_id i)))).

(** [PUT /api/inventory/:invId] *)
Definition put_inventory (st : Store) (invId_param : string)
    (body : gmap string JsValue) : Store * Response :=
  let invId := Number (JStr invId_param) in
  let qty := field body "qty" in
  if is_nullish qty || isNaN qty then
    (st, mkResponse 400 (error_message "qty required"))
  else
    match update_qty st qty invId with
    | None => (st, internal_error)
    | Some st' =>
        match select_row st' invId with
        | None => (st', internal_error)
        | Some row => (st', mkResponse 200 (default (JVal JUndefined) (head row)))
        end
    end.

(** [INSERT INTO inventory (machine_id, product_id, qty, last_restock)
    VALUES (?, ?, ?, NOW())
    ON DUPLICATE KEY UPDATE qty = COALESCE(qty,0) + VALUES(qty),
    last_restock = NOW()]. The duplicate is a row with the same pair; a new
    row needs its machine and its product to exist. *)
Definition restock (st : Store) (machine_id product_id qty : JsValue) (now : Z)
    : option Store :=
  m ← bind_int machine_id;
  p ← bind_int product_id;
  v ← bind_int qty;
  if decide (duplicate_key (inventory st) m p) then
    Some (with_inventory st
            ((λ r, if decide (Inventory.pair_of r = (m, p))
                   then Inventory.restocked (COALESCE (Some (Inventory.qty r)) 0 + v) now r
                   else r) <$> inventory st))
  else if decide (references_exist st m p) then
    Some (with_inventory st
            (inventory st ++
               [Inventory.mk (fresh_inv_id (inventory st)) m p v now]))
  else None.

(** [POST /api/inventory] *)
Definition post_inventory (st : Store) (now : Z) (body : gmap string JsValue)
    : Store * Response :=
  let machine_id := field body "machine_id" in
  let product_id := field body "product_id" in
  let qty := field body "qty" in
  if js_not machine_id || js_not product_id || is_nullish qty then
    (st, mkResponse 400 (error_message "machine_id, product_id, qty required"))
  else
    match restock st machine_id product_id qty now with
    | None => (st, internal_error)
    | Some st' => (st', mkResponse 201 ok_true)
    end.

(** [DELETE FROM inventory WHERE inv_id = ?] *)
Definition delete_row (st : Store) (invId : JsValue) : option Store :=
  id ← bind_int invId;
  Some (with_inventory st (filter (λ r, Inventory.inv_id r ≠ id) (inventory st))).

(** [DELETE /api/inventory/:invId] *)
Definition delete_inventory (st : Store) (invId_param : string) : Store * Response :=
  let invId := Number (JStr invId_param) in
  if js_not invId then (st, mkResponse 400 (error_message "invId required"))
  else
    match delete_row st invId with
    | None => (st, internal_error)
    | Some st' => (st', mkResponse 200 ok_true)
    end.

(** *** Metrics *)

Definition zero : JsValue := JNumber (Num 0).

(** [SELECT COUNT( * ) AS total_products FROM products] and
    [SELECT COUNT( * ) AS total_machines FROM machines] *)
Definition count_products (st : Store) : JsValue := int_column (COUNT (products st)).
Definition count_machines (st : Store) : JsValue := int_column (COUNT (machines st)).

(** [SELECT COALESCE(SUM(qty),0) AS total_stock_quantity FROM inventory] *)
Definition sum_stock_quantity (st : Store) : JsValue :=
  decimal_column (COALESCE (SUM ((λ i, Some (Inventory.qty i)) <$> inventory st)) 0).

(** [SELECT COALESCE(SUM(i.qty * p.price),0) AS total_stock_value
    FROM inventory i JOIN products p ON p.product_id = i.product_id] *)
Definition sum_stock_value (st : Store) : JsValue :=
  decimal_column
    (COALESCE
       (SUM ((λ ip : Inventory.t * Product.t,
                times (Some (Inventory.qty ip.1)) (Some (Product.price ip.2))) <$>
               JOIN (inventory st) (products st)
                 (λ i p, bool_decide (Product.product_id p = Inventory.product_id i))))
       0).

(** [SELECT COALESCE(SUM(total_amount),0) AS total_revenue FROM sales] and
    [SELECT COUNT( * ) AS total_sales_count FROM sales] *)
Definition sum_revenue (st : Store) : JsValue :=
  decimal_column (COALESCE (SUM ((λ s, Some (Sale.total_amount s)) <$> sales st)) 0).
Definition count_sales (st : Store) : JsValue := int_column (COUNT (sales st)).

(** [SELECT p.name AS product_name, COALESCE(SUM(si.qty), 0) AS total_sales
    FROM sale_items si JOIN products p ON p.product_id = si.product_id
    GROUP BY si.product_id, p.name ORDER BY total_sales DESC LIMIT n] *)
Definition top_selling (n : nat) (st : Store) : list TopSelling.t :=
  let joined :=
    JOIN (sale_items st) (products st)
      (λ si p, bool_decide (Product.product_id p = SaleItem.product_id si)) in
  let groups :=
    GROUP_BY (λ sp : SaleItem.t * Product.t,
                (SaleItem.product_id sp.1, Product.name sp.2)) joined in
  let rows :=
    (λ g : Z * string * list (SaleItem.t * Product.t),
       (g.1.2, COALESCE (SUM ((λ sp, Some (SaleItem.qty sp.1)) <$> g.2)) 0)) <$> groups in
  (λ r : string * Z, TopSelling.mk (text_column r.1) (decimal_column r.2)) <$>
    LIMIT n (ORDER_BY_DESC snd rows).

Definition top_selling_json (r : TopSelling.t) : Json :=
  JObject [("product_name", JVal (TopSelling.product_name r));
           ("total_sales", JVal (Number (js_or (TopSelling.total_sales r) zero)))].

(** [GET /api/metrics]. The array of rows is an object, so
    [top_selling_products || []] is the array itself. *)
Definition get_metrics (st : Store) : Response :=
  let total_products := count_products st in
  let total_machines := count_machines st in
  let total_stock_quantity := sum_stock_quantity st in
  let total_stock_value := sum_stock_value st in
  let total_revenue := sum_revenue st in
  let total_sales_count := count_sales st in
  let top_selling_products := top_selling 10 st in
  mkResponse 200
    (JObject
       [("total_products", JVal total_products);
        ("total_machines", JVal total_machines);
        ("total_stock_quantity", JVal total_stock_quantity);
        ("total_stock_value", JVal (js_or (Number total_stock_value) zero));
        ("total_revenue", JVal (js_or (Number total_revenue) zero));
        ("total_sales_count", JVal total_sales_count);
        ("top_selling_products", JArray (top_selling_json <$> top_selling_products))]).

(** [GET /api/dashboard-metrics], the route for the older frontend. *)
Definition get_dashboard_metrics (st : Store) : Response :=
  let total_products := count_products st in
  let total_machines := count_machines st in
  let total_stock_quantity := sum_stock_quantity st in
  let total_stock_value := sum_stock_value st in
  mkResponse 200
    (JObject
       [("totalProducts", JVal total_products);
        ("activeMachines", JVal total_machines);
        ("itemsInStock", JVal total_stock_quantity);
        ("stockValue", JVal (js_or (Number total_stock_value) zero))]).

(** *** Machine distribution *)

(** [COALESCE(NULLIF(m.location, ''), NULLIF(m.description, ''),
    CONCAT('Machine ', m.machine_id)) AS machine_name] *)
Definition machine_name (m : Machine.t) : string :=
  COALESCE (NULLIF (Machine.location m) "")
    (COALESCE (NULLIF (Machine.description m) "")
       ("Machine " +:+ decimal (Machine.machine_id m))).

(** [i.machine_id = m.machine_id] and [p.product_id = i.product_id]; the second
    is not true on a row whose [i] is NULL. *)
Definition on_machine (m : Machine.t) (i : Inventory.t) : bool :=
  bool_decide (Inventory.machine_id i = Machine.machine_id m).

Definition on_product (mi : Machine.t * option Inventory.t) (p : Product.t) : bool :=
  match mi.2 with
  | Some i => bool_decide (Product.product_id p = Inventory.product_id i)
  | None => false
  end.

(** A row of [machines m LEFT JOIN inventory i LEFT JOIN products p]. *)
Definition MIP : Type := Machine.t * option Inventory.t * option Product.t.

Definition distribution_joined (st : Store) : list MIP :=
  LEFT_JOIN (LEFT_JOIN (machines st) (inventory st) on_machine) (products st) on_product.

(** [i.qty] and [i.qty * p.price] on such a row. *)
Definition i_qty (r : MIP) : option Z := Inventory.qty <$> r.1.2.
Definition i_value (r : MIP) : option Z :=
  times (Inventory.qty <$> r.1.2) (Product.price <$> r.2).

(** [SUM(i.qty)] and [SUM(i.qty * p.price)] of a group, each under
    [COALESCE(_, 0)]. *)
Definition group_qty (g : list MIP) : Z := COALESCE (SUM (i_qty <$> g)) 0.
Definition group_value (g : list MIP) : Z := COALESCE (SUM (i_value <$> g)) 0.

(** The rows of the [SELECT], before the driver: id, name, total_qty,
    total_value; [GROUP BY m.machine_id, machine_name ORDER BY total_qty DESC]. *)
Definition distribution_rows (st : Store) : list (Z * string * Z * Z) :=
  let groups :=
    GROUP_BY (λ r : MIP, (Machine.machine_id r.1.1, machine_name r.1.1))
      (distribution_joined st) in
  ORDER_BY_DESC (λ r : Z * string * Z * Z, r.1.2)
    ((λ g : Z * string * list MIP, (g.1.1, g.1.2, group_qty g.2, group_value g.2)) <$> groups).

Definition distribution_query (st : Store) : list Distribution.t :=
  (λ r : Z * string * Z * Z,
     Distribution.mk (int_column r.1.1.1) (text_column r.1.1.2)
       (decimal_column r.1.2) (decimal_column r.2)) <$> distribution_rows st.

(** [const out = (rows || []).map(r => ({ ... }))] *)
Definition distribution_out (st : Store) : list Distribution.t :=
  (λ r, Distribution.mk
          (Distribution.machine_id r)
          (Distribution.machine_name r)
          (Number (js_or (Distribution.total_qty r) zero))
          (Number (js_or (Distribution.total_value r) zero))) <$> distribution_query st.

Definition distribution_json (r : Distribution.t) : Json :=
  JObject [("machine_id", JVal (Distribution.machine_id r));
           ("machine_name", JVal (Distribution.machine_name r));
           ("total_qty", JVal (Distribution.total_qty r));
           ("total_value", JVal (Distribution.total_value r))].

(** [GET /api/machine-distribution] *)
Definition get_machine_distribution (st : Store) : Response :=
  mkResponse 200 (JArray (distribution_json <$> distribution_out st)).

End Handlers.

(** *** Lists and the catalog *)

(** How a bound parameter that is not a string is written to a text column
    ([None]: the statement fails). *)
Class TextBinding : Type := { bind_text_other : JsValue → option string }.

Definition bind_text `{tb : TextBinding} (v : JsValue) : option string :=
  match v with
  | JStr s => Some s
  | _ => bind_text_other v
  end.

(** The [INSERT] names no [product_id]: the store generates one above all
    ids in use. *)
Definition fresh_product_id (rows : list Product.t) : Z :=
  1 + foldr Z.max 0 (Product.product_id <$> rows).

Definition with_products (st : Store) (rows : list Product.t) : Store :=
  mkStore rows (machines st) (inventory st) (sales st) (sale_items st).

(** An instance to evaluate with: an integer is written as its decimal
    literal, anything else is refused. *)
Definition strict_text : TextBinding :=
  {| bind_text_other := λ v,
       match v with
       | JNumber (Num z) => Some (decimal z)
       | _ => None
       end |}.

Section Lists.
Context `{rt : Runtime} `{co : Collation} `{tb : TextBinding}.

(** [SELECT * FROM products ORDER BY product_id], with the columns the other
    statements name. *)
Definition product_json (p : Product.t) : Json :=
  JObject [("product_id", JVal (int_column (Product.product_id p)));
           ("name", JVal (text_column (Product.name p)));
           ("price", JVal (decimal_column (Product.price p)));
           ("unit", JVal (text_column (Product.unit p)))].

(** [GET /api/products] *)
Definition get_products (st : Store) : Response :=
  mkResponse 200 (JArray (product_json <$> ORDER_BY Product.product_id (products st))).

(** [INSERT INTO products (name, price, unit) VALUES (?, ?, ?)]; the result
    carries [insertId]. *)
Definition insert_product (st : Store) (name price unit : JsValue) : option (Store * Z) :=
  n ← bind_text name;
  p ← bind_int price;
  u ← bind_text unit;
  let insertId := fresh_product_id (products st) in
  Some (with_products st (products st ++ [Product.mk insertId n p u]), insertId).

(** [POST /api/products] *)
Definition post_product (st : Store) (body : gmap string JsValue) : Store * Response :=
  let name := field body "name" in
  let price := field body "price" in
  let unit := field body "unit" in
  if js_not name || is_nullish price then
    (st, mkResponse 400 (error_message "Name and price are required"))
  else
    match insert_product st name price (js_or unit (JStr "pcs")) with
    | None => (st, internal_error)
    | Some (st', insertId) =>
        (st', mkResponse 200
                (JObject [("message", JVal (JStr "Product added"));
                          ("product_id", JVal (JNumber (Num insertId)))]))
    end.

(** [SELECT machine_id, location, description FROM machines ORDER BY
    machine_id] *)
Definition machine_json (m : Machine.t) : Json :=
  JObject [("machine_id", JVal (int_column (Machine.machine_id m)));
           ("location", JVal (nullable_text (Machine.location m)));
           ("description", JVal (nullable_text (Machine.description m)))].

(** [GET /api/machines] *)
Definition get_machines (st : Store) : Response :=
  mkResponse 200 (JArray (machine_json <$> ORDER_BY Machine.machine_id (machines st))).

(** [SELECT i.inv_id, i.machine_id, i.product_id, p.name AS product_name,
    p.price, i.qty FROM inventory i JOIN products p
    ON p.product_id = i.product_id WHERE i.machine_id = ? ORDER BY p.name] *)
Definition select_machine_rows (st : Store) (mId : JsValue)
    : option (list (Inventory.t * Product.t)) :=
  m ← bind_int mId;
  Some (ORDER_BY_TEXT (λ ip : Inventory.t * Product.t, Product.name ip.2)
          (filter (λ ip, Inventory.machine_id ip.1 = m)
             (JOIN (inventory st) (products st)
                (λ i p, bool_decide (Product.product_id p = Inventory.product_id i))))).

(** [GET /api/inventory/:machineId] *)
Definition get_inventory (st : Store) (machineId_param : string) : Response :=
  let mId := Number (JStr machineId_param) in
  match select_machine_rows st mId with
  | None => internal_error
  | Some rows => mkResponse 200 (JArray (joined_row <$> rows))
  end.

End Lists.

(** *** Revenue trend *)

(** [SELECT DATE(sale_time) AS date, COALESCE(SUM(total_amount),0) AS revenue
    FROM sales WHERE sale_time >= CURDATE() - INTERVAL 7 DAY
    GROUP BY DATE(sale_time) ORDER BY date ASC], the same in both server
    files; [now] is the time of the query. These are its rows before the
    driver. *)
Definition revenue_trend_rows (st : Store) (now : Z) : list (Z * Z) :=
  let recent :=
    filter (λ s, midnight (DATE now - 7) ≤ Sale.sale_time s) (sales st) in
  let groups := GROUP_BY (λ s, DATE (Sale.sale_time s)) recent in
  ORDER_BY fst
    ((λ g : Z * list Sale.t,
        (g.1, COALESCE (SUM ((λ s, Some (Sale.total_amount s)) <$> g.2)) 0)) <$> groups).

Definition revenue_trend_json `{de : DateEncoding} (r : Z * Z) : Json :=
  JObject [("date", JVal (date_column r.1)); ("revenue", JVal (decimal_column r.2))].

(** [GET /api/revenue-trend]: the rows go out as the driver returned them. *)
Definition get_revenue_trend `{de : DateEncoding} (st : Store) (now : Z) : Response :=
  mkResponse 200 (JArray (revenue_trend_json <$> revenue_trend_rows st now)).

End Server.

(** ** The older server file (CommonJS variant) *)

Module ServerCjs.
Import Js Http Sql.

Section Handlers.
Context `{rt : Runtime}.

(** [UPDATE inventory SET qty=? WHERE inv_id=?] *)
Definition update_qty (st : Store) (qty invId : JsValue) : option Store :=
  q ← bind_int qty;
  id ← bind_int invId;
  Some (with_inventory st
          ((λ r, if decide (Inventory.inv_id r = id)
                 then Inventory.set_qty q r else r) <$> inventory st)).

(** [PUT /api/inventory/:invId]; the [SELECT] that follows is the one of
    server.js. *)
Definition put_inventory (st : Store) (invId_param : string)
    (body : gmap string JsValue) : Store * Response :=
  let invId := Number (JStr invId_param) in
  let qty := field body "qty" in
  if is_nullish qty || isNaN qty then
    (st, mkResponse 400 (error_message "qty required"))
  else
    match update_qty st qty invId with
    | None => (st, internal_error)
    | Some st' =>
        match Server.select_row st' invId with
        | None => (st', internal_error)
        | Some row => (st', mkResponse 200 (default (JVal JUndefined) (head row)))
        end
    end.

(** [INSERT INTO inventory(machine_id, product_id, qty, last_restock)
    VALUES (?,?,?,NOW())
    ON DUPLICATE KEY UPDATE qty = qty + VALUES(qty), last_restock = NOW()] *)
Definition restock (st : Store) (machine_id product_id qty : JsValue) (now : Z)
    : option Store :=
  m ← bind_int machine_id;
  p ← bind_int product_id;
  v ← bind_int qty;
  if decide (duplicate_key (inventory st) m p) then
    Some (with_inventory st
            ((λ r, if decide (Inventory.pair_of r = (m, p))
                   then Inventory.restocked (Inventory.qty r + v) now r
                   else r) <$> inventory st))
  else if decide (references_exist st m p) then
    Some (with_inventory st
            (inventory st ++
               [Inventory.mk (fresh_inv_id (inventory st)) m p v now]))
  else None.

(** [POST /api/inventory] *)
Definition post_inventory (st : Store) (now : Z) (body : gmap string JsValue)
    : Store * Response :=
  let machine_id := field body "machine_id" in
  let product_id := field body "product_id" in
  let qty := field body "qty" in
  if js_not machine_id || js_not product_id || js_not qty then
    (st, mkResponse 400 (error_message "machine_id, product_id, qty required"))
  else
    match restock st machine_id product_id qty now with
    | None => (st, internal_error)
    | Some st' => (st', mkResponse 201 ok_true)
    end.

(** [top_selling_products.map(row => ({ product_name: row.product_name,
    total_sales: Number(row.total_sales) || 0 }))] *)
Definition top_selling_json (r : Server.TopSelling.t) : Json :=
  JObject [("product_name", JVal (Server.TopSelling.product_name r));
           ("total_sales",
            JVal (js_or (Number (Server.TopSelling.total_sales r)) Server.zero))].

(** [GET /api/metrics]: the seven queries are those of server.js, but for
    [LIMIT 5] in the last. *)
Definition get_metrics (st : Store) : Response :=
  let total_products := Server.count_products st in
  let total_machines := Server.count_machines st in
  let total_stock_quantity := Server.sum_stock_quantity st in
  let total_stock_value := Server.sum_stock_value st in
  let total_revenue := Server.sum_revenue st in
  let total_sales_count := Server.count_sales st in
  let top_selling_products := Server.top_selling 5 st in
  mkResponse 200
    (JObject
       [("total_products", JVal total_products);
        ("total_machines", JVal total_machines);
        ("total_stock_quantity", JVal total_stock_quantity);
        ("total_stock_value", JVal (js_or (Number total_stock_value) Server.zero));
        ("total_revenue", JVal (js_or (Number total_revenue) Server.zero));
        ("total_sales_count", JVal total_sales_count);
        ("top_selling_products", JArray (top_selling_json <$> top_selling_products))]).

End Handlers.
End ServerCjs.

(** ** Requests of the ledger and the two routers *)

Inductive Request : Type :=
| PUT_inventory (invId : string) (body : gmap string Js.JsValue)
| POST_inventory (body : gmap string Js.JsValue)
| DELETE_inventory (invId : string).

Section Routers.
Context `{rt : Js.Runtime}.

(** server.js *)
Definition serve (st : Store) (now : Z) (req : Request) : Store * Http.Response :=
  match req with
  | PUT_inventory invId body => Server.put_inventory st invId body
  | POST_inventory body => Server.post_inventory st now body
  | DELETE_inventory invId => Server.delete_inventory st invId
  end.

(** The older file has no [DELETE] route for the ledger: Express answers 404. *)
Definition serve_cjs (st : Store) (now : Z) (req : Request) : Store * Http.Response :=
  match req with
  | PUT_inventory invId body => ServerCjs.put_inventory st invId body
  | POST_inventory body => ServerCjs.post_inventory st now body
  | DELETE_inventory invId =>
      (st, Http.mkResponse 404 (Http.JVal (Js.JStr ("Cannot DELETE /api/inventory/" +:+ invId))))
  end.

(** A sequence of requests, each with the time [NOW()] returns for it. *)
Fixpoint run (st : Store) (reqs : list (Z * Request)) : Store :=
  match reqs with
  | [] => st
  | (now, req) :: rest => run (serve st now req).1 rest
  end.

Fixpoint run_cjs (st : Store) (reqs : list (Z * Request)) : Store :=
  match reqs with
  | [] => st
  | (now, req) :: rest => run_cjs (serve_cjs st now req).1 rest
  end.

End Routers.

(** ** The dashboard *)

(** services/api.ts *)
Module Api.
Import Js.

(** [updateInventory(invId, quantity)]: [PUT /inventory/${invId}] with the body
    [JSON.stringify({ quantity })]. *)
Definition updateInventory (invId quantity : JsNumber) : Request :=
  PUT_inventory (ToString invId) {[ "quantity" := json_number quantity ]}.

(** [restockInventory(machineId, productId, quantity)]: [POST /inventory] with
    the body [JSON.stringify({ machine_id: machineId, product_id: productId,
    quantity })]. *)
Definition restockInventory (machineId productId quantity : JsNumber) : Request :=
  POST_inventory
    (<[ "machine_id" := json_number machineId ]>
       (<[ "product_id" := json_number productId ]>
          {[ "quantity" := json_number quantity ]})).

(** A call of one of the two, and the request it sends. *)
Inductive Call : Type :=
| UpdateInventory (invId quantity : JsNumber)
| RestockInventory (machineId productId quantity : JsNumber).

Definition request_of (c : Call) : Request :=
  match c with
  | UpdateInventory invId quantity => updateInventory invId quantity
  | RestockInventory machineId productId quantity =>
      restockInventory machineId productId quantity
  end.

(** The body of a request, if it has one. *)
Definition body_of (req : Request) : gmap string JsValue :=
  match req with
  | PUT_inventory _ body | POST_inventory body => body
  | DELETE_inventory _ => ∅
  end.

(** *** The address of a request *)

(** [const rawBase = import.meta.env.VITE_API_BASE || "http://localhost:3000"]:
    the variable is a string or not set. *)
Definition rawBase (VITE_API_BASE : option string) : string :=
  String_ (js_or (from_option JStr JUndefined VITE_API_BASE) (JStr "http://localhost:3000")).

(** [API_BASE_URL = rawBase.endsWith("/") ? `${rawBase}api` : `${rawBase}/api`] *)
Definition API_BASE_URL (VITE_API_BASE : option string) : string :=
  let rawBase := rawBase VITE_API_BASE in
  if endsWith rawBase "/" then rawBase +:+ "api" else rawBase +:+ "/api".

(** [`${API_BASE_URL}${path.startsWith("/") ? path : `/${path}`}`] *)
Definition url (VITE_API_BASE : option string) (path : string) : string :=
  API_BASE_URL VITE_API_BASE +:+ (if startsWith path "/" then path else "/" +:+ path).

(** *** Reading the lists *)

Section Mappers.
Import Http Read.
Context `{rt : Runtime}.

(** [request]: it throws ([None]) unless [res.ok]; the server answers in
    JSON, which is parsed. *)
Definition request (res : Response) : option Json :=
  if ok res then parsed res else None.

(** The function [getProducts] maps over the array. *)
Definition getProducts_item (p : Json) : option Json :=
  id ← dot p "id";
  product_id ← dot p "product_id";
  name ← dot p "name";
  price ← dot p "price";
  unit ← dot p "unit";
  u ← dot p "u";
  Some (JObject [("id", coalesce id product_id);
                 ("name", name);
                 ("price", number (coalesce price (JVal (JNumber (Num 0)))));
                 ("unit", coalesce (coalesce unit u) (JVal (JStr "")))]).

Definition getProducts (res : Response) : option (list Json) :=
  data ← request res;
  map_array getProducts_item data.

(** [createProduct]: what it returns for the answer to its [POST]. *)
Definition createProduct (res : Response) : option Json :=
  p ← request res;
  id ← dot p "id";
  product_id ← dot p "product_id";
  name ← dot p "name";
  price ← dot p "price";
  unit ← dot p "unit";
  Some (JObject [("id", coalesce id product_id);
                 ("name", name);
                 ("price", number (coalesce price (JVal (JNumber (Num 0)))));
                 ("unit", coalesce unit (JVal (JStr "")))]).

(** The function [getMachines] maps over the array. *)
Definition getMachines_item (m : Json) : option Json :=
  m_id ← dot m "id";
  machine_id ← dot m "machine_id";
  let id := coalesce m_id machine_id in
  name ← dot m "name";
  description ← dot m "description";
  location ← dot m "location";
  address ← dot m "address";
  Some (JObject [("id", id);
                 ("name", coalesce (coalesce name description)
                            (JVal (JStr ("Machine " +:+ to_string id))));
                 ("location", coalesce (coalesce location address) (JVal (JStr "")))]).

Definition getMachines (res : Response) : option (list Json) :=
  data ← request res;
  map_array getMachines_item data.

(** The function [getInventory] maps over the array. *)
Definition getInventory_item (i : Json) : option Json :=
  id ← dot i "id";
  inv_id ← dot i "inv_id";
  inventory_id ← dot i "inventory_id";
  product_id ← dot i "product_id";
  pid ← dot i "pid";
  productId ← dot i "productId";
  product_name ← dot i "product_name";
  name ← dot i "name";
  productName ← dot i "productName";
  quantity ← dot i "quantity";
  qty ← dot i "qty";
  price ← dot i "price";
  unit_price ← dot i "unit_price";
  Some (JObject
          [("id", coalesce (coalesce id inv_id) inventory_id);
           ("product_id", coalesce (coalesce product_id pid) productId);
           ("product_name", coalesce (coalesce product_name name) productName);
           ("quantity", number (coalesce (coalesce quantity qty) (JVal (JNumber (Num 0)))));
           ("price", number (coalesce (coalesce price unit_price) (JVal (JNumber (Num 0)))))]).

Definition getInventory (res : Response) : option (list Json) :=
  data ← request res;
  map_array getInventory_item data.

(** [getDashboardMetrics]: the answer to [/dashboard-metrics], or else the
    answer to [/dashboard/summary]; [None] when both throw. *)
Definition getDashboardMetrics (dashboard_metrics summary : Response) : option Json :=
  match request dashboard_metrics with
  | Some m => Some m
  | None => request summary
  end.

End Mappers.

End Api.

(** pages/Inventory.tsx *)
Module InventoryPage.
Import Js.

(** An [InventoryItem] as [normalizeInventoryItem] builds it: [id] and
    [quantity] come out of [Number(...)]. *)
Record InventoryItem : Type := mkItem {
  id : JsNumber;
  product_name : string;
  price : JsNumber;
  quantity : JsNumber
}.

(** What a click handler does: nothing, a toast, or one [fetch]. *)
Inductive Effect : Type :=
| Nothing
| Toast (title description : string)
| Fetch (req : Request).

Section Page.
Context `{rt : Runtime}.

(** [saveEdit]: [editingId] and [selectedMachine] are [number | null],
    [editQuantity] is a number. *)
Definition saveEdit (editingId selectedMachine : JsValue) (editQuantity : JsNumber)
    : Effect :=
  if js_not editingId || js_not selectedMachine then Nothing
  else
    let qty := parseInt10 (String_ (js_or (JNumber editQuantity) (JNumber (Num 0)))) in
    if negb (is_numeric qty) || js_lt qty (Num 0) then
      Toast "Validation" "Quantity must be a non-negative integer"
    else
      Fetch (PUT_inventory (String_ editingId) {[ "qty" := json_number qty ]}).

(** [handleRemove(item)]: [mode] is what [window.prompt] returned ([None] for
    [null]), [conf] what [window.confirm] would return. [item.quantity] is a
    number, so [item.quantity ?? 0] is [item.quantity]. *)
Definition handleRemove (selectedMachine : JsValue) (item : InventoryItem)
    (mode : option string) (conf : bool) : Effect :=
  if js_not selectedMachine then Nothing
  else
    match mode with
    | None => Nothing
    | Some mode =>
        let trimmed := toLowerCase (trim mode) in
        if decide (trimmed = "") then Nothing
        else if decide (trimmed = "all") then
          if conf then Fetch (DELETE_inventory (ToString (id item))) else Nothing
        else
          let removeQty := parseInt10 trimmed in
          if negb (is_numeric removeQty) || js_lt removeQty (Num 0) then
            Toast "Validation" "Invalid remove quantity"
          else
            let newQty := Math_max (Num 0) (js_sub (quantity item) removeQty) in
            Fetch (PUT_inventory (ToString (id item)) {[ "qty" := json_number newQty ]})
    end.

(** [handleRestock]: the two fields of the form are strings. *)
Definition handleRestock (selectedMachine : JsValue) (form_productId form_quantity : string)
    : Effect :=
  if js_not selectedMachine then Toast "Error" "Select a machine first"
  else
    let productId := parseInt10 form_productId in
    let qty := parseInt10 form_quantity in
    if js_not (JNumber productId) || negb (is_numeric productId)
       || js_not (JNumber qty) || negb (is_numeric qty) || js_le qty (Num 0) then
      Toast "Error" "Enter a valid product and positive quantity"
    else
      Fetch (POST_inventory
               (<[ "machine_id" := selectedMachine ]>
                  (<[ "product_id" := json_number productId ]>
                     {[ "qty" := json_number qty ]}))).

(** [startEdit(item)]: the values it gives [editingId] and [editQuantity].
    [item.quantity] is a number, so [item.quantity ?? 0] is [item.quantity]. *)
Definition startEdit (item : InventoryItem) : JsValue * JsNumber :=
  (JNumber (id item), quantity item).

End Page.
(** *** Loading the lists *)

Section Loading.
Import Http Read.
Context `{rt : Runtime}.

(** [normalizeMachine(raw)] *)
Definition normalizeMachine (raw : Json) : Json :=
  let id :=
    number (coalesce (coalesce (coalesce (opt raw "machine_id") (opt raw "id"))
                        (opt raw "machineId")) (opt raw "machine")) in
  let name :=
    coalesce (coalesce (opt raw "name") (opt raw "location"))
      (JVal (JStr ("Machine " +:+ to_string id))) in
  let location :=
    coalesce (coalesce (opt raw "location") (opt raw "description")) (JVal (JStr "")) in
  JObject [("id", id); ("name", name); ("location", location)].

(** [normalizeInventoryItem(raw)] *)
Definition normalizeInventoryItem (raw : Json) : Json :=
  let id :=
    number (coalesce (coalesce (coalesce (opt raw "inv_id") (opt raw "id"))
                        (opt raw "invId")) (opt raw "inventory_id")) in
  let product_name :=
    coalesce (coalesce (coalesce (opt raw "product_name") (opt raw "name"))
                (opt raw "productName")) (JVal (JStr "")) in
  let price :=
    number (coalesce (coalesce (opt raw "price") (opt raw "product_price"))
              (JVal (JNumber (Num 0)))) in
  let quantity :=
    number (coalesce (coalesce (opt raw "qty") (opt raw "quantity"))
              (JVal (JNumber (Num 0)))) in
  JObject [("id", id); ("product_name", product_name); ("price", price);
           ("quantity", quantity); ("raw", raw)].

(** [loadMachines]: the list it sets and the machine then selected
    ([prev ?? list[0].id] when the list is not empty); [None] when it shows
    the error toast. The array [data] is truthy, so [data || []] is
    [data]. *)
Definition loadMachines (res : Response) (prev : Json) : option (list Json * Json) :=
  data ← Api.getMachines res;
  let list := normalizeMachine <$> data in
  Some (list,
        match list with
        | [] => prev
        | first :: _ => coalesce prev (opt first "id")
        end).

(** [loadInventory(machineId)], given the answer to its request. *)
Definition loadInventory (res : Response) : option (list Json) :=
  data ← Api.getInventory res;
  Some (normalizeInventoryItem <$> (data : list Json)).

End Loading.

End InventoryPage.

(** pages/Dashboard.tsx *)
Module Dashboard.
Import Js Http Read.

Section Loading.
Context `{rt : Runtime}.

(** [req]: it throws ([None]) unless [res.ok]. *)
Definition req (res : Response) : option Json :=
  if ok res then parsed res else None.

(** The object [loadAll] builds from the compatibility view. *)
Definition fallback_metrics (fb : Json) : option Json :=
  totalProducts ← dot fb "totalProducts";
  total_products ← dot fb "total_products";
  activeMachines ← dot fb "activeMachines";
  total_machines ← dot fb "total_machines";
  itemsInStock ← dot fb "itemsInStock";
  total_stock_quantity ← dot fb "total_stock_quantity";
  stockValue ← dot fb "stockValue";
  total_stock_value ← dot fb "total_stock_value";
  top_selling_products ← dot fb "top_selling_products";
  let zero := JVal (JNumber (Num 0)) in
  Some (JObject
          [("total_products", coalesce (coalesce totalProducts total_products) zero);
           ("total_machines", coalesce (coalesce activeMachines total_machines) zero);
           ("total_stock_quantity",
            coalesce (coalesce itemsInStock total_stock_quantity) zero);
           ("total_stock_value",
            or_else (number (coalesce (coalesce stockValue total_stock_value) zero)) zero);
           ("top_selling_products", coalesce top_selling_products (JArray []))]).

(** The metrics [loadAll] sets: those of [/metrics], or else those built from
    [/dashboard-metrics]; [None] when both fail and the error toast is
    shown. *)
Definition load_metrics (metrics dashboard_metrics : Response) : option Json :=
  match req metrics with
  | Some m => Some m
  | None => fb ← req dashboard_metrics; fallback_metrics fb
  end.

(** The function [loadAll] maps over the revenue trend, and the trend it
    sets: the empty list when anything throws. *)
Definition trend_item (r : Json) : option Json :=
  date ← dot r "date";
  revenue ← dot r "revenue";
  Some (JObject [("date", JVal (JStr (to_string date)));
                 ("revenue", number (or_else revenue (JVal (JNumber (Num 0)))))]).

Definition load_revenue_trend (res : Response) : list Json :=
  default [] (trend ← req res; map_array trend_item trend).

(** The function [loadAll] maps over the machine distribution. *)
Definition machine_item (r : Json) : option Json :=
  machine_id ← dot r "machine_id";
  machine_name ← dot r "machine_name";
  total_qty ← dot r "total_qty";
  total_value ← dot r "total_value";
  let zero := JVal (JNumber (Num 0)) in
  Some (JObject
          [("machine_id", number machine_id);
           ("machine_name",
            or_else machine_name (JVal (JStr ("M " +:+ to_string machine_id))));
           ("total_qty", number (or_else total_qty zero));
           ("total_value", number (or_else total_value zero))]).

(** The machine distribution [loadAll] sets: the empty list when anything
    throws. *)
Definition load_machine_dist (res : Response) : list Json :=
  default [] (md ← req res; map_array machine_item (or_else md (JArray []))).

End Loading.
End Dashboard.

(** ** The restock script *)

(** The shell script that spreads [TOTAL_QTY] units of the product
    [PRODUCT_ID] over all machines. The two are variables set at its top (to
    120 and 2); here they are arguments. *)
Module RestockScript.

(** Shell arithmetic is on signed 64-bit integers and wraps around. [/] and
    [%] truncate towards zero and cannot overflow on a positive divisor. *)
Definition wrap64 (z : Z) : Z := (z + 2 ^ 63) mod 2 ^ 64 - 2 ^ 63.

(** [mapfile -t machines < <(mysql -N ... -e "SELECT machine_id FROM machines
    WHERE 1 ORDER BY machine_id;")] *)
Definition fetch_machines (st : Store) : list Z :=
  merge_sort Z.le (Machine.machine_id <$> machines st).

(** [add=$base; if [ "$i" -lt "$rem" ]; then add=$((add + 1)); fi] *)
Definition add_of (base rem : Z) (i : nat) : Z :=
  if (Z.of_nat i <? rem)%Z then wrap64 (base + 1) else base.

(** [INSERT INTO inventory (machine_id, product_id, qty, last_restock)
    VALUES (${m}, ${PRODUCT_ID}, ${add}, NOW())
    ON DUPLICATE KEY UPDATE qty = COALESCE(qty,0) + VALUES(qty),
    last_restock = VALUES(last_restock)]. When the statement fails the client
    prints the error and the loop goes on: the store is as it was. *)
Definition upsert (st : Store) (m p add now : Z) : Store :=
  if decide (duplicate_key (inventory st) m p) then
    with_inventory st
      ((λ r, if decide (Inventory.pair_of r = (m, p))
             then Inventory.restocked (Sql.COALESCE (Some (Inventory.qty r)) 0 + add) now r
             else r) <$> inventory st)
  else if decide (references_exist st m p) then
    with_inventory st
      (inventory st ++ [Inventory.mk (fresh_inv_id (inventory st)) m p add now])
  else st.

(** [for i in "${!machines[@]}"]: the indices from [i] on, with the time
    [NOW()] returns in each turn. *)
Fixpoint loop (st : Store) (PRODUCT_ID base rem : Z) (now : nat → Z) (i : nat)
    (machines : list Z) : Store :=
  match machines with
  | [] => st
  | m :: rest =>
      loop (upsert st m PRODUCT_ID (add_of base rem i) (now i))
        PRODUCT_ID base rem now (S i) rest
  end.

(** The script: the store it leaves and its exit status. *)
Definition script (st : Store) (PRODUCT_ID TOTAL_QTY : Z) (now : nat → Z) : Store * Z :=
  let machines := fetch_machines st in
  let count := Z.of_nat (length machines) in
  if (count =? 0)%Z then (st, 1)
  else
    let base := TOTAL_QTY ÷ count in
    let rem := Z.rem TOTAL_QTY count in
    (loop st PRODUCT_ID base rem now 0 machines, 0).

End RestockScript.

(** ** Vocabulary of the properties *)

(** *** Stores and requests to evaluate on *)

(** One machine, one product, nothing in stock. *)
Definition one_machine_store : Store :=
  mkStore [Product.mk 1 "Chips" 20 "pcs"] [Machine.mk 1 (Some "Lobby") None] [] [] [].

(** One machine, one product, ten in stock. *)
Definition stocked_store : Store :=
  mkStore [Product.mk 1 "Chips" 20 "pcs"] [Machine.mk 1 (Some "Lobby") None]
    [Inventory.mk 1 1 1 10 500] [] [].

(** Three machines, the second with an empty location, no description and
    nothing in stock; two sales. *)
Definition three_machine_store : Store :=
  mkStore [Product.mk 1 "Chips" 20 "pcs"; Product.mk 2 "Cola" 35 "pcs"]
    [Machine.mk 1 (Some "Lobby") None; Machine.mk 2 (Some "") None;
     Machine.mk 3 None (Some "Gym")]
    [Inventory.mk 1 3 1 4 100; Inventory.mk 2 1 1 10 100; Inventory.mk 3 1 2 2 100]
    [Sale.mk 55 10; Sale.mk 70 20]
    [SaleItem.mk 1 1; SaleItem.mk 2 1; SaleItem.mk 2 2; SaleItem.mk 1 1].

(** A week of sales: two on day 10, one on day 12, one on day 2. *)
Definition week_store : Store :=
  mkStore [] [] []
    [Sale.mk 30 (10 * 86400 + 60); Sale.mk 25 (12 * 86400); Sale.mk 20 (11 * 86400 - 1);
     Sale.mk 99 (2 * 86400 + 5)]
    [].

(** *** Requests and answers *)

Definition restock_body (m p q : Js.JsValue) : gmap string Js.JsValue :=
  <[ "machine_id" := m ]> (<[ "product_id" := p ]> {[ "qty" := q ]}).

Definition restock_request (m p delta : Z) : Request :=
  POST_inventory
    (restock_body (Js.JNumber (Js.Num m)) (Js.JNumber (Js.Num p)) (Js.JNumber (Js.Num delta))).

(** A run of restocks of one pair: the times of the calls with their
    quantities. *)
Definition restocks (m p : Z) (calls : list (Z * Z)) : list (Z * Request) :=
  (λ c, (c.1, restock_request m p c.2)) <$> calls.

Definition total (calls : list (Z * Z)) : Z := foldr Z.add 0 (calls.*2).

Definition qty_body (q : Z) : gmap string Js.JsValue :=
  {[ "qty" := Js.JNumber (Js.Num q) ]}.

(** The request a direct set of record [k] to [q] sends. *)
Definition set_request (k q : Z) : Request :=
  PUT_inventory (Js.decimal k) (qty_body q).

Definition restock_rejection : Http.Response :=
  Http.mkResponse 400 (Http.error_message "machine_id, product_id, qty required").

Definition qty_required : Http.Response :=
  Http.mkResponse 400 (Http.error_message "qty required").

(** The answer to a call of the service layer. *)
Definition bad_request_of (c : Api.Call) : Http.Response :=
  match c with
  | Api.UpdateInventory _ _ => qty_required
  | Api.RestockInventory _ _ _ => restock_rejection
  end.

(** *** The ledger *)

(** The rows of the pair [(m, p)]. *)
Definition rows_of_pair (m p : Z) (rows : list Inventory.t) : list Inventory.t :=
  filter (λ r, Inventory.pair_of r = (m, p)) rows.

(** [r'] is [r] but for the quantity. *)
Definition same_but_qty (r r' : Inventory.t) : Prop :=
  Inventory.inv_id r' = Inventory.inv_id r
  ∧ Inventory.machine_id r' = Inventory.machine_id r
  ∧ Inventory.product_id r' = Inventory.product_id r
  ∧ Inventory.last_restock r' = Inventory.last_restock r.

(** All tables but the ledger are the same in both stores. *)
Definition same_catalog_and_sales (st st' : Store) : Prop :=
  products st' = products st ∧ machines st' = machines st
  ∧ sales st' = sales st ∧ sale_items st' = sale_items st.

(** What a [PUT /api/inventory/:invId] with the body [body] may do to a row. *)
Definition set_only_qty `{rt : Js.Runtime} (invId_param : string)
    (body : gmap string Js.JsValue) (r r' : Inventory.t) : Prop :=
  same_but_qty r r'
  ∧ (r' ≠ r →
     Js.bind_int (Js.Number (Js.JStr invId_param)) = Some (Inventory.inv_id r)
     ∧ Js.bind_int (Http.field body "qty") = Some (Inventory.qty r')).

(** *** The aggregates in the words of the spec *)

(** "total_stock_quantity = sum(InventoryRecord.quantity) over all rows, 0 if
    none". *)
Definition stock_quantity (st : Store) : Z :=
  foldr Z.add 0 (Inventory.qty <$> inventory st).

(** "total_stock_value = sum(quantity × product.price) over the Ledger⋈Catalog
    join, 0 if none". *)
Definition stock_value (st : Store) : Z :=
  foldr Z.add 0
    ((λ ip : Inventory.t * Product.t, Inventory.qty ip.1 * Product.price ip.2) <$>
       Sql.JOIN (inventory st) (products st)
         (λ i p, bool_decide (Product.product_id p = Inventory.product_id i))).

(** The name of a machine in the words of the spec: its location if that is
    not empty, else its description if that is not empty, else the label. *)
Definition is_non_empty (s : option string) : bool :=
  match s with
  | Some s => negb (String.eqb s "")
  | None => false
  end.

Definition display_name (m : Machine.t) : string :=
  if is_non_empty (Machine.location m) then default "" (Machine.location m)
  else if is_non_empty (Machine.description m) then default "" (Machine.description m)
  else "Machine " +:+ Js.decimal (Machine.machine_id m).

(** The ledger rows of a machine. *)
Definition stock_of (st : Store) (m : Machine.t) : list Inventory.t :=
  filter (λ i, Inventory.machine_id i = Machine.machine_id m) (inventory st).

(** The row of the response for a machine whose totals are [q] and [v]. *)
Definition distribution_row (m : Machine.t) (q v : Z) : Server.Distribution.t :=
  Server.Distribution.mk (Js.JNumber (Js.Num (Machine.machine_id m)))
    (Js.JStr (display_name m)) (Js.JNumber (Js.Num q)) (Js.JNumber (Js.Num v)).

(** A row of the response for the machine [m] with the totals [q] and [v]:
    its id, its name in the words of the spec, and the totals as numbers. *)
Definition response_row (m : Machine.t) (q v : Z) : Http.Json :=
  Http.JObject
    [("machine_id", Http.JVal (Js.JNumber (Js.Num (Machine.machine_id m))));
     ("machine_name", Http.JVal (Js.JStr (display_name m)));
     ("total_qty", Http.JVal (Js.JNumber (Js.Num q)));
     ("total_value", Http.JVal (Js.JNumber (Js.Num v)))].

(** The joined rows of one machine, its row in the query before the rows are
    ordered, and a row of the query as the response carries it. *)
Definition machine_block (st : Store) (m : Machine.t) : list Server.MIP :=
  flat_map (Sql.left_block (products st) Server.on_product)
    (Sql.left_block (inventory st) Server.on_machine m).

Definition machine_totals (st : Store) (m : Machine.t) : Z * string * Z * Z :=
  (Machine.machine_id m, Server.machine_name m,
   Server.group_qty (machine_block st m), Server.group_value (machine_block st m)).

Definition out_row (r : Z * string * Z * Z) : Server.Distribution.t :=
  Server.Distribution.mk (Js.JNumber (Js.Num r.1.1.1)) (Js.JStr r.1.1.2)
    (Js.JNumber (Js.Num r.1.2)) (Js.JNumber (Js.Num r.2)).

(** *** The page as a client of the ledger *)

(** No record holds a negative quantity. *)
Definition non_negative (rows : list Inventory.t) : Prop :=
  Forall (λ r, 0 ≤ Inventory.qty r) rows.

(** The requests the three handlers of the inventory page can send. *)
Inductive sent_by_page `{rt : Js.Runtime} : Request → Prop :=
| sent_by_saveEdit (editingId selectedMachine : Js.JsValue) (editQuantity : Js.JsNumber)
    (req : Request) :
    InventoryPage.saveEdit editingId selectedMachine editQuantity = InventoryPage.Fetch req →
    sent_by_page req
| sent_by_handleRemove (selectedMachine : Js.JsValue) (item : InventoryPage.InventoryItem)
    (mode : option string) (conf : bool) (req : Request) :
    InventoryPage.handleRemove selectedMachine item mode conf = InventoryPage.Fetch req →
    sent_by_page req
| sent_by_handleRestock (selectedMachine : Js.JsValue) (form_productId form_quantity : string)
    (req : Request) :
    InventoryPage.handleRestock selectedMachine form_productId form_quantity
    = InventoryPage.Fetch req →
    sent_by_page req.

(** The ids of the ledger. *)
Definition inv_ids (st : Store) : list Z := Inventory.inv_id <$> inventory st.

(** *** Sales *)

(** [product_id] is the primary key of the catalog. *)
Definition unique_products (st : Store) : Prop :=
  NoDup (Product.product_id <$> products st).

(** The sale items of a product and the units they add up to. *)
Definition items_of (st : Store) (p : Z) : list SaleItem.t :=
  filter (λ si, SaleItem.product_id si = p) (sale_items st).

Definition units_sold (st : Store) (p : Z) : Z :=
  foldr Z.add 0 (SaleItem.qty <$> items_of st p).

(** The products with at least one sale item, each with its name and its
    units sold. *)
Definition sellers (st : Store) : list Product.t :=
  filter (λ p, Exists (λ si, SaleItem.product_id si = Product.product_id p) (sale_items st))
    (products st).

Definition seller_row (st : Store) (p : Product.t) : string * Z :=
  (Product.name p, units_sold st (Product.product_id p)).

(** A row of the top sellers as the driver returns it and as the response
    carries it. *)
Definition top_selling_row (r : string * Z) : Server.TopSelling.t :=
  Server.TopSelling.mk (Js.JStr r.1) (Js.JStr (Js.decimal r.2)).

Definition top_selling_out (r : string * Z) : Http.Json :=
  Http.JObject [("product_name", Http.JVal (Js.JStr r.1));
                ("total_sales", Http.JVal (Js.JNumber (Js.Num r.2)))].

(** The rows of the top-sellers query before [ORDER BY] and [LIMIT]: the name
    and the summed quantity of each group of the join. *)
Definition unranked_sellers (st : Store) : list (string * Z) :=
  (λ g : Z * string * list (SaleItem.t * Product.t),
     (g.1.2, Sql.COALESCE (Sql.SUM ((λ sp, Some (SaleItem.qty sp.1)) <$> g.2)) 0)) <$>
    Sql.GROUP_BY (λ sp : SaleItem.t * Product.t,
                    (SaleItem.product_id sp.1, Product.name sp.2))
      (Sql.JOIN (sale_items st) (products st)
         (λ si p, bool_decide (Product.product_id p = SaleItem.product_id si))).

(** [ranked] is an answer [ORDER BY key DESC] may give on [rows]: the same
    rows, the keys descending, rows of equal keys in any order. *)
Definition may_rank {A} (key : A → Z) (rows ranked : list A) : Prop :=
  ranked ≡ₚ rows ∧ Sorted (λ a b, b ≤ a) (key <$> ranked).

(** [groups] are the groups of the rows [l] under [key]: one group for each
    key that occurs, holding the rows of that key in their order. *)
Definition grouped {K A} `{EqDecision K} (key : A → K) (l : list A)
    (groups : list (K * list A)) : Prop :=
  NoDup groups.*1
  ∧ Forall (λ g, g.2 = filter (λ x, key x = g.1) l) groups
  ∧ (∀ k, k ∈ groups.*1 ↔ k ∈ key <$> l).

(** *** The restock script *)

(** What the script prints in its loop: each machine with the units it is
    given, for the indices from [i] on. *)
Fixpoint shares (base rem : Z) (i : nat) (machines : list Z) : list (Z * Z) :=
  match machines with
  | [] => []
  | m :: rest => (m, RestockScript.add_of base rem i) :: shares base rem (S i) rest
  end.

(** The pairs of the ledger. *)
Definition pairs (st : Store) : list (Z * Z) := Inventory.pair_of <$> inventory st.

(** *** What the pages show *)

(** A machine as [getMachines] returns it, which [normalizeMachine] leaves as
    it is: named by its description. *)
Definition listed_machine (m : Machine.t) : Http.Json :=
  Http.JObject
    [("id", Http.JVal (Js.JNumber (Js.Num (Machine.machine_id m))));
     ("name",
      Http.JVal (Js.JStr (default ("Machine " +:+ Js.decimal (Machine.machine_id m))
                            (Machine.description m))));
     ("location", Http.JVal (Js.JStr (default "" (Machine.location m))))].

(** A ledger row with its product, as [getInventory] returns it and as the
    page keeps it. *)
Definition listed_item (ip : Inventory.t * Product.t) : Http.Json :=
  Http.JObject
    [("id", Http.JVal (Js.JNumber (Js.Num (Inventory.inv_id ip.1))));
     ("product_id", Http.JVal (Js.JNumber (Js.Num (Inventory.product_id ip.1))));
     ("product_name", Http.JVal (Js.JStr (Product.name ip.2)));
     ("quantity", Http.JVal (Js.JNumber (Js.Num (Inventory.qty ip.1))));
     ("price", Http.JVal (Js.JNumber (Js.Num (Product.price ip.2))))].

Definition shown_item (ip : Inventory.t * Product.t) : Http.Json :=
  Http.JObject
    [("id", Http.JVal (Js.JNumber (Js.Num (Inventory.inv_id ip.1))));
     ("product_name", Http.JVal (Js.JStr (Product.name ip.2)));
     ("price", Http.JVal (Js.JNumber (Js.Num (Product.price ip.2))));
     ("quantity", Http.JVal (Js.JNumber (Js.Num (Inventory.qty ip.1))));
     ("raw", listed_item ip)].

(** The object [j] is the item [item] for the handlers of the page. *)
Definition shows (j : Http.Json) (item : InventoryPage.InventoryItem) : Prop :=
  Http.get "id" j = Some (Http.JVal (Js.JNumber (InventoryPage.id item)))
  ∧ Http.get "product_name" j = Some (Http.JVal (Js.JStr (InventoryPage.product_name item)))
  ∧ Http.get "price" j = Some (Http.JVal (Js.JNumber (InventoryPage.price item)))
  ∧ Http.get "quantity" j = Some (Http.JVal (Js.JNumber (InventoryPage.quantity item))).

(** The ledger rows of machine [k] with their products. *)
Definition stocked_in (st : Store) (k : Z) : list (Inventory.t * Product.t) :=
  filter (λ ip, Inventory.machine_id ip.1 = k)
    (Sql.JOIN (inventory st) (products st)
       (λ i p, bool_decide (Product.product_id p = Inventory.product_id i))).

(** A product as [getProducts] returns it. *)
Definition listed_product (p : Product.t) : Http.Json :=
  Http.JObject
    [("id", Http.JVal (Js.JNumber (Js.Num (Product.product_id p))));
     ("name", Http.JVal (Js.JStr (Product.name p)));
     ("price", Http.JVal (Js.JNumber (Js.Num (Product.price p))));
     ("unit", Http.JVal (Js.JStr (Product.unit p)))].

(** The body of a [POST /api/products]: a name, an integer price and a unit
    that may be missing. *)
Definition product_body (name : string) (price : Z) (unit : option string)
    : gmap string Js.JsValue :=
  let named : gmap string Js.JsValue :=
    <[ "name" := Js.JStr name ]> {[ "price" := Js.JNumber (Js.Num price) ]} in
  match unit with
  | Some u => <[ "unit" := Js.JStr u ]> named
  | None => named
  end.

(** The unit the server stores for it. *)
Definition stored_unit (unit : option string) : string :=
  match unit with
  | Some u => if String.eqb u "" then "pcs" else u
  | None => "pcs"
  end.

(** A row of the machine distribution as the dashboard keeps it. *)
Definition dashboard_row (r : Z * string * Z * Z) : Http.Json :=
  Http.JObject
    [("machine_id", Http.JVal (Js.JNumber (Js.Num r.1.1.1)));
     ("machine_name", Http.JVal (Js.JStr r.1.1.2));
     ("total_qty", Http.JVal (Js.JNumber (Js.Num r.1.2)));
     ("total_value", Http.JVal (Js.JNumber (Js.Num r.2)))].

(** *** The revenue of a day *)

(** The sales of the day [d] and what they add up to. *)
Definition sales_on (st : Store) (d : Z) : list Sale.t :=
  filter (λ s, Sql.DATE (Sale.sale_time s) = d) (sales st).

Definition revenue_on (st : Store) (d : Z) : Z :=
  foldr Z.add 0 (Sale.total_amount <$> sales_on st d).

(** A row of the trend as the dashboard keeps it. *)
Definition trend_point `{de : Http.DateEncoding} (r : Z * Z) : Http.Json :=
  Http.JObject [("date", Http.JVal (Js.JStr (Js.String_ (Http.date_column r.1))));
                ("revenue", Http.JVal (Js.JNumber (Js.Num r.2)))].

(** The keys of [DashboardMetrics] in services/api.ts. *)
Definition DashboardMetrics_keys : list string :=
  ["total_products"; "total_machines"; "total_stock_quantity"; "total_stock_value";
   "top_selling_products"].

(** The sales the trend looks at, and a sum of amounts. *)
Definition recent_sales (st : Store) (now : Z) : list Sale.t :=
  filter (λ s, Sql.DATE now - 7 ≤ Sql.DATE (Sale.sale_time s)) (sales st).

Definition amount (l : list Sale.t) : Z := foldr Z.add 0 (Sale.total_amount <$> l).

(** * Properties *)

(** ** Numbers and their decimal literals *)

Section JsFacts.
Import Js.
Context `{rt : Runtime}.

Lemma integer_literal_decimal (z : Z) : integer_literal (decimal z) = Some z.
Proof.
  unfold integer_literal, decimal.
  rewrite NilZero.isi.
  - simpl. by rewrite DecimalZ.of_to.
  - destruct z; simpl; [done| |done].
    intros [= H]. by apply Unsigned.to_uint_nonnil in H.
  - destruct z; simpl; [done|done|].
    intros [= H]. by apply Unsigned.to_uint_nonnil in H.
Qed.

Lemma StringToNumber_decimal (z : Z) : StringToNumber (decimal z) = Num z.
Proof. unfold StringToNumber. by rewrite integer_literal_decimal. Qed.

Lemma parseInt10_decimal (z : Z) : parseInt10 (decimal z) = Num z.
Proof. unfold parseInt10. by rewrite integer_literal_decimal. Qed.

Lemma decimal_nonempty (z : Z) : String.eqb (decimal z) "" = false.
Proof.
  apply String.eqb_neq. intros H.
  pose proof (integer_literal_decimal z) as E. by rewrite H in E.
Qed.

(** [Number(x || 0)] and [Number(x) || 0] on a DECIMAL column. *)
Lemma Number_or_decimal (z : Z) :
  Number (js_or (Http.decimal_column z) Server.zero) = JNumber (Num z).
Proof.
  unfold Http.decimal_column, js_or, Number. simpl.
  rewrite decimal_nonempty. simpl. by rewrite StringToNumber_decimal.
Qed.

Lemma or_Number_decimal (z : Z) :
  js_or (Number (Http.decimal_column z)) Server.zero = JNumber (Num z).
Proof.
  unfold Http.decimal_column, js_or, Number. simpl.
  rewrite StringToNumber_decimal. simpl.
  destruct (Z.eqb_spec z 0) as [->|]; done.
Qed.

Lemma Number_path_segment (z : Z) : Number (JStr (decimal z)) = JNumber (Num z).
Proof. unfold Number. simpl. by rewrite StringToNumber_decimal. Qed.

End JsFacts.

(** ** The service layer sends [quantity], the server reads [qty] *)

Section ApiCalls.
Import Js Http.
Context `{rt : Runtime}.

Lemma api_body_has_no_qty (c : Api.Call) :
  field (Api.body_of (Api.request_of c)) "qty" = JUndefined.
Proof.
  destruct c; unfold field; simpl.
  - by rewrite lookup_singleton_ne.
  - by rewrite !lookup_insert_ne, lookup_singleton_ne.
Qed.

Lemma serve_api_call (st : Store) (now : Z) (c : Api.Call) :
  serve st now (Api.request_of c) = (st, bad_request_of c).
Proof.
  pose proof (api_body_has_no_qty c) as Hq.
  destruct c; simpl in *.
  - unfold Server.put_inventory. by rewrite Hq.
  - unfold Server.post_inventory. rewrite Hq. simpl. by rewrite !orb_true_r.
Qed.

Lemma serve_cjs_api_call (st : Store) (now : Z) (c : Api.Call) :
  serve_cjs st now (Api.request_of c) = (st, bad_request_of c).
Proof.
  pose proof (api_body_has_no_qty c) as Hq.
  destruct c; simpl in *.
  - unfold ServerCjs.put_inventory. by rewrite Hq.
  - unfold ServerCjs.post_inventory. rewrite Hq. simpl. by rewrite !orb_true_r.
Qed.

(** C10. Every call of [updateInventory] or [restockInventory] sends a body
    whose key is [quantity]; the server reads [qty], finds it undefined and
    answers 400 without touching the store, in both server files and for all
    arguments; so no sequence of such calls changes the store. *)
Theorem api_inventory_calls_are_rejected (st : Store) (now : Z) (c : Api.Call)
    (calls : list (Z * Api.Call)) :
  field (Api.body_of (Api.request_of c)) "qty" = JUndefined
  ∧ serve st now (Api.request_of c) = (st, bad_request_of c)
  ∧ serve_cjs st now (Api.request_of c) = (st, bad_request_of c)
  ∧ status (bad_request_of c) = 400
  ∧ run st (prod_map id Api.request_of <$> calls) = st
  ∧ run_cjs st (prod_map id Api.request_of <$> calls) = st.
Proof.
  split_and!.
  - apply api_body_has_no_qty.
  - apply serve_api_call.
  - apply serve_cjs_api_call.
  - by destruct c.
  - induction calls as [|[t c'] calls IH]; [done|].
    simpl. by rewrite serve_api_call.
  - induction calls as [|[t c'] calls IH]; [done|].
    simpl. by rewrite serve_cjs_api_call.
Qed.

End ApiCalls.

(** ** Validation of a restock *)

Section RestockValidation.
Import Js Http.
Context `{rt : Runtime}.

Lemma restock_body_fields (m p q : JsValue) :
  field (restock_body m p q) "machine_id" = m
  ∧ field (restock_body m p q) "product_id" = p
  ∧ field (restock_body m p q) "qty" = q.
Proof.
  unfold field, restock_body. split_and!.
  - by rewrite lookup_insert_eq.
  - by rewrite lookup_insert_ne, lookup_insert_eq.
  - by rewrite !lookup_insert_ne, lookup_singleton_eq.
Qed.

Lemma post_inventory_status (st : Store) (now : Z) (body : gmap string JsValue) :
  status (Server.post_inventory st now body).2 = 400
  ↔ truthy (field body "machine_id") = false
    ∨ truthy (field body "product_id") = false
    ∨ is_nullish (field body "qty") = true.
Proof.
  unfold Server.post_inventory, js_not.
  destruct (truthy (field body "machine_id")), (truthy (field body "product_id")),
    (is_nullish (field body "qty")); simpl; try (split; [intros _|intros _; done]; tauto).
  destruct (Server.restock _ _ _ _ _); simpl; split; try done; intros [|[|]]; done.
Qed.

Lemma post_inventory_cjs_status (st : Store) (now : Z) (body : gmap string JsValue) :
  status (ServerCjs.post_inventory st now body).2 = 400
  ↔ truthy (field body "machine_id") = false
    ∨ truthy (field body "product_id") = false
    ∨ truthy (field body "qty") = false.
Proof.
  unfold ServerCjs.post_inventory, js_not.
  destruct (truthy (field body "machine_id")), (truthy (field body "product_id")),
    (truthy (field body "qty")); simpl; try (split; [intros _|intros _; done]; tauto).
  destruct (ServerCjs.restock _ _ _ _ _); simpl; split; try done; intros [|[|]]; done.
Qed.

Lemma post_inventory_rejected (st : Store) (now : Z) (body : gmap string JsValue) :
  status (Server.post_inventory st now body).2 = 400 →
  Server.post_inventory st now body = (st, restock_rejection).
Proof.
  unfold Server.post_inventory.
  destruct (_ || _ || _); [done|].
  by destruct (Server.restock _ _ _ _ _).
Qed.

Lemma post_inventory_cjs_rejected (st : Store) (now : Z) (body : gmap string JsValue) :
  status (ServerCjs.post_inventory st now body).2 = 400 →
  ServerCjs.post_inventory st now body = (st, restock_rejection).
Proof.
  unfold ServerCjs.post_inventory.
  destruct (_ || _ || _); [done|].
  by destruct (ServerCjs.restock _ _ _ _ _).
Qed.

(** C6, as the code has it. Both files answer 400, and leave the store as it
    was, exactly when the guard of the file holds. In both, the guard holds
    when [machine_id] or [product_id] is missing or not truthy. The older file
    also rejects every quantity that is not truthy, zero included; server.js
    rejects a quantity only when it is missing or null. *)
Theorem restock_validation (st : Store) (now : Z) (body : gmap string JsValue) :
  (Server.post_inventory st now body = (st, restock_rejection)
   ↔ truthy (field body "machine_id") = false
     ∨ truthy (field body "product_id") = false
     ∨ is_nullish (field body "qty") = true)
  ∧ (ServerCjs.post_inventory st now body = (st, restock_rejection)
     ↔ truthy (field body "machine_id") = false
       ∨ truthy (field body "product_id") = false
       ∨ truthy (field body "qty") = false)
  ∧ (status (Server.post_inventory st now body).2 = 400
     ↔ Server.post_inventory st now body = (st, restock_rejection))
  ∧ (status (ServerCjs.post_inventory st now body).2 = 400
     ↔ ServerCjs.post_inventory st now body = (st, restock_rejection))
  ∧ (∀ m p, ServerCjs.post_inventory st now (restock_body m p (JNumber (Num 0)))
            = (st, restock_rejection))
  ∧ (∀ m p, truthy m = true → truthy p = true →
            status (Server.post_inventory st now (restock_body m p (JNumber (Num 0)))).2 = 201
            ∨ status (Server.post_inventory st now (restock_body m p (JNumber (Num 0)))).2 = 500).
Proof.
  assert (H1 : status (Server.post_inventory st now body).2 = 400
     ↔ Server.post_inventory st now body = (st, restock_rejection)).
  { split; [apply post_inventory_rejected|]. by intros ->. }
  assert (H2 : status (ServerCjs.post_inventory st now body).2 = 400
     ↔ ServerCjs.post_inventory st now body = (st, restock_rejection)).
  { split; [apply post_inventory_cjs_rejected|]. by intros ->. }
  split_and!; try done.
  - rewrite <- H1. apply post_inventory_status.
  - rewrite <- H2. apply post_inventory_cjs_status.
  - intros m p. apply post_inventory_cjs_rejected, post_inventory_cjs_status.
    destruct (restock_body_fields m p (JNumber (Num 0))) as (_ & _ & ->). auto.
  - intros m p Hm Hp. unfold Server.post_inventory, js_not.
    destruct (restock_body_fields m p (JNumber (Num 0))) as (-> & -> & ->).
    rewrite Hm, Hp. simpl. destruct (Server.restock _ _ _ _ _); auto.
Qed.

End RestockValidation.

(** C6 as stated fails on server.js: a restock with quantity 0 passes the
    guard, is answered 201 and creates the record. *)
Lemma restock_zero_accepted_by_server_js :
  Server.post_inventory (rt := Js.ascii_runtime) one_machine_store 1000
    (restock_body (Js.JNumber (Js.Num 1)) (Js.JNumber (Js.Num 1)) (Js.JNumber (Js.Num 0)))
  = (with_inventory one_machine_store [Inventory.mk 1 1 1 0 1000],
     Http.mkResponse 201 Http.ok_true).
Proof. vm_compute. reflexivity. Qed.

(** The older file rejects the same request. *)
Lemma restock_zero_rejected_by_older_file :
  ServerCjs.post_inventory (rt := Js.ascii_runtime) one_machine_store 1000
    (restock_body (Js.JNumber (Js.Num 1)) (Js.JNumber (Js.Num 1)) (Js.JNumber (Js.Num 0)))
  = (one_machine_store, restock_rejection).
Proof. vm_compute. reflexivity. Qed.

(** ** A direct set writes the quantity of its record and nothing else *)

Section SetQuantityFrame.
Import Js Http.
Context `{rt : Runtime}.

Lemma update_qty_rows (st st' : Store) (qty invId : JsValue) :
  Server.update_qty st qty invId = Some st' →
  ∃ q id, bind_int qty = Some q ∧ bind_int invId = Some id
    ∧ st' = with_inventory st
        ((λ r, if decide (Inventory.inv_id r = id) then Inventory.set_qty q r else r)
           <$> inventory st).
Proof.
  unfold Server.update_qty. intros H.
  destruct (bind_int qty) as [q|]; [|done].
  destruct (bind_int invId) as [id|]; [|done].
  simpl in H. injection H as <-. by exists q, id.
Qed.

Lemma update_qty_cjs_eq (st : Store) (qty invId : JsValue) :
  ServerCjs.update_qty st qty invId = Server.update_qty st qty invId.
Proof. done. Qed.

Lemma put_inventory_cjs_eq (st : Store) (param : string) (body : gmap string JsValue) :
  ServerCjs.put_inventory st param body = Server.put_inventory st param body.
Proof. done. Qed.

(** The store after a [PUT]: the old one, or the one [UPDATE] made. *)
Lemma put_inventory_store (st : Store) (param : string) (body : gmap string JsValue) :
  (Server.put_inventory st param body).1 = st
  ∨ (is_nullish (field body "qty") = false ∧ isNaN (field body "qty") = false
     ∧ Server.update_qty st (field body "qty") (Number (JStr param))
       = Some (Server.put_inventory st param body).1).
Proof.
  unfold Server.put_inventory.
  destruct (is_nullish (field body "qty")) eqn:Hn; [by left|].
  destruct (isNaN (field body "qty")) eqn:Hnan; [by left|]. simpl.
  destruct (Server.update_qty _ _ _) as [st'|] eqn:Hu; [|by left].
  right. split_and!; try done. by destruct (Server.select_row _ _).
Qed.

Lemma put_inventory_frame (st : Store) (param : string) (body : gmap string JsValue) :
  same_catalog_and_sales st (Server.put_inventory st param body).1
  ∧ Forall2 (set_only_qty param body)
      (inventory st) (inventory (Server.put_inventory st param body).1).
Proof.
  destruct (put_inventory_store st param body) as [->|(_ & _ & Hu)].
  - split; [done|]. apply Forall_Forall2_diag, Forall_forall.
    intros r _. by split.
  - apply update_qty_rows in Hu as (q & id & Hq & Hid & ->).
    split; [done|]. simpl.
    apply Forall2_fmap_r, Forall_Forall2_diag, Forall_forall.
    intros r _. simpl. case_decide as Hr; [|by split].
    split; [done|]. intros _. by rewrite Hid, Hq, Hr.
Qed.

(** C9. A [PUT /api/inventory/:invId], in either server file, leaves the
    other tables as they were and keeps every ledger row in its place with
    its ids and its [last_restock]; a row that differs afterwards is the one
    the path names, and it differs in [qty] only. A [DELETE] rewrites no row
    either: what remains was there before. *)
Theorem set_quantity_touches_only_qty (st : Store) (param : string)
    (body : gmap string JsValue) :
  same_catalog_and_sales st (Server.put_inventory st param body).1
  ∧ Forall2 (set_only_qty param body)
      (inventory st) (inventory (Server.put_inventory st param body).1)
  ∧ same_catalog_and_sales st (ServerCjs.put_inventory st param body).1
  ∧ Forall2 (set_only_qty param body)
      (inventory st) (inventory (ServerCjs.put_inventory st param body).1)
  ∧ same_catalog_and_sales st (Server.delete_inventory st param).1
  ∧ inventory (Server.delete_inventory st param).1 `sublist_of` inventory st.
Proof.
  pose proof (put_inventory_frame st param body) as [H1 H2].
  split_and!; try done.
  - unfold Server.delete_inventory. destruct (js_not _); [done|].
    unfold Server.delete_row. by destruct (bind_int _).
  - unfold Server.delete_inventory. destruct (js_not _); [done|].
    unfold Server.delete_row. destruct (bind_int _); [|done].
    simpl. apply sublist_filter.
Qed.

End SetQuantityFrame.

(** ** The ledger: restock is an upsert, and the unique key is kept *)

Section Ledger.
Import Js Http.
Context `{rt : Runtime}.

Lemma fresh_inv_id_above (rows : list Inventory.t) (r : Inventory.t) :
  r ∈ rows → Inventory.inv_id r < fresh_inv_id rows.
Proof.
  unfold fresh_inv_id. intros Hr.
  enough (Inventory.inv_id r ≤ foldr Z.max 0 (Inventory.inv_id <$> rows)) by lia.
  induction rows as [|r' rows IH].
  - by apply not_elem_of_nil in Hr.
  - rewrite fmap_cons. cbn [foldr].
    apply elem_of_cons in Hr as [->|Hr]; [lia|].
    specialize (IH Hr). lia.
Qed.

Lemma restock_cjs_eq (st : Store) (a b c : JsValue) (now : Z) :
  ServerCjs.restock st a b c now = Server.restock st a b c now.
Proof. done. Qed.

Lemma post_inventory_cjs_eq (st : Store) (now : Z) (body : gmap string JsValue) :
  truthy (field body "qty") = true →
  ServerCjs.post_inventory st now body = Server.post_inventory st now body.
Proof.
  intros Hq. unfold ServerCjs.post_inventory, Server.post_inventory, js_not.
  rewrite Hq. destruct (field body "qty"); done.
Qed.

(** What the upsert does, case by case. *)
Lemma restock_inv (st st' : Store) (a b c : JsValue) (now : Z) :
  Server.restock st a b c now = Some st' →
  ∃ m p v, bind_int a = Some m ∧ bind_int b = Some p ∧ bind_int c = Some v
    ∧ ((duplicate_key (inventory st) m p
        ∧ st' = with_inventory st
            ((λ r, if decide (Inventory.pair_of r = (m, p))
                   then Inventory.restocked (Inventory.qty r + v) now r else r)
               <$> inventory st))
       ∨ (¬ duplicate_key (inventory st) m p
          ∧ references_exist st m p
          ∧ st' = with_inventory st
              (inventory st ++ [Inventory.mk (fresh_inv_id (inventory st)) m p v now]))).
Proof.
  unfold Server.restock. intros H.
  destruct (bind_int a) as [m|]; [|done].
  destruct (bind_int b) as [p|]; [|done].
  destruct (bind_int c) as [v|]; [|done]. simpl in H.
  exists m, p, v. split_and!; try done.
  destruct (decide (duplicate_key _ _ _)) as [He|He].
  - left. split; [done|]. congruence.
  - right. destruct (decide (references_exist st m p)); [|done].
    split_and!; [done..|]. congruence.
Qed.

Lemma pair_absent_iff (m p : Z) (rows : list Inventory.t) :
  ¬ duplicate_key rows m p ↔ (m, p) ∉ Inventory.pair_of <$> rows.
Proof.
  unfold duplicate_key. rewrite Exists_exists, list_elem_of_fmap. split.
  - intros Hn (r & Hr & Hin). apply Hn. eauto.
  - intros Hn (r & Hin & Hr). apply Hn. eauto.
Qed.

Lemma restocked_keeps_pairs (m p : Z) (f : Inventory.t → Z) (now : Z)
    (rows : list Inventory.t) :
  Inventory.pair_of <$>
    ((λ r, if decide (Inventory.pair_of r = (m, p))
           then Inventory.restocked (f r) now r else r) <$> rows)
  = Inventory.pair_of <$> rows.
Proof.
  rewrite <- list_fmap_compose. apply list_fmap_ext.
  intros _ r _. simpl. by case_decide.
Qed.

Lemma restocked_keeps_ids (m p : Z) (f : Inventory.t → Z) (now : Z)
    (rows : list Inventory.t) :
  Inventory.inv_id <$>
    ((λ r, if decide (Inventory.pair_of r = (m, p))
           then Inventory.restocked (f r) now r else r) <$> rows)
  = Inventory.inv_id <$> rows.
Proof.
  rewrite <- list_fmap_compose. apply list_fmap_ext.
  intros _ r _. simpl. by case_decide.
Qed.

Lemma set_qty_keeps_pairs (id q : Z) (rows : list Inventory.t) :
  Inventory.pair_of <$>
    ((λ r, if decide (Inventory.inv_id r = id) then Inventory.set_qty q r else r) <$> rows)
  = Inventory.pair_of <$> rows.
Proof.
  rewrite <- list_fmap_compose. apply list_fmap_ext.
  intros _ r _. simpl. by case_decide.
Qed.

Lemma set_qty_keeps_ids (id q : Z) (rows : list Inventory.t) :
  Inventory.inv_id <$>
    ((λ r, if decide (Inventory.inv_id r = id) then Inventory.set_qty q r else r) <$> rows)
  = Inventory.inv_id <$> rows.
Proof.
  rewrite <- list_fmap_compose. apply list_fmap_ext.
  intros _ r _. simpl. by case_decide.
Qed.

(** Each statement keeps the unique key and the primary key. *)
Lemma restock_keeps_keys (st st' : Store) (a b c : JsValue) (now : Z) :
  Server.restock st a b c now = Some st' →
  (unique_pairs (inventory st) → unique_pairs (inventory st'))
  ∧ (unique_ids (inventory st) → unique_ids (inventory st')).
Proof.
  intros H. apply restock_inv in H as (m & p & v & _ & _ & _ & [[_ ->]|(Hn & _ & ->)]);
    unfold unique_pairs, unique_ids; simpl.
  - by rewrite restocked_keeps_pairs, restocked_keeps_ids.
  - rewrite !fmap_app. simpl. split; intros Hu.
    + apply NoDup_app. split_and!; [done| |apply NoDup_singleton].
      intros x Hx Hx'. apply list_elem_of_singleton in Hx' as ->.
      by apply pair_absent_iff in Hn.
    + apply NoDup_app. split_and!; [done| |apply NoDup_singleton].
      intros x Hx Hx'. apply list_elem_of_singleton in Hx' as ->.
      apply list_elem_of_fmap in Hx as (r & Hr & Hin).
      apply fresh_inv_id_above in Hin. lia.
Qed.

Lemma update_qty_keeps_keys (st st' : Store) (qty invId : JsValue) :
  Server.update_qty st qty invId = Some st' →
  (unique_pairs (inventory st) → unique_pairs (inventory st'))
  ∧ (unique_ids (inventory st) → unique_ids (inventory st')).
Proof.
  intros H. apply update_qty_rows in H as (q & id & _ & _ & ->).
  unfold unique_pairs, unique_ids. simpl.
  by rewrite set_qty_keeps_pairs, set_qty_keeps_ids.
Qed.

Lemma delete_row_keeps_keys (st st' : Store) (invId : JsValue) :
  Server.delete_row st invId = Some st' →
  (unique_pairs (inventory st) → unique_pairs (inventory st'))
  ∧ (unique_ids (inventory st) → unique_ids (inventory st')).
Proof.
  unfold Server.delete_row. intros H.
  destruct (bind_int invId) as [id|]; [|done]. injection H as <-.
  unfold unique_pairs, unique_ids. simpl.
  split; intros Hu; (eapply sublist_NoDup; [exact Hu|apply fmap_sublist, sublist_filter]).
Qed.

Lemma serve_keeps_keys (st : Store) (now : Z) (req : Request) :
  (unique_pairs (inventory st) → unique_pairs (inventory (serve st now req).1))
  ∧ (unique_ids (inventory st) → unique_ids (inventory (serve st now req).1)).
Proof.
  destruct req as [param body|body|param]; simpl.
  - destruct (put_inventory_store st param body) as [->|(_ & _ & Hu)]; [done|].
    by apply update_qty_keeps_keys in Hu.
  - unfold Server.post_inventory. destruct (_ || _ || _); [done|].
    destruct (Server.restock _ _ _ _ _) as [st'|] eqn:Hr; [|done].
    by apply restock_keeps_keys in Hr.
  - unfold Server.delete_inventory. destruct (js_not _); [done|].
    destruct (Server.delete_row _ _) as [st'|] eqn:Hd; [|done].
    by apply delete_row_keeps_keys in Hd.
Qed.

Lemma serve_cjs_keeps_keys (st : Store) (now : Z) (req : Request) :
  (unique_pairs (inventory st) → unique_pairs (inventory (serve_cjs st now req).1))
  ∧ (unique_ids (inventory st) → unique_ids (inventory (serve_cjs st now req).1)).
Proof.
  destruct req as [param body|body|param]; simpl; [| |done].
  - exact (serve_keeps_keys st now (PUT_inventory param body)).
  - unfold ServerCjs.post_inventory. destruct (_ || _ || _); [done|].
    rewrite restock_cjs_eq.
    destruct (Server.restock _ _ _ _ _) as [st'|] eqn:Hr; [|done].
    by apply restock_keeps_keys in Hr.
Qed.

Lemma run_keeps_keys (st : Store) (reqs : list (Z * Request)) :
  (unique_pairs (inventory st) → unique_pairs (inventory (run st reqs)))
  ∧ (unique_ids (inventory st) → unique_ids (inventory (run st reqs))).
Proof.
  revert st. induction reqs as [|[now req] reqs IH]; intros st; [done|].
  simpl. destruct (serve_keeps_keys st now req) as [H1 H2].
  destruct (IH (serve st now req).1) as [H3 H4]. auto.
Qed.

Lemma run_cjs_keeps_keys (st : Store) (reqs : list (Z * Request)) :
  (unique_pairs (inventory st) → unique_pairs (inventory (run_cjs st reqs)))
  ∧ (unique_ids (inventory st) → unique_ids (inventory (run_cjs st reqs))).
Proof.
  revert st. induction reqs as [|[now req] reqs IH]; intros st; [done|].
  simpl. destruct (serve_cjs_keeps_keys st now req) as [H1 H2].
  destruct (IH (serve_cjs st now req).1) as [H3 H4]. auto.
Qed.

End Ledger.

Section Restock.
Import Js Http.
Context `{rt : Runtime}.

Lemma restock_request_served (st : Store) (now : Z) (m p delta : Z) :
  m ≠ 0 → p ≠ 0 →
  serve st now (restock_request m p delta)
  = match Server.restock st (JNumber (Num m)) (JNumber (Num p)) (JNumber (Num delta)) now with
    | Some st' => (st', mkResponse 201 ok_true)
    | None => (st, internal_error)
    end.
Proof.
  intros Hm Hp. simpl. unfold Server.post_inventory.
  destruct (restock_body_fields (JNumber (Num m)) (JNumber (Num p)) (JNumber (Num delta)))
    as (-> & -> & ->).
  unfold js_not. simpl.
  destruct (Z.eqb_spec m 0); [done|]. destruct (Z.eqb_spec p 0); [done|]. done.
Qed.

Lemma restock_request_served_cjs (st : Store) (now : Z) (m p delta : Z) :
  delta ≠ 0 →
  serve_cjs st now (restock_request m p delta) = serve st now (restock_request m p delta).
Proof.
  intros Hd. simpl. apply post_inventory_cjs_eq.
  destruct (restock_body_fields (JNumber (Num m)) (JNumber (Num p)) (JNumber (Num delta)))
    as (_ & _ & ->).
  simpl. by destruct (Z.eqb_spec delta 0).
Qed.

Lemma restock_fresh (st : Store) (now : Z) (m p delta : Z) :
  (m, p) ∉ Inventory.pair_of <$> inventory st → references_exist st m p →
  Server.restock st (JNumber (Num m)) (JNumber (Num p)) (JNumber (Num delta)) now
  = Some (with_inventory st
            (inventory st ++ [Inventory.mk (fresh_inv_id (inventory st)) m p delta now])).
Proof.
  intros Hn Hfk. unfold Server.restock. simpl.
  apply pair_absent_iff in Hn.
  destruct (decide (duplicate_key _ _ _)); [done|].
  by destruct (decide (references_exist st m p)).
Qed.

Lemma restock_existing (st : Store) (now : Z) (m p delta : Z) (i : nat) (r : Inventory.t) :
  unique_pairs (inventory st) →
  inventory st !! i = Some r → Inventory.pair_of r = (m, p) →
  Server.restock st (JNumber (Num m)) (JNumber (Num p)) (JNumber (Num delta)) now
  = Some (with_inventory st
            (<[i := Inventory.mk (Inventory.inv_id r) m p (Inventory.qty r + delta) now]>
               (inventory st))).
Proof.
  intros Hu Hi Hr. unfold Server.restock. simpl.
  destruct (decide (duplicate_key _ _ _)) as [_|Hn].
  2: { exfalso. apply Hn, Exists_exists. exists r. split; [|done].
       by eapply list_elem_of_lookup_2. }
  do 2 f_equal. apply list_eq. intros j.
  rewrite list_lookup_fmap.
  destruct (decide (i = j)) as [<-|Hij].
  - rewrite Hi, list_lookup_insert_eq by by eapply lookup_lt_Some.
    simpl. rewrite decide_True by done.
    unfold Inventory.restocked, Inventory.pair_of in *. simpl. by simplify_eq.
  - rewrite list_lookup_insert_ne by done.
    destruct (inventory st !! j) as [r'|] eqn:Hj; [|done]. simpl.
    rewrite decide_False; [done|]. intros Hr'. apply Hij.
    eapply (NoDup_lookup _ i j (m, p) Hu); rewrite list_lookup_fmap.
    + by rewrite Hi; simpl; rewrite Hr.
    + by rewrite Hj; simpl; rewrite Hr'.
Qed.

(** C1, as the code has it. In server.js a restock of any integer [delta] on
    existing, non-zero ids is answered 201 and touches the ledger only. When
    the pair has no record, the ledger afterwards is the old one with one
    record more, of quantity [delta] and [last_restock] the time of the call;
    two restocks of a new pair leave that one record with the sum and the
    time of the second. When the pair has a record, the ledger afterwards is
    the old one with that record's quantity grown by [delta] and its
    [last_restock] the time of the call. The older file does the same when
    [delta] is not zero; a restock of zero it answers 400, leaving the store
    as it was. *)
Theorem restock_is_additive_upsert (st : Store) (now : Z) (m p delta : Z) :
  m ≠ 0 → p ≠ 0 → references_exist st m p → unique_pairs (inventory st) →
  status (serve st now (restock_request m p delta)).2 = 201
  ∧ same_catalog_and_sales st (serve st now (restock_request m p delta)).1
  ∧ ((m, p) ∉ Inventory.pair_of <$> inventory st →
     inventory (serve st now (restock_request m p delta)).1
     = inventory st ++ [Inventory.mk (fresh_inv_id (inventory st)) m p delta now]
     ∧ ∀ now2 delta2,
         inventory
           (run st [(now, restock_request m p delta); (now2, restock_request m p delta2)])
         = inventory st ++
             [Inventory.mk (fresh_inv_id (inventory st)) m p (delta + delta2) now2])
  ∧ (∀ i r, inventory st !! i = Some r → Inventory.pair_of r = (m, p) →
       inventory (serve st now (restock_request m p delta)).1
       = <[i := Inventory.mk (Inventory.inv_id r) m p (Inventory.qty r + delta) now]>
           (inventory st))
  ∧ (delta ≠ 0 →
       serve_cjs st now (restock_request m p delta)
       = serve st now (restock_request m p delta)
       ∧ ∀ now2 delta2, delta2 ≠ 0 →
           run_cjs st [(now, restock_request m p delta); (now2, restock_request m p delta2)]
           = run st [(now, restock_request m p delta); (now2, restock_request m p delta2)])
  ∧ serve_cjs st now (restock_request m p 0) = (st, restock_rejection)
  ∧ status restock_rejection = 400.
Proof.
  intros Hm Hp Hfk Hu.
  assert (Hfresh : (m, p) ∉ Inventory.pair_of <$> inventory st →
     serve st now (restock_request m p delta)
     = (with_inventory st
          (inventory st ++ [Inventory.mk (fresh_inv_id (inventory st)) m p delta now]),
        mkResponse 201 ok_true)).
  { intros Hn. by rewrite restock_request_served, restock_fresh. }
  assert (Hold : ∀ i r, inventory st !! i = Some r → Inventory.pair_of r = (m, p) →
     serve st now (restock_request m p delta)
     = (with_inventory st
          (<[i := Inventory.mk (Inventory.inv_id r) m p (Inventory.qty r + delta) now]>
             (inventory st)),
        mkResponse 201 ok_true)).
  { intros i r Hi Hr.
    by rewrite restock_request_served, (restock_existing _ _ _ _ _ i r). }
  assert (Hcase : (m, p) ∉ Inventory.pair_of <$> inventory st
                  ∨ ∃ i r, inventory st !! i = Some r ∧ Inventory.pair_of r = (m, p)).
  { destruct (decide ((m, p) ∈ Inventory.pair_of <$> inventory st)) as [Hin|Hn];
      [right|by left].
    apply list_elem_of_fmap in Hin as (r & Hr & Hin).
    apply list_elem_of_lookup in Hin as [i Hi]. by exists i, r. }
  split_and!.
  - destruct Hcase as [Hn|(i & r & Hi & Hr)];
      [by rewrite (Hfresh Hn)|by rewrite (Hold i r Hi Hr)].
  - destruct Hcase as [Hn|(i & r & Hi & Hr)];
      [by rewrite (Hfresh Hn)|by rewrite (Hold i r Hi Hr)].
  - intros Hn. split; [by rewrite (Hfresh Hn)|]. intros now2 delta2.
    cbn [run]. rewrite (Hfresh Hn). cbn [fst].
    set (row := Inventory.mk (fresh_inv_id (inventory st)) m p delta now).
    rewrite restock_request_served by done.
    rewrite (restock_existing _ now2 m p delta2 (length (inventory st)) row).
    + cbn [fst run inventory with_inventory].
      replace (length (inventory st)) with (length (inventory st) + 0)%nat by lia.
      by rewrite insert_app_r.
    + unfold unique_pairs. simpl. rewrite fmap_app. apply NoDup_app.
      split_and!; [done| |apply NoDup_singleton].
      intros x Hx Hx'. apply list_elem_of_singleton in Hx' as ->. done.
    + simpl. by rewrite list_lookup_middle.
    + done.
  - intros i r Hi Hr. by rewrite (Hold i r Hi Hr).
  - intros Hd. split; [by apply restock_request_served_cjs|].
    intros now2 delta2 Hd2. cbn [run run_cjs].
    by rewrite !restock_request_served_cjs.
  - cbn [serve_cjs restock_request]. unfold ServerCjs.post_inventory.
    destruct (restock_body_fields (JNumber (Num m)) (JNumber (Num p)) (JNumber (Num 0)))
      as (_ & _ & ->).
    unfold js_not. simpl. by rewrite !orb_true_r.
  - done.
Qed.

End Restock.

Section Accumulate.
Import Js Http.
Context `{rt : Runtime}.

Lemma filter_none {A} (P : A → Prop) `{∀ x, Decision (P x)} (l : list A) :
  Forall (λ x, ¬ P x) l → filter P l = [].
Proof.
  induction 1 as [|x l Hx _ IH]; [done|]. by rewrite filter_cons_False.
Qed.

Lemma last_default_cons (a n : Z) (xs : list Z) :
  default a (last (n :: xs)) = default n (last xs).
Proof. rewrite last_cons. by destruct (last xs). Qed.

Lemma restock_again (st : Store) (m p : Z) (l : list Inventory.t) (calls : list (Z * Z)) :
  m ≠ 0 → p ≠ 0 →
  ∀ k q t,
    unique_pairs (l ++ [Inventory.mk k m p q t]) →
    run (with_inventory st (l ++ [Inventory.mk k m p q t])) (restocks m p calls)
    = with_inventory st
        (l ++ [Inventory.mk k m p (q + total calls) (default t (last (calls.*1)))]).
Proof.
  intros Hm Hp. induction calls as [|[now d] calls IH]; intros k q t Hu.
  - unfold total. simpl. by rewrite Z.add_0_r.
  - unfold restocks. rewrite fmap_cons. cbn [run fst snd].
    rewrite restock_request_served by done.
    rewrite (restock_existing _ now m p d (length l) (Inventory.mk k m p q t));
      [|done|by apply list_lookup_middle|done].
    cbn [fst inventory with_inventory].
    replace (length l) with (length l + 0)%nat by lia.
    rewrite insert_app_r. cbn [Inventory.inv_id Inventory.qty].
    change (list_insert 0%nat ?x [?y]) with [x].
    fold (restocks m p calls).
    etrans; [apply (IH k (q + d) now)|].
    + unfold unique_pairs in *. by rewrite fmap_app in *.
    + unfold total. rewrite !fmap_cons, last_default_cons. cbn [foldr snd fst].
      by rewrite Z.add_assoc.
Qed.

(** C2. The unique key on the pair holds after every request when it held
    before it, in both server files, and so after every sequence of
    requests: a restock, a direct set, a delete, and what the page's remove
    sends (a delete or a direct set). Restocks of one pair that had no record
    leave exactly one record of it, holding the sum. *)
Theorem one_record_per_pair (st : Store) (reqs : list (Z * Request)) :
  unique_pairs (inventory st) →
  (∀ now req, unique_pairs (inventory (serve st now req).1))
  ∧ (∀ now req, unique_pairs (inventory (serve_cjs st now req).1))
  ∧ unique_pairs (inventory (run st reqs))
  ∧ unique_pairs (inventory (run_cjs st reqs))
  ∧ (∀ now selectedMachine item mode conf req,
       InventoryPage.handleRemove selectedMachine item mode conf = InventoryPage.Fetch req →
       unique_pairs (inventory (serve st now req).1))
  ∧ (∀ m p call calls,
       m ≠ 0 → p ≠ 0 → references_exist st m p →
       (m, p) ∉ Inventory.pair_of <$> inventory st →
       let row := Inventory.mk (fresh_inv_id (inventory st)) m p
                    (total (call :: calls)) (default call.1 (last (calls.*1))) in
       inventory (run st (restocks m p (call :: calls))) = inventory st ++ [row]
       ∧ rows_of_pair m p (inventory (run st (restocks m p (call :: calls)))) = [row]).
Proof.
  intros Hu. split_and!.
  - intros now req. by apply serve_keeps_keys.
  - intros now req. by apply serve_cjs_keeps_keys.
  - by apply run_keeps_keys.
  - by apply run_cjs_keeps_keys.
  - intros now sm item mode conf req _. by apply serve_keeps_keys.
  - intros m p [now d] calls Hm Hp Hfk Hn row.
    assert (Hrun : run st (restocks m p ((now, d) :: calls))
                   = with_inventory st (inventory st ++ [row])).
    { unfold restocks. rewrite fmap_cons. cbn [run fst snd].
      rewrite restock_request_served, restock_fresh by done. cbn [fst].
      fold (restocks m p calls). rewrite restock_again; [|done..|].
      - subst row. unfold total. rewrite fmap_cons. cbn [foldr snd fst]. done.
      - unfold unique_pairs. rewrite fmap_app. apply NoDup_app.
        split_and!; [done| |apply NoDup_singleton].
        intros x Hx Hx'. by apply list_elem_of_singleton in Hx' as ->. }
    rewrite Hrun. split; [done|]. simpl.
    unfold rows_of_pair. rewrite filter_app.
    rewrite (filter_none _ (inventory st)).
    + by rewrite filter_cons_True.
    + apply Forall_forall. intros r Hr Hpair. apply Hn.
      rewrite <- Hpair. by apply list_elem_of_fmap_2.
Qed.

End Accumulate.

(** ** Direct set, and remove by decrement *)

Section SetQuantity.
Import Js Http.
Context `{rt : Runtime}.

Lemma set_qty_at (l : list Inventory.t) (i : nat) (row : Inventory.t) (q : Z) :
  unique_ids l → l !! i = Some row →
  (λ r, if decide (Inventory.inv_id r = Inventory.inv_id row)
        then Inventory.set_qty q r else r) <$> l
  = <[i := Inventory.set_qty q row]> l.
Proof.
  intros Hu Hi. apply list_eq. intros j. rewrite list_lookup_fmap.
  destruct (decide (i = j)) as [<-|Hij].
  - rewrite Hi, list_lookup_insert_eq by by eapply lookup_lt_Some.
    simpl. by rewrite decide_True.
  - rewrite list_lookup_insert_ne by done.
    destruct (l !! j) as [r'|] eqn:Hj; [|done]. simpl.
    rewrite decide_False; [done|]. intros Hr'. apply Hij.
    eapply (NoDup_lookup _ i j (Inventory.inv_id row) Hu); rewrite list_lookup_fmap.
    + by rewrite Hi.
    + by rewrite Hj; simpl; rewrite Hr'.
Qed.

(** The server takes every integer, negative ones too. *)
Lemma set_request_served (st : Store) (now : Z) (k q : Z) :
  (serve st now (set_request k q)).1
  = with_inventory st
      ((λ r, if decide (Inventory.inv_id r = k) then Inventory.set_qty q r else r)
         <$> inventory st)
  ∧ status (serve st now (set_request k q)).2 = 200.
Proof.
  simpl. unfold Server.put_inventory.
  rewrite Number_path_segment.
  unfold qty_body, field. rewrite lookup_singleton_eq. simpl.
  unfold Server.select_row. simpl. done.
Qed.

Lemma set_request_served_cjs (st : Store) (now : Z) (k q : Z) :
  serve_cjs st now (set_request k q) = serve st now (set_request k q).
Proof. done. Qed.

End SetQuantity.

(** ** What the direct set checks, and what it does not *)

Section SetQuantityValidation.
Import Js Http.
Context `{rt : Runtime}.

(** The guard of the [PUT]: a quantity that is missing, null or not a number
    is answered 400 and the store is left as it was; nothing else is. *)
Lemma put_inventory_guard (st : Store) (param : string) (body : gmap string JsValue) :
  (Server.put_inventory st param body = (st, qty_required)
   ↔ is_nullish (field body "qty") = true ∨ isNaN (field body "qty") = true)
  ∧ (status (Server.put_inventory st param body).2 = 400
     ↔ Server.put_inventory st param body = (st, qty_required)).
Proof.
  assert (H : status (Server.put_inventory st param body).2 = 400
     ↔ is_nullish (field body "qty") = true ∨ isNaN (field body "qty") = true).
  { unfold Server.put_inventory.
    destruct (is_nullish (field body "qty")); [simpl; split; auto|].
    destruct (isNaN (field body "qty")); [simpl; split; auto|]. simpl.
    destruct (Server.update_qty _ _ _); [|split; [done|by intros [|]]].
    destruct (Server.select_row _ _); split; try done; by intros [|]. }
  assert (H' : status (Server.put_inventory st param body).2 = 400
     → Server.put_inventory st param body = (st, qty_required)).
  { intros Hs. apply H in Hs. unfold Server.put_inventory.
    destruct Hs as [->| ->]; [done|]. by rewrite orb_true_r. }
  split; [|split; [done|by intros ->]].
  rewrite <- H. split; [by intros ->|done].
Qed.

(** The edit form of the page does refuse it, before any request. *)
Lemma saveEdit_refuses_negative (editingId selectedMachine : JsValue) (z : Z) :
  truthy editingId = true → truthy selectedMachine = true → z < 0 →
  InventoryPage.saveEdit editingId selectedMachine (Num z)
  = InventoryPage.Toast "Validation" "Quantity must be a non-negative integer".
Proof.
  intros He Hs Hz. unfold InventoryPage.saveEdit, js_not. rewrite He, Hs. simpl.
  unfold js_or. simpl. destruct (Z.eqb_spec z 0); [lia|]. simpl.
  rewrite parseInt10_decimal. simpl.
  destruct (Z.ltb_spec z 0); [done|lia].
Qed.

(** C3, as the code has it. In both server files a direct set is answered
    400, with the store left as it was, exactly when the quantity is missing,
    null or not a number. Every integer passes, a negative one too: it is
    answered 200 and written to the record the path names. The edit form of
    the page is where a negative quantity is refused, before any request. *)
Theorem set_quantity_validation (st : Store) (now : Z) (param : string)
    (body : gmap string JsValue) :
  (Server.put_inventory st param body = (st, qty_required)
   ↔ is_nullish (field body "qty") = true ∨ isNaN (field body "qty") = true)
  ∧ (status (Server.put_inventory st param body).2 = 400
     ↔ Server.put_inventory st param body = (st, qty_required))
  ∧ ServerCjs.put_inventory st param body = Server.put_inventory st param body
  ∧ (∀ k z,
       (serve st now (set_request k z)).1
       = with_inventory st
           ((λ r, if decide (Inventory.inv_id r = k) then Inventory.set_qty z r else r)
              <$> inventory st)
       ∧ status (serve st now (set_request k z)).2 = 200
       ∧ serve_cjs st now (set_request k z) = serve st now (set_request k z))
  ∧ (∀ editingId selectedMachine z,
       truthy editingId = true → truthy selectedMachine = true → z < 0 →
       InventoryPage.saveEdit editingId selectedMachine (Num z)
       = InventoryPage.Toast "Validation" "Quantity must be a non-negative integer").
Proof.
  destruct (put_inventory_guard st param body) as [H1 H2].
  split_and!; [done|done|done| |].
  - intros k z. destruct (set_request_served st now k z) as [Hs Hc]. by split_and!.
  - apply saveEdit_refuses_negative.
Qed.

End SetQuantityValidation.

(** C3 fails on the server: a [PUT] with [qty = -1] on record 1 is answered 200
    and the record then holds -1, in both server files. *)
Lemma set_quantity_minus_one_is_stored :
  (Server.put_inventory (rt := Js.ascii_runtime) stocked_store "1" (qty_body (-1))).1
  = with_inventory stocked_store [Inventory.mk 1 1 1 (-1) 500]
  ∧ Http.status
      (Server.put_inventory (rt := Js.ascii_runtime) stocked_store "1" (qty_body (-1))).2
    = 200
  ∧ (ServerCjs.put_inventory (rt := Js.ascii_runtime) stocked_store "1" (qty_body (-1))).1
    = with_inventory stocked_store [Inventory.mk 1 1 1 (-1) 500]
  ∧ Http.status
      (ServerCjs.put_inventory (rt := Js.ascii_runtime) stocked_store "1" (qty_body (-1))).2
    = 200.
Proof. vm_compute. done. Qed.

(** ** The two metrics views *)

Section Metrics.
Import Js Http Sql.
Context `{rt : Runtime}.

(** [COALESCE(SUM(e), 0)] over rows on which [e] is never NULL is the sum. *)
Lemma SUM_total {A} (e : A → option Z) (f : A → Z) (rows : list A) :
  (∀ x, e x = Some (f x)) →
  COALESCE (SUM (e <$> rows)) 0 = foldr Z.add 0 (f <$> rows).
Proof.
  intros He. unfold COALESCE. induction rows as [|x rows IH]; [done|].
  rewrite !fmap_cons. cbn [SUM foldr]. rewrite He. simpl. by rewrite IH.
Qed.

Lemma sum_stock_quantity_spec (st : Store) :
  Server.sum_stock_quantity st = decimal_column (stock_quantity st).
Proof.
  unfold Server.sum_stock_quantity, stock_quantity. f_equal. by apply SUM_total.
Qed.

Lemma sum_stock_value_spec (st : Store) :
  Server.sum_stock_value st = decimal_column (stock_value st).
Proof.
  unfold Server.sum_stock_value, stock_value. f_equal. by apply SUM_total.
Qed.

(** The summed quantity goes out as the driver returned it: the decimal
    string of the sum, not a number. *)
Lemma total_stock_quantity_is_a_string (st : Store) :
  get "total_stock_quantity" (body (Server.get_metrics st))
  = Some (JVal (JStr (decimal (stock_quantity st))))
  ∧ get "itemsInStock" (body (Server.get_dashboard_metrics st))
    = Some (JVal (JStr (decimal (stock_quantity st)))).
Proof.
  cbn [Server.get_metrics Server.get_dashboard_metrics body get assoc].
  repeat (rewrite decide_False by done).
  rewrite !decide_True by done.
  by rewrite sum_stock_quantity_spec.
Qed.

(** C5. The four fields of the compatibility view are the corresponding
    fields of the primary view, on every store: the two counts, the summed
    quantity and the stock value. *)
Theorem compatibility_view_agrees (st : Store) :
  let primary := body (Server.get_metrics st) in
  let compat := body (Server.get_dashboard_metrics st) in
  get "totalProducts" compat = get "total_products" primary
  ∧ get "activeMachines" compat = get "total_machines" primary
  ∧ get "itemsInStock" compat = get "total_stock_quantity" primary
  ∧ get "stockValue" compat = get "total_stock_value" primary
  ∧ get "total_products" primary
    = Some (JVal (JNumber (Num (Z.of_nat (length (products st))))))
  ∧ get "total_machines" primary
    = Some (JVal (JNumber (Num (Z.of_nat (length (machines st))))))
  ∧ get "total_stock_quantity" primary
    = Some (JVal (JStr (decimal (stock_quantity st))))
  ∧ get "total_stock_value" primary
    = Some (JVal (JNumber (Num (stock_value st)))).
Proof.
  intros primary compat. subst primary compat.
  split_and!; try reflexivity.
  - apply total_stock_quantity_is_a_string.
  - cbn [Server.get_metrics body get assoc].
    repeat (rewrite decide_False by done).
    rewrite decide_True by done.
    by rewrite sum_stock_value_spec, or_Number_decimal.
Qed.

End Metrics.

(** C8 fails on [total_stock_quantity]: with an empty ledger the metrics
    response carries the string "0" there, while the stock value next to it
    is the number 0. *)
Lemma empty_ledger_total_is_the_string_zero :
  Http.get "total_stock_quantity"
    (Http.body (Server.get_metrics (rt := Js.ascii_runtime) one_machine_store))
  = Some (Http.JVal (Js.JStr "0"))
  ∧ Http.get "total_stock_value"
      (Http.body (Server.get_metrics (rt := Js.ascii_runtime) one_machine_store))
    = Some (Http.JVal (Js.JNumber (Js.Num 0))).
Proof. vm_compute. done. Qed.

(** ** Grouping, joining and ordering *)

Section Grouping.
Import Sql.
Context {K A : Type} `{EqDecision K}.
Implicit Types (k : K) (x : A) (groups : list (K * list A)).

Lemma group_add_new k x groups :
  k ∉ groups.*1 → group_add k x groups = groups ++ [(k, [x])].
Proof.
  induction groups as [|[k' xs] groups IH]; intros Hk; [done|].
  simpl in *. apply not_elem_of_cons in Hk as [Hne Hk].
  rewrite decide_False by done. by rewrite IH.
Qed.

Lemma group_add_last k x xs groups :
  k ∉ groups.*1 → group_add k x (groups ++ [(k, xs)]) = groups ++ [(k, xs ++ [x])].
Proof.
  induction groups as [|[k' xs'] groups IH]; intros Hk; simpl.
  - by rewrite decide_True.
  - simpl in Hk. apply not_elem_of_cons in Hk as [Hne Hk].
    rewrite decide_False by done. by rewrite IH.
Qed.

Lemma group_rest (key : A → K) k xs groups (block : list A) :
  k ∉ groups.*1 → Forall (λ x, key x = k) block →
  foldl (λ gs x, group_add (key x) x gs) (groups ++ [(k, xs)]) block
  = groups ++ [(k, xs ++ block)].
Proof.
  intros Hk Hb. revert xs.
  induction Hb as [|x block Hx _ IH]; intros xs; simpl.
  - by rewrite app_nil_r.
  - rewrite Hx, group_add_last by done. rewrite IH. by rewrite <- app_assoc.
Qed.

Lemma group_block (key : A → K) k groups (block : list A) :
  block ≠ [] → k ∉ groups.*1 → Forall (λ x, key x = k) block →
  foldl (λ gs x, group_add (key x) x gs) groups block = groups ++ [(k, block)].
Proof.
  intros Hne Hk Hb. destruct Hb as [|x block Hx Hb]; [done|]. simpl.
  rewrite Hx, group_add_new by done. by rewrite group_rest.
Qed.

(** Rows that come block by block, each block under a key of its own, are
    grouped into their blocks. *)
Lemma group_blocks {B} (key : A → K) (kb : B → K) (f : B → list A) (bs : list B) groups :
  NoDup (kb <$> bs) →
  (∀ b, f b ≠ []) → (∀ b, Forall (λ x, key x = kb b) (f b)) →
  (∀ b, b ∈ bs → kb b ∉ groups.*1) →
  foldl (λ gs x, group_add (key x) x gs) groups (flat_map f bs)
  = groups ++ ((λ b, (kb b, f b)) <$> bs).
Proof.
  intros Hnd Hne Hkey. revert groups.
  induction bs as [|b bs IH]; intros groups Hfresh; simpl.
  - by rewrite app_nil_r.
  - rewrite fmap_cons in Hnd. apply NoDup_cons in Hnd as [Hb Hnd].
    rewrite foldl_app, (group_block key (kb b) groups (f b));
      [|apply Hne| |apply Hkey].
    + rewrite IH; [by rewrite <- app_assoc|done|].
      intros b' Hb'. rewrite fmap_app. simpl.
      apply not_elem_of_app. split; [apply Hfresh; by right|].
      apply not_elem_of_cons. split; [|apply not_elem_of_nil].
      intros Heq. apply Hb. rewrite <- Heq. by apply list_elem_of_fmap_2.
    + apply Hfresh. by left.
Qed.

Lemma GROUP_BY_blocks {B} (key : A → K) (kb : B → K) (f : B → list A) (bs : list B) :
  NoDup (kb <$> bs) →
  (∀ b, f b ≠ []) → (∀ b, Forall (λ x, key x = kb b) (f b)) →
  GROUP_BY key (flat_map f bs) = (λ b, (kb b, f b)) <$> bs.
Proof.
  intros Hnd Hne Hkey. unfold GROUP_BY.
  rewrite (group_blocks key kb f bs []); [done..|].
  intros b _. apply not_elem_of_nil.
Qed.

End Grouping.

Section Joining.
Import Sql.
Context {A B : Type}.

Lemma LEFT_JOIN_blocks (l : list A) (r : list B) (on : A → B → bool) :
  LEFT_JOIN l r on = flat_map (left_block r on) l.
Proof. done. Qed.

Lemma left_block_nonempty (r : list B) (on : A → B → bool) (a : A) :
  left_block r on a ≠ [].
Proof. unfold left_block. by destruct (filter _ r). Qed.

Lemma left_block_fst (r : list B) (on : A → B → bool) (a : A) :
  Forall (λ x, x.1 = a) (left_block r on a).
Proof.
  unfold left_block. destruct (filter _ r) as [|b bs]; [by repeat constructor|].
  apply Forall_fmap, Forall_forall. by intros.
Qed.

Lemma left_block_alone (r : list B) (on : A → B → bool) (a : A) :
  filter (λ b, on a b = true) r = [] → left_block r on a = [(a, None)].
Proof. unfold left_block. by intros ->. Qed.

End Joining.

Lemma flat_map_flat_map {A B C} (f : A → list B) (g : B → list C) (l : list A) :
  flat_map g (flat_map f l) = flat_map (λ a, flat_map g (f a)) l.
Proof.
  induction l as [|a l IH]; [done|]. simpl. by rewrite flat_map_app, IH.
Qed.

Lemma flat_map_nonempty {A B} (f : A → list B) (l : list A) :
  l ≠ [] → (∀ a, f a ≠ []) → flat_map f l ≠ [].
Proof.
  destruct l as [|a l]; [done|]. intros _ Hf. simpl.
  specialize (Hf a). destruct (f a); done.
Qed.

Section Ordering.
Import Sql.
Context {A : Type} (key : A → Z).

#[local] Instance desc_by_total : Total (desc_by key).
Proof. intros a b. unfold desc_by. lia. Qed.

Lemma ORDER_BY_DESC_perm (l : list A) : ORDER_BY_DESC key l ≡ₚ l.
Proof. apply merge_sort_Permutation. Qed.

Lemma ORDER_BY_DESC_sorted (l : list A) :
  Sorted (λ a b, b ≤ a) (key <$> ORDER_BY_DESC key l).
Proof.
  apply (Sorted_fmap key (desc_by key)); [by intros|].
  apply (Sorted_merge_sort (desc_by key)).
Qed.

End Ordering.

(** ** Machine distribution *)

Section MachineDistribution.
Import Js Http Sql Server.
Context `{rt : Runtime}.

Lemma machine_name_display (m : Machine.t) : machine_name m = display_name m.
Proof.
  unfold machine_name, display_name, NULLIF, COALESCE.
  destruct m as [k [loc|] [desc|]]; simpl;
    repeat case_decide; subst; simpl; try done;
    repeat match goal with
           | H : ?s ≠ "" |- _ => apply String.eqb_neq in H; rewrite H; clear H
           end; done.
Qed.

Lemma distribution_joined_blocks (st : Store) :
  distribution_joined st = flat_map (machine_block st) (machines st).
Proof.
  unfold distribution_joined. by rewrite !LEFT_JOIN_blocks, flat_map_flat_map.
Qed.

Lemma machine_block_nonempty (st : Store) (m : Machine.t) : machine_block st m ≠ [].
Proof.
  apply flat_map_nonempty; [apply left_block_nonempty|].
  intros a. apply left_block_nonempty.
Qed.

Lemma machine_block_machine (st : Store) (m : Machine.t) :
  Forall (λ r : MIP, r.1.1 = m) (machine_block st m).
Proof.
  unfold machine_block. apply Forall_flat_map.
  eapply Forall_impl; [apply left_block_fst|].
  intros mi Hmi. simpl in Hmi.
  eapply Forall_impl; [apply left_block_fst|].
  intros r Hr. simpl in Hr. by rewrite Hr.
Qed.

Lemma machine_block_empty (st : Store) (m : Machine.t) :
  stock_of st m = [] → machine_block st m = [(m, None, None)].
Proof.
  intros Hs. unfold machine_block.
  rewrite left_block_alone.
  - simpl. rewrite app_nil_r. apply left_block_alone.
    apply filter_none, Forall_forall. by intros p _.
  - rewrite <- Hs. unfold stock_of. apply list_filter_iff.
    intros i. unfold on_machine. by rewrite bool_decide_eq_true.
Qed.

Lemma distribution_rows_spec (st : Store) :
  NoDup (Machine.machine_id <$> machines st) →
  distribution_rows st
  = ORDER_BY_DESC (λ r : Z * string * Z * Z, r.1.2) (machine_totals st <$> machines st).
Proof.
  intros Hnd. unfold distribution_rows. rewrite distribution_joined_blocks.
  rewrite (GROUP_BY_blocks _ (λ m, (Machine.machine_id m, machine_name m))).
  - by rewrite <- list_fmap_compose.
  - apply (NoDup_fmap_1 fst). by rewrite <- list_fmap_compose.
  - apply machine_block_nonempty.
  - intros m. eapply Forall_impl; [apply machine_block_machine|].
    intros r Hr. simpl in Hr. by rewrite Hr.
Qed.

Lemma distribution_out_spec (st : Store) :
  distribution_out st = out_row <$> distribution_rows st.
Proof.
  unfold distribution_out, distribution_query.
  rewrite <- list_fmap_compose. apply list_fmap_ext.
  intros _ r _. simpl. by rewrite !Number_or_decimal.
Qed.

Lemma out_row_machine (st : Store) (m : Machine.t) :
  out_row (machine_totals st m)
  = distribution_row m (group_qty (machine_block st m)) (group_value (machine_block st m)).
Proof. unfold out_row, distribution_row. simpl. by rewrite machine_name_display. Qed.

(** An id of the catalog names one product. *)
Lemma the_product (ps : list Product.t) (p : Product.t) (k : Z) :
  NoDup (Product.product_id <$> ps) → p ∈ ps → Product.product_id p = k →
  filter (λ p', bool_decide (Product.product_id p' = k) = true) ps = [p].
Proof.
  intros Hnd Hp <-. induction ps as [|q ps IH]; [by apply elem_of_nil in Hp|].
  rewrite fmap_cons in Hnd. apply NoDup_cons in Hnd as [Hq Hnd].
  apply elem_of_cons in Hp as [<-|Hp].
  - rewrite filter_cons_True by by apply bool_decide_eq_true.
    f_equal. apply filter_none, Forall_forall.
    intros q Hqin Heq%bool_decide_eq_true. apply Hq. rewrite <- Heq.
    by apply list_elem_of_fmap_2.
  - rewrite filter_cons_False; [by apply IH|].
    intros Heq%bool_decide_eq_true. apply Hq. rewrite Heq.
    by apply list_elem_of_fmap_2.
Qed.

Lemma Permutation_fmap_inv {A B} (g : A → B) (l : list B) (k : list A) :
  l ≡ₚ g <$> k → ∃ k', l = g <$> k' ∧ k ≡ₚ k'.
Proof. intros H. exact (Permutation_map_inv g k H). Qed.

Lemma SUM_app (l1 l2 : list (option Z)) :
  COALESCE (SUM (l1 ++ l2)) 0 = COALESCE (SUM l1) 0 + COALESCE (SUM l2) 0.
Proof.
  unfold COALESCE. induction l1 as [|[x|] l1 IH]; simpl; [done| |done].
  rewrite IH. lia.
Qed.

(** With [product_id] a key, a row of the first join meets one row of the
    second. *)
Lemma product_block_single (st : Store) (mi : Machine.t * option Inventory.t) :
  unique_products st →
  ∃ op, left_block (products st) on_product mi = [(mi, op)].
Proof.
  intros Hu. unfold left_block.
  destruct (filter (λ p, on_product mi p = true) (products st)) as [|p ps] eqn:Hf;
    [by exists None|].
  assert (Hp : p ∈ filter (λ p, on_product mi p = true) (products st))
    by (rewrite Hf; left).
  apply list_elem_of_filter in Hp as [Hon Hp].
  unfold on_product in Hon, Hf. destruct mi as [m [i|]]; simpl in *; [|done].
  apply bool_decide_eq_true in Hon.
  rewrite (the_product (products st) p) in Hf by done.
  assert (ps = []) as -> by congruence. by exists (Some p).
Qed.

Lemma joined_qty (st : Store) (mis : list (Machine.t * option Inventory.t)) :
  unique_products st →
  COALESCE (SUM (i_qty <$> flat_map (left_block (products st) on_product) mis)) 0
  = foldr Z.add 0 ((λ mi, default 0 (Inventory.qty <$> mi.2)) <$> mis).
Proof.
  intros Hu. induction mis as [|mi mis IH]; [done|].
  cbn [flat_map]. rewrite fmap_app, SUM_app, IH, fmap_cons. cbn [foldr]. f_equal.
  destruct (product_block_single st mi Hu) as [op ->].
  unfold i_qty, COALESCE. rewrite fmap_cons. cbn [fst snd fmap list_fmap].
  destruct (mi.2); simpl; lia.
Qed.

(** The summed quantity of a machine is the sum over its ledger rows. *)
Lemma machine_total_qty (st : Store) (m : Machine.t) :
  unique_products st →
  group_qty (machine_block st m) = foldr Z.add 0 (Inventory.qty <$> stock_of st m).
Proof.
  intros Hu. unfold group_qty, machine_block. rewrite joined_qty by done.
  unfold left_block, stock_of.
  rewrite (list_filter_iff (λ i, on_machine m i = true)
             (λ i, Inventory.machine_id i = Machine.machine_id m))
    by (intros i; unfold on_machine; apply bool_decide_eq_true).
  destruct (filter _ (inventory st)) as [|i l]; [done|].
  by rewrite <- list_fmap_compose.
Qed.

(** C7. When machine ids are unique, the response is an array with exactly
    one row per machine; the row of a machine carries, under the keys
    [machine_id], [machine_name], [total_qty] and [total_value], its id, the
    name the spec gives it (location, else description, else the label) and
    numbers as totals, both 0 when the machine has no ledger row; the rows
    come in descending order of [total_qty]. With [product_id] a key of the
    catalog, [total_qty] is the sum of the quantities of the machine's ledger
    rows. *)
Theorem machine_distribution_rows (st : Store) :
  NoDup (Machine.machine_id <$> machines st) →
  ∃ rows : list (Machine.t * Z * Z),
    get_machine_distribution st
    = mkResponse 200 (JArray ((λ r, response_row r.1.1 r.1.2 r.2) <$> rows))
    ∧ rows.*1.*1 ≡ₚ machines st
    ∧ Forall (λ r, stock_of st r.1.1 = [] → r.1.2 = 0 ∧ r.2 = 0) rows
    ∧ Sorted (λ a b, b ≤ a) rows.*1.*2
    ∧ (unique_products st →
       Forall (λ r, r.1.2 = foldr Z.add 0 (Inventory.qty <$> stock_of st r.1.1)) rows).
Proof.
  intros Hnd.
  pose proof (ORDER_BY_DESC_perm (λ r : Z * string * Z * Z, r.1.2)
                (machine_totals st <$> machines st)) as Hperm.
  apply Permutation_fmap_inv in Hperm as (ms & Hms & Hpm).
  exists ((λ m, (m, group_qty (machine_block st m), group_value (machine_block st m)))
            <$> ms).
  split_and!.
  - unfold get_machine_distribution.
    rewrite distribution_out_spec, distribution_rows_spec by done.
    rewrite Hms, <- !list_fmap_compose. do 2 f_equal.
    apply list_fmap_ext. intros i m _.
    unfold distribution_json, out_row, machine_totals, response_row. simpl.
    by rewrite machine_name_display.
  - rewrite Hpm, <- !list_fmap_compose.
    clear. induction ms as [|m ms IH]; [done|]. rewrite fmap_cons. by f_equiv.
  - apply Forall_fmap, Forall_forall. intros m _ Hm. simpl.
    by rewrite machine_block_empty.
  - pose proof (ORDER_BY_DESC_sorted (λ r : Z * string * Z * Z, r.1.2)
                  (machine_totals st <$> machines st)) as Hs.
    rewrite Hms, <- list_fmap_compose in Hs. rewrite <- !list_fmap_compose.
    exact Hs.
  - intros Hu. apply Forall_fmap, Forall_forall. intros m _. simpl.
    by apply machine_total_qty.
Qed.

(** The sums the handlers do coerce go out as numbers. *)
Lemma coerced_sums_are_numbers (st : Store) :
  get "total_stock_value" (body (get_metrics st))
  = Some (JVal (JNumber (Num (stock_value st))))
  ∧ get "total_revenue" (body (get_metrics st))
    = Some (JVal (JNumber (Num (foldr Z.add 0 (Sale.total_amount <$> sales st)))))
  ∧ get "total_sales_count" (body (get_metrics st))
    = Some (JVal (JNumber (Num (Z.of_nat (length (sales st))))))
  ∧ Forall (λ r, ∃ name z, top_selling_json r
                           = JObject [("product_name", JVal (JStr name));
                                      ("total_sales", JVal (JNumber (Num z)))])
      (top_selling 10 st)
  ∧ Forall (λ r, ∃ q v, Distribution.total_qty r = JNumber (Num q)
                        ∧ Distribution.total_value r = JNumber (Num v))
      (distribution_out st).
Proof.
  split_and!.
  - cbn [get_metrics body get assoc].
    repeat (rewrite decide_False by done). rewrite decide_True by done.
    by rewrite sum_stock_value_spec, or_Number_decimal.
  - cbn [get_metrics body get assoc].
    repeat (rewrite decide_False by done). rewrite decide_True by done.
    unfold sum_revenue. rewrite or_Number_decimal. do 4 f_equal.
    by apply SUM_total.
  - done.
  - unfold top_selling. apply Forall_fmap, Forall_forall. intros [name z] _.
    exists name, z. unfold top_selling_json. simpl. by rewrite Number_or_decimal.
  - rewrite distribution_out_spec. apply Forall_fmap, Forall_forall.
    intros r _. by exists r.1.2, r.2.
Qed.

End MachineDistribution.

(** ** The properties at concrete stores *)

Section AtConcreteStores.
#[local] Existing Instance Js.ascii_runtime.

Lemma restock_five_then_three :
  ((1 : Z) ≠ 0 ∧ references_exist one_machine_store 1 1
   ∧ unique_pairs (inventory one_machine_store)
   ∧ (1, 1) ∉ Inventory.pair_of <$> inventory one_machine_store)
  ∧ inventory (serve one_machine_store 1000 (restock_request 1 1 5)).1
    = [Inventory.mk 1 1 1 5 1000]
  ∧ inventory
      (run one_machine_store
         [(1000, restock_request 1 1 5); (2000, restock_request 1 1 3)])
    = [Inventory.mk 1 1 1 8 2000].
Proof.
  assert (H1 : (1 : Z) ≠ 0) by done.
  assert (Hfk : references_exist one_machine_store 1 1)
    by (split; apply list_elem_of_here).
  assert (Hu : unique_pairs (inventory one_machine_store)) by apply NoDup_nil_2.
  assert (Hn : (1, 1) ∉ Inventory.pair_of <$> inventory one_machine_store)
    by apply not_elem_of_nil.
  split; [done|].
  destruct (restock_is_additive_upsert
              one_machine_store 1000 1 1 5 H1 H1 Hfk Hu) as (_ & _ & Hfresh & _).
  destruct (Hfresh Hn) as [Hone Htwo]. split; [exact Hone|exact (Htwo 2000 3)].
Defined.

(** C1 fails in the older file at zero: a restock of 0 of a new pair is
    answered 400 there and makes no record, where server.js makes the record
    with quantity 0. *)
Lemma restock_of_zero_makes_no_record_in_older_file :
  Http.status (serve_cjs one_machine_store 1000 (restock_request 1 1 0)).2 = 400
  ∧ inventory (serve_cjs one_machine_store 1000 (restock_request 1 1 0)).1 = []
  ∧ Http.status (serve one_machine_store 1000 (restock_request 1 1 0)).2 = 201
  ∧ inventory (serve one_machine_store 1000 (restock_request 1 1 0)).1
    = [Inventory.mk 1 1 1 0 1000].
Proof. by vm_compute. Qed.

Lemma one_record_after_three_restocks :
  unique_pairs (inventory one_machine_store)
  ∧ rows_of_pair 1 1
      (inventory (run one_machine_store
                    (restocks 1 1 [(1000, 5); (2000, 3); (3000, 4)])))
    = [Inventory.mk 1 1 1 12 3000].
Proof.
  assert (H1 : (1 : Z) ≠ 0) by done.
  assert (Hfk : references_exist one_machine_store 1 1)
    by (split; apply list_elem_of_here).
  assert (Hu : unique_pairs (inventory one_machine_store)) by apply NoDup_nil_2.
  assert (Hn : (1, 1) ∉ Inventory.pair_of <$> inventory one_machine_store)
    by apply not_elem_of_nil.
  split; [done|].
  destruct (one_record_per_pair one_machine_store [] Hu)
    as (_ & _ & _ & _ & _ & Hacc).
  exact (proj2 (Hacc 1 1 (1000, 5) [(2000, 3); (3000, 4)] H1 H1 Hfk Hn)).
Defined.

Lemma three_machines_three_rows :
  NoDup (Machine.machine_id <$> machines three_machine_store)
  ∧ Server.get_machine_distribution three_machine_store
    = Http.mkResponse 200
        (Http.JArray
           [response_row (Machine.mk 1 (Some "Lobby") None) 12 270;
            response_row (Machine.mk 3 None (Some "Gym")) 4 80;
            response_row (Machine.mk 2 (Some "") None) 0 0])
  ∧ Http.get "machine_name" (response_row (Machine.mk 2 (Some "") None) 0 0)
    = Some (Http.JVal (Js.JStr "Machine 2"))
  ∧ ∃ rows : list (Machine.t * Z * Z),
      Server.get_machine_distribution three_machine_store
      = Http.mkResponse 200
          (Http.JArray ((λ r, response_row r.1.1 r.1.2 r.2) <$> rows))
      ∧ rows.*1.*1 ≡ₚ machines three_machine_store
      ∧ Sorted (λ a b, b ≤ a) rows.*1.*2.
Proof.
  assert (Hnd : NoDup (Machine.machine_id <$> machines three_machine_store)).
  { apply (bool_decide_unpack _). by vm_compute. }
  split; [done|]. split; [by vm_compute|]. split; [by vm_compute|].
  destruct (machine_distribution_rows three_machine_store Hnd)
    as (rows & Hres & Hperm & _ & Hsorted & _).
  exists rows. split_and!; [exact Hres|exact Hperm|exact Hsorted].
Defined.

(** The name of the third row is the label. *)
Example unnamed_machine_label :
  display_name (Machine.mk 2 (Some "") None) = "Machine 2".
Proof. reflexivity. Qed.

(** The metrics of the same store: the summed quantity is a string, the other
    sums are numbers, and the top sellers come by descending sales. *)
Example metrics_of_three_machines :
  Server.get_metrics three_machine_store
  = Http.mkResponse 200
      (Http.JObject
         [("total_products", Http.JVal (Js.JNumber (Js.Num 2)));
          ("total_machines", Http.JVal (Js.JNumber (Js.Num 3)));
          ("total_stock_quantity", Http.JVal (Js.JStr "16"));
          ("total_stock_value", Http.JVal (Js.JNumber (Js.Num 350)));
          ("total_revenue", Http.JVal (Js.JNumber (Js.Num 125)));
          ("total_sales_count", Http.JVal (Js.JNumber (Js.Num 2)));
          ("top_selling_products",
           Http.JArray
             [Http.JObject [("product_name", Http.JVal (Js.JStr "Cola"));
                            ("total_sales", Http.JVal (Js.JNumber (Js.Num 3)))];
              Http.JObject [("product_name", Http.JVal (Js.JStr "Chips"));
                            ("total_sales", Http.JVal (Js.JNumber (Js.Num 2)))]])]).
Proof. by vm_compute. Qed.

(** The page's forms: a negative edit and a restock of zero are refused
    before any request; "all", once confirmed, sends the delete. *)
Example page_guards :
  InventoryPage.saveEdit (Js.JNumber (Js.Num 1)) (Js.JNumber (Js.Num 1)) (Js.Num (-1))
  = InventoryPage.Toast "Validation" "Quantity must be a non-negative integer"
  ∧ InventoryPage.handleRestock (Js.JNumber (Js.Num 1)) "1" "0"
    = InventoryPage.Toast "Error" "Enter a valid product and positive quantity"
  ∧ InventoryPage.handleRemove (Js.JNumber (Js.Num 1))
      (InventoryPage.mkItem (Js.Num 1) "Chips" (Js.Num 20) (Js.Num 10)) (Some " ALL ") true
    = InventoryPage.Fetch (DELETE_inventory "1").
Proof. by vm_compute. Qed.

End AtConcreteStores.

(** * The ledger seen from its clients *)

(** ** A restock and the total of the metrics *)

Section RestockAndTotal.
Import Js Http.
Context `{rt : Runtime}.

Lemma restocked_absent (m p : Z) (f : Inventory.t → Inventory.t) (rows : list Inventory.t) :
  (m, p) ∉ Inventory.pair_of <$> rows →
  (λ r, if decide (Inventory.pair_of r = (m, p)) then f r else r) <$> rows = rows.
Proof.
  intros Hn. induction rows as [|r rows IH]; [done|].
  rewrite fmap_cons in Hn. apply not_elem_of_cons in Hn as [Hr Hn].
  rewrite fmap_cons, IH by done. by rewrite decide_False.
Qed.

Lemma restocked_sum (m p v now : Z) (rows : list Inventory.t) :
  unique_pairs rows → duplicate_key rows m p →
  foldr Z.add 0
    (Inventory.qty <$>
       ((λ r, if decide (Inventory.pair_of r = (m, p))
              then Inventory.restocked (Inventory.qty r + v) now r else r) <$> rows))
  = foldr Z.add 0 (Inventory.qty <$> rows) + v.
Proof.
  unfold unique_pairs, duplicate_key. intros Hu He.
  induction rows as [|r rows IH]; [by apply Exists_nil in He|].
  rewrite fmap_cons in Hu. apply NoDup_cons in Hu as [Hr Hu].
  rewrite !fmap_cons. cbn [foldr].
  case_decide as Hp.
  - rewrite restocked_absent by by rewrite <- Hp. simpl. lia.
  - apply Exists_cons in He as [He|He]; [done|].
    rewrite IH by done. lia.
Qed.

Lemma sum_snoc {A} (f : A → Z) (l : list A) (x : A) :
  foldr Z.add 0 (f <$> l ++ [x]) = foldr Z.add 0 (f <$> l) + f x.
Proof.
  induction l as [|y l IH]; [simpl; lia|].
  rewrite <- app_comm_cons, !fmap_cons. cbn [foldr]. rewrite IH. lia.
Qed.

Lemma restock_total (st st' : Store) (a b c : JsValue) (now : Z) :
  unique_pairs (inventory st) → Server.restock st a b c now = Some st' →
  ∃ v, bind_int c = Some v ∧ stock_quantity st' = stock_quantity st + v.
Proof.
  intros Hu H.
  apply restock_inv in H as (m & p & v & _ & _ & Hv & [[He ->]|(_ & _ & ->)]);
    exists v; (split; [done|]); unfold stock_quantity; simpl.
  - by apply restocked_sum.
  - by rewrite sum_snoc.
Qed.

Lemma post_inventory_created (st : Store) (now : Z) (body : gmap string JsValue) :
  status (Server.post_inventory st now body).2 = 201 →
  Server.restock st (field body "machine_id") (field body "product_id") (field body "qty") now
  = Some (Server.post_inventory st now body).1.
Proof.
  unfold Server.post_inventory.
  destruct (_ || _ || _); [done|]. by destruct (Server.restock _ _ _ _ _).
Qed.

Lemma post_inventory_cjs_created (st : Store) (now : Z) (body : gmap string JsValue) :
  status (ServerCjs.post_inventory st now body).2 = 201 →
  Server.restock st (field body "machine_id") (field body "product_id") (field body "qty") now
  = Some (ServerCjs.post_inventory st now body).1.
Proof.
  unfold ServerCjs.post_inventory.
  destruct (_ || _ || _); [done|]. rewrite restock_cjs_eq.
  by destruct (Server.restock _ _ _ _ _).
Qed.

(** X1. On a ledger with one record per pair, a restock that is answered 201
    raises the sum of all quantities by the quantity it was sent, whether it
    made a record or added to one; the metrics then report the decimal string
    of the new sum. The older file does the same. *)
Theorem restock_raises_the_total (st : Store) (now : Z) (body : gmap string JsValue) :
  unique_pairs (inventory st) →
  status (Server.post_inventory st now body).2 = 201 →
  ∃ v, bind_int (field body "qty") = Some v
    ∧ stock_quantity (Server.post_inventory st now body).1 = stock_quantity st + v
    ∧ get "total_stock_quantity"
        (Http.body (Server.get_metrics (Server.post_inventory st now body).1))
      = Some (JVal (JStr (decimal (stock_quantity st + v))))
    ∧ (status (ServerCjs.post_inventory st now body).2 = 201 →
       stock_quantity (ServerCjs.post_inventory st now body).1 = stock_quantity st + v).
Proof.
  intros Hu Hs. apply post_inventory_created in Hs.
  destruct (restock_total _ _ _ _ _ _ Hu Hs) as (v & Hv & Hsum).
  exists v. split_and!; [done|done| |].
  - destruct (total_stock_quantity_is_a_string (Server.post_inventory st now body).1)
      as [-> _].
    by rewrite Hsum.
  - intros Hc. apply post_inventory_cjs_created in Hc.
    destruct (restock_total _ _ _ _ _ _ Hu Hc) as (v' & Hv' & Hsum').
    congruence.
Qed.

End RestockAndTotal.

(** ** Deleting a record *)

Section Delete.
Import Js Http.
Context `{rt : Runtime}.

Lemma delete_request_served (st : Store) (k : Z) :
  k ≠ 0 →
  Server.delete_inventory st (decimal k)
  = (with_inventory st (filter (λ r, Inventory.inv_id r ≠ k) (inventory st)),
     mkResponse 200 ok_true).
Proof.
  intros Hk. unfold Server.delete_inventory. rewrite Number_path_segment.
  unfold js_not. simpl. by destruct (Z.eqb_spec k 0).
Qed.

Lemma filter_absent (k : Z) (rows : list Inventory.t) :
  k ∉ Inventory.inv_id <$> rows → filter (λ r, Inventory.inv_id r ≠ k) rows = rows.
Proof.
  intros Hn. induction rows as [|r rows IH]; [done|].
  rewrite fmap_cons in Hn. apply not_elem_of_cons in Hn as [Hr Hn].
  rewrite filter_cons_True by done. by rewrite IH.
Qed.

Lemma deleted_id_absent (k : Z) (rows : list Inventory.t) :
  k ∉ Inventory.inv_id <$> filter (λ r, Inventory.inv_id r ≠ k) rows.
Proof.
  intros (r & -> & Hr)%list_elem_of_fmap.
  by apply list_elem_of_filter in Hr as [Hne _].
Qed.

(** X2. [DELETE /api/inventory/:invId]. A path segment whose number is 0 or
    [NaN] is answered 400 and nothing is deleted. For every other integer [k]
    of magnitude at most 2^53, the integers that unary [+] reads from their
    digits without rounding, the answer is 200, also when no record has that
    id (the store is then unchanged): afterwards no record has the id [k],
    every other record is still there, in its place among the others, the
    other tables are the same, and a second delete changes nothing more. *)
Theorem delete_removes_the_record (st : Store) (param : string) (k : Z) :
  (truthy (Number (JStr param)) = false →
   Server.delete_inventory st param
   = (st, mkResponse 400 (error_message "invId required")))
  ∧ Server.delete_inventory st (decimal 0)
    = (st, mkResponse 400 (error_message "invId required"))
  ∧ (k ≠ 0 → Z.abs k ≤ 2 ^ 53 →
     let st' := (Server.delete_inventory st (decimal k)).1 in
     (Server.delete_inventory st (decimal k)).2 = mkResponse 200 ok_true
     ∧ (k ∉ inv_ids st')
     ∧ (∀ r, r ∈ inventory st' ↔ r ∈ inventory st ∧ Inventory.inv_id r ≠ k)
     ∧ inventory st' `sublist_of` inventory st
     ∧ same_catalog_and_sales st st'
     ∧ (k ∉ inv_ids st → st' = st)
     ∧ Server.delete_inventory st' (decimal k) = (st', mkResponse 200 ok_true)).
Proof.
  split_and!.
  - intros Hf. unfold Server.delete_inventory, js_not. by rewrite Hf.
  - unfold Server.delete_inventory. by rewrite Number_path_segment.
  - intros Hk _ st'. subst st'. rewrite (delete_request_served st k Hk). simpl.
    split_and!; try done.
    + apply deleted_id_absent.
    + intros r. rewrite list_elem_of_filter. tauto.
    + apply sublist_filter.
    + intros Hn. destruct st. unfold with_inventory, inv_ids in *. simpl in *.
      by rewrite filter_absent.
    + rewrite delete_request_served by done. simpl.
      rewrite (filter_absent k (filter _ (inventory st))); [done|].
      apply deleted_id_absent.
Qed.

(** X3. The page's remove. With no machine selected, a cancelled prompt or an
    answer that trims to nothing, no request is sent. An answer that reads
    [all] (any case, spaces around it) sends nothing unless the confirmation
    is accepted; accepted, it sends the [DELETE] of the item's id, which
    server.js answers 200 and after which no record has that id. The older
    server file has no such route: it answers 404 and keeps the record. *)
Theorem remove_all_needs_confirmation (st : Store) (now : Z) (selectedMachine : JsValue)
    (item : InventoryPage.InventoryItem) (answer : string) (conf : bool) (k : Z) :
  truthy selectedMachine = true →
  toLowerCase (trim answer) = "all" →
  InventoryPage.id item = Num k →
  k ≠ 0 →
  InventoryPage.handleRemove selectedMachine item None conf = InventoryPage.Nothing
  ∧ InventoryPage.handleRemove JNull item (Some answer) conf = InventoryPage.Nothing
  ∧ (∀ blank, toLowerCase (trim blank) = "" →
       InventoryPage.handleRemove selectedMachine item (Some blank) conf
       = InventoryPage.Nothing)
  ∧ InventoryPage.handleRemove selectedMachine item (Some answer) false
    = InventoryPage.Nothing
  ∧ InventoryPage.handleRemove selectedMachine item (Some answer) true
    = InventoryPage.Fetch (DELETE_inventory (decimal k))
  ∧ status (serve st now (DELETE_inventory (decimal k))).2 = 200
  ∧ (k ∉ inv_ids (serve st now (DELETE_inventory (decimal k))).1)
  ∧ status (serve_cjs st now (DELETE_inventory (decimal k))).2 = 404
  ∧ (serve_cjs st now (DELETE_inventory (decimal k))).1 = st.
Proof.
  intros Hsm Hall Hid Hk.
  unfold InventoryPage.handleRemove, js_not. rewrite Hsm, Hall, Hid.
  cbn [serve]. rewrite delete_request_served by done. simpl.
  split_and!; try done.
  - intros blank ->. by rewrite decide_True.
  - apply deleted_id_absent.
Qed.

End Delete.

(** ** The page never makes a quantity negative *)

Section PageRequests.
Import Js Http.
Context `{rt : Runtime}.

Lemma saveEdit_sends (editingId selectedMachine : JsValue) (editQuantity : JsNumber)
    (req : Request) :
  InventoryPage.saveEdit editingId selectedMachine editQuantity = InventoryPage.Fetch req →
  ∃ z, 0 ≤ z ∧ req = PUT_inventory (String_ editingId) (qty_body z).
Proof.
  unfold InventoryPage.saveEdit. destruct (_ || _); [done|].
  destruct (parseInt10 _) as [|z]; simpl; [done|].
  destruct (Z.ltb_spec z 0); [done|]. intros [= <-]. by exists z.
Qed.

Lemma handleRemove_sends (selectedMachine : JsValue) (item : InventoryPage.InventoryItem)
    (mode : option string) (conf : bool) (req : Request) :
  InventoryPage.handleRemove selectedMachine item mode conf = InventoryPage.Fetch req →
  req = DELETE_inventory (ToString (InventoryPage.id item))
  ∨ req = PUT_inventory (ToString (InventoryPage.id item)) {[ "qty" := JNull ]}
  ∨ ∃ z, 0 ≤ z ∧ req = PUT_inventory (ToString (InventoryPage.id item)) (qty_body z).
Proof.
  unfold InventoryPage.handleRemove. destruct (js_not _); [done|].
  destruct mode as [mode|]; [|done].
  case_decide; [done|]. case_decide.
  - destruct conf; [|done]. intros [= <-]. by left.
  - destruct (parseInt10 _) as [|r]; simpl; [done|].
    destruct (Z.ltb_spec r 0); [done|].
    destruct (InventoryPage.quantity item) as [|q]; simpl; intros [= <-].
    + right. by left.
    + right. right. exists (Z.max 0 (q - r)). split; [lia|done].
Qed.

Lemma handleRestock_sends (selectedMachine : JsValue) (form_productId form_quantity : string)
    (req : Request) :
  InventoryPage.handleRestock selectedMachine form_productId form_quantity
  = InventoryPage.Fetch req →
  ∃ p z, p ≠ 0 ∧ 0 < z ∧ truthy selectedMachine = true
    ∧ req = POST_inventory
              (restock_body selectedMachine (JNumber (Num p)) (JNumber (Num z))).
Proof.
  unfold InventoryPage.handleRestock, js_not.
  destruct (truthy selectedMachine) eqn:Hsm; simpl; [|done].
  destruct (parseInt10 form_productId) as [|p]; simpl; [done|].
  destruct (Z.eqb_spec p 0); simpl; [done|].
  destruct (parseInt10 form_quantity) as [|z]; simpl; [done|].
  destruct (Z.eqb_spec z 0); simpl; [done|].
  destruct (Z.leb_spec z 0); [done|]. intros [= <-]. by exists p, z.
Qed.

Lemma put_keeps_non_negative (st : Store) (param : string) (body : gmap string JsValue) :
  field body "qty" = JNull ∨ (∃ z, 0 ≤ z ∧ field body "qty" = JNumber (Num z)) →
  non_negative (inventory st) →
  non_negative (inventory (Server.put_inventory st param body).1).
Proof.
  intros Hq Hst.
  destruct (put_inventory_store st param body) as [->|(Hn & _ & Hu)]; [done|].
  destruct Hq as [Hq|(z & Hz & Hq)]; rewrite Hq in Hn, Hu; [done|].
  apply update_qty_rows in Hu as (q & id & [= <-] & _ & ->). simpl.
  apply Forall_fmap. eapply Forall_impl; [exact Hst|].
  intros r Hr. simpl. by case_decide.
Qed.

Lemma restock_keeps_non_negative (st st' : Store) (a b : JsValue) (z now : Z) :
  0 ≤ z → Server.restock st a b (JNumber (Num z)) now = Some st' →
  non_negative (inventory st) → non_negative (inventory st').
Proof.
  intros Hz H Hst.
  apply restock_inv in H as (m & p & v & _ & _ & [= <-] & [[_ ->]|(_ & _ & ->)]); simpl.
  - apply Forall_fmap. eapply Forall_impl; [exact Hst|].
    intros r Hr. simpl in *. case_decide; simpl; lia.
  - apply Forall_app. split; [done|]. by apply Forall_singleton.
Qed.

Lemma delete_keeps_non_negative (st : Store) (param : string) :
  non_negative (inventory st) →
  non_negative (inventory (Server.delete_inventory st param).1).
Proof.
  intros Hst. unfold Server.delete_inventory. destruct (js_not _); [done|].
  unfold Server.delete_row. destruct (bind_int _); [|done]. simpl.
  apply Forall_forall. intros r [_ Hr]%list_elem_of_filter.
  by eapply Forall_forall in Hst.
Qed.

Lemma sent_by_page_keeps_non_negative (st : Store) (now : Z) (req : Request) :
  sent_by_page req → non_negative (inventory st) →
  non_negative (inventory (serve st now req).1)
  ∧ non_negative (inventory (serve_cjs st now req).1).
Proof.
  intros Hreq Hst. destruct Hreq as [e s q req H|s item mode conf req H|s fp fq req H].
  - apply saveEdit_sends in H as (z & Hz & ->). simpl.
    split; (apply put_keeps_non_negative; [|done]); right; exists z; (split; [done|]);
      unfold field, qty_body; by rewrite lookup_singleton_eq.
  - apply handleRemove_sends in H as [->|[->|(z & Hz & ->)]]; simpl.
    + split; [|done]. by apply delete_keeps_non_negative.
    + split; (apply put_keeps_non_negative; [|done]); left;
        unfold field; by rewrite lookup_singleton_eq.
    + split; (apply put_keeps_non_negative; [|done]); right; exists z; (split; [done|]);
        unfold field, qty_body; by rewrite lookup_singleton_eq.
  - apply handleRestock_sends in H as (p & z & Hp & Hz & Hsm & ->). simpl.
    unfold Server.post_inventory, ServerCjs.post_inventory.
    destruct (restock_body_fields s (JNumber (Num p)) (JNumber (Num z))) as (-> & -> & ->).
    change (ServerCjs.restock st s (JNumber (Num p)) (JNumber (Num z)) now)
      with (Server.restock st s (JNumber (Num p)) (JNumber (Num z)) now).
    destruct (Server.restock _ _ _ _ _) as [st'|] eqn:Hr.
    + assert (non_negative (inventory st')).
      { eapply restock_keeps_non_negative; [|exact Hr|done]. lia. }
      by destruct (_ || _ || _), (_ || _ || _).
    + by destruct (_ || _ || _), (_ || _ || _).
Qed.

(** X4. Whatever the three handlers of the inventory page send (the edit
    form, the remove prompt, the restock form, with any input), the server
    keeps the quantities non-negative: if no record holds a negative quantity
    before a run of such requests, none does after it, in either server
    file. *)
Theorem page_keeps_quantities_non_negative (st : Store) (reqs : list (Z * Request)) :
  Forall sent_by_page reqs.*2 →
  non_negative (inventory st) →
  non_negative (inventory (run st reqs)) ∧ non_negative (inventory (run_cjs st reqs)).
Proof.
  intros Hreqs Hst. split.
  - revert st Hst. induction reqs as [|[now req] reqs IH]; intros st Hst; [done|].
    rewrite fmap_cons in Hreqs. apply Forall_cons in Hreqs as [Hreq Hreqs]. simpl.
    apply IH; [done|]. by apply sent_by_page_keeps_non_negative.
  - revert st Hst. induction reqs as [|[now req] reqs IH]; intros st Hst; [done|].
    rewrite fmap_cons in Hreqs. apply Forall_cons in Hreqs as [Hreq Hreqs]. simpl.
    apply IH; [done|]. by apply sent_by_page_keeps_non_negative.
Qed.

(** X5. Two direct sets of the same record: the store after both is the store
    after the second alone, so the last quantity written wins and a repeated
    set changes nothing more. *)
Theorem last_direct_set_wins (st : Store) (t1 t2 : Z) (k q1 q2 : Z) :
  run st [(t1, set_request k q1); (t2, set_request k q2)] = run st [(t2, set_request k q2)]
  ∧ run st [(t1, set_request k q1); (t2, set_request k q1)] = run st [(t1, set_request k q1)]
  ∧ run_cjs st [(t1, set_request k q1); (t2, set_request k q2)]
    = run_cjs st [(t2, set_request k q2)].
Proof.
  assert (H : ∀ a b c d,
    run st [(a, set_request k b); (c, set_request k d)] = run st [(c, set_request k d)]).
  { intros a b c d. cbn [run].
    destruct (set_request_served st a k b) as [-> _].
    destruct (set_request_served (with_inventory st
      ((λ r, if decide (Inventory.inv_id r = k) then Inventory.set_qty b r else r)
         <$> inventory st)) c k d) as [-> _].
    destruct (set_request_served st c k d) as [-> _].
    unfold with_inventory. simpl. f_equal.
    rewrite <- list_fmap_compose. apply list_fmap_ext. intros i r _. simpl.
    repeat case_decide; done. }
  split_and!.
  - apply H.
  - rewrite (H t1 q1 t2 q1). cbn [run].
    destruct (set_request_served st t1 k q1) as [-> _].
    by destruct (set_request_served st t2 k q1) as [-> _].
  - exact (H t1 q1 t2 q2).
Qed.

End PageRequests.

(** * The top sellers *)

(** ** Grouping rows that come in any order *)

Section GroupingAll.
Import Sql.
Context {K A : Type} `{EqDecision K} (key : A → K).
Implicit Types (k : K) (x : A) (l : list A) (groups : list (K * list A)).

Lemma group_add_old k x groups :
  NoDup groups.*1 → k ∈ groups.*1 →
  group_add k x groups
  = (λ g, if decide (g.1 = k) then (g.1, g.2 ++ [x]) else g) <$> groups.
Proof.
  induction groups as [|[k' xs] groups IH]; intros Hnd Hk;
    [by apply elem_of_nil in Hk|].
  rewrite fmap_cons in Hnd, Hk. simpl in Hnd, Hk.
  apply NoDup_cons in Hnd as [Hk' Hnd].
  rewrite fmap_cons. simpl. destruct (decide (k = k')) as [->|Hne].
  - rewrite decide_True by done. f_equal.
    rewrite <- (list_fmap_id groups) at 1. apply list_fmap_ext.
    intros i g Hg. simpl. rewrite decide_False; [done|].
    intros Heq. apply Hk'. rewrite <- Heq.
    apply list_elem_of_fmap_2. by eapply list_elem_of_lookup_2.
  - rewrite decide_False by done. f_equal. apply IH; [done|].
    by apply elem_of_cons in Hk as [?|?].
Qed.

Lemma group_add_grouped l groups x :
  grouped key l groups → grouped key (l ++ [x]) (group_add (key x) x groups).
Proof.
  intros (Hnd & Hg & Hk).
  destruct (decide (key x ∈ groups.*1)) as [Hin|Hout].
  - rewrite group_add_old by done.
    assert (Hkeys : ((λ g : K * list A,
                        if decide (g.1 = key x) then (g.1, g.2 ++ [x]) else g)
                       <$> groups).*1 = groups.*1).
    { rewrite <- list_fmap_compose. apply list_fmap_ext.
      intros i g _. simpl. by case_decide. }
    split_and!.
    + by rewrite Hkeys.
    + apply Forall_fmap. eapply Forall_impl; [exact Hg|].
      intros g Hgg. simpl in *. rewrite filter_app.
      case_decide as Hgk; simpl.
      * rewrite filter_cons_True, filter_nil by done. by rewrite Hgg.
      * rewrite filter_cons_False, filter_nil, app_nil_r by done. done.
    + intros k. rewrite Hkeys, fmap_app, elem_of_app, Hk. simpl.
      rewrite list_elem_of_singleton. split; [by left|].
      intros [?| ->]; [done|]. by apply Hk.
  - rewrite group_add_new by done. split_and!.
    + rewrite fmap_app. apply NoDup_app. split_and!; [done| |apply NoDup_singleton].
      intros k Hk1 Hk2. simpl in Hk2. apply list_elem_of_singleton in Hk2. by subst.
    + apply Forall_app. split.
      * apply Forall_forall. intros g Hgin.
        rewrite Forall_forall in Hg. rewrite filter_app, (Hg g Hgin).
        rewrite filter_cons_False, filter_nil, app_nil_r; [done|].
        intros Heq. apply Hout. rewrite Heq. by apply list_elem_of_fmap_2.
      * apply Forall_singleton. simpl. rewrite filter_app.
        rewrite filter_cons_True, filter_nil by done.
        rewrite (filter_none _ l); [done|].
        apply Forall_forall. intros y Hy Heq. apply Hout, Hk.
        rewrite <- Heq. by apply list_elem_of_fmap_2.
    + intros k. rewrite !fmap_app, !elem_of_app, Hk. simpl.
      by rewrite !list_elem_of_singleton.
Qed.

Lemma foldl_grouped (l1 l2 : list A) groups :
  grouped key l1 groups →
  grouped key (l1 ++ l2) (foldl (λ gs x, group_add (key x) x gs) groups l2).
Proof.
  revert l1 groups. induction l2 as [|x l2 IH]; intros l1 groups Hg; simpl.
  - by rewrite app_nil_r.
  - rewrite cons_middle, app_assoc. apply IH. by apply group_add_grouped.
Qed.

Lemma GROUP_BY_grouped l : grouped key l (GROUP_BY key l).
Proof.
  apply (foldl_grouped [] l []). split_and!; [constructor|constructor|done].
Qed.

End GroupingAll.

(** ** The query of the top sellers *)

Section TopSellers.
Import Js Http Sql.
Context `{rt : Runtime}.

Lemma elem_of_JOIN {A B} (l : list A) (r : list B) (on : A → B → bool) (a : A) (b : B) :
  (a, b) ∈ JOIN l r on ↔ a ∈ l ∧ b ∈ r ∧ on a b = true.
Proof.
  unfold JOIN. rewrite list_elem_of_In, in_flat_map. split.
  - intros (a' & Ha & Hab). apply list_elem_of_In in Ha, Hab.
    apply list_elem_of_fmap in Hab as (b' & [= -> ->] & Hb).
    apply list_elem_of_filter in Hb as [Hon Hb]. done.
  - intros (Ha & Hb & Hon). exists a. rewrite <- !list_elem_of_In.
    split; [done|]. apply list_elem_of_fmap. exists b. split; [done|].
    by apply list_elem_of_filter.
Qed.

(** The joined rows of one product are its sale items. *)
Lemma group_of_product (st : Store) (p : Product.t) :
  unique_products st → p ∈ products st →
  filter (λ sp : SaleItem.t * Product.t,
            (SaleItem.product_id sp.1, Product.name sp.2)
            = (Product.product_id p, Product.name p))
    (JOIN (sale_items st) (products st)
       (λ si p', bool_decide (Product.product_id p' = SaleItem.product_id si)))
  = (λ si, (si, p)) <$> items_of st (Product.product_id p).
Proof.
  intros Hu Hp. unfold JOIN, items_of.
  induction (sale_items st) as [|si items IH]; [done|].
  cbn [flat_map]. rewrite filter_app, IH.
  destruct (decide (SaleItem.product_id si = Product.product_id p)) as [Heq|Hne].
  - rewrite (the_product (products st) p) by done.
    rewrite (filter_cons_True (λ si, SaleItem.product_id si = Product.product_id p))
      by done.
    simpl. rewrite filter_cons_True by (simpl; congruence). by rewrite filter_nil.
  - rewrite (filter_cons_False (λ si, SaleItem.product_id si = Product.product_id p))
      by done.
    rewrite filter_none; [done|]. apply Forall_fmap, Forall_forall.
    intros q _. simpl. congruence.
Qed.

Lemma sold_keys (st : Store) (k : Z * string) :
  k ∈ (λ sp : SaleItem.t * Product.t, (SaleItem.product_id sp.1, Product.name sp.2)) <$>
        JOIN (sale_items st) (products st)
          (λ si p', bool_decide (Product.product_id p' = SaleItem.product_id si))
  ↔ k ∈ (λ p, (Product.product_id p, Product.name p)) <$> sellers st.
Proof.
  rewrite !list_elem_of_fmap. unfold sellers. split.
  - intros ([si p] & -> & (Hsi & Hp & Hon%bool_decide_eq_true)%elem_of_JOIN).
    exists p. simpl. split; [by rewrite Hon|].
    apply list_elem_of_filter. split; [|done].
    apply Exists_exists. by exists si.
  - intros (p & -> & (Hex & Hp)%list_elem_of_filter).
    apply Exists_exists in Hex as (si & Hsi & Heq).
    exists (si, p). simpl. split; [by rewrite Heq|].
    apply elem_of_JOIN. split_and!; [done..|]. by apply bool_decide_eq_true.
Qed.

Lemma unique_sellers (st : Store) :
  unique_products st →
  NoDup ((λ p, (Product.product_id p, Product.name p)) <$> sellers st).
Proof.
  intros Hu. apply (NoDup_fmap_1 fst). rewrite <- list_fmap_compose.
  eapply sublist_NoDup; [exact Hu|].
  apply fmap_sublist, sublist_filter.
Qed.

(** The rows of the query before [ORDER BY] and [LIMIT]. *)
Lemma top_selling_groups (st : Store) :
  unique_products st →
  (λ g : Z * string * list (SaleItem.t * Product.t),
     (g.1.2, COALESCE (SUM ((λ sp, Some (SaleItem.qty sp.1)) <$> g.2)) 0)) <$>
    GROUP_BY (λ sp : SaleItem.t * Product.t,
                (SaleItem.product_id sp.1, Product.name sp.2))
      (JOIN (sale_items st) (products st)
         (λ si p', bool_decide (Product.product_id p' = SaleItem.product_id si)))
  ≡ₚ seller_row st <$> sellers st.
Proof.
  intros Hu.
  set (key := λ sp : SaleItem.t * Product.t,
                (SaleItem.product_id sp.1, Product.name sp.2)).
  set (joined := JOIN _ _ _).
  destruct (GROUP_BY_grouped key joined) as (Hnd & Hg & Hk).
  assert (Hrows :
    (λ g : Z * string * list (SaleItem.t * Product.t),
       (g.1.2, COALESCE (SUM ((λ sp, Some (SaleItem.qty sp.1)) <$> g.2)) 0)) <$>
      GROUP_BY key joined
    = (λ k : Z * string, (k.2, units_sold st k.1)) <$> (GROUP_BY key joined).*1).
  { rewrite <- list_fmap_compose. apply list_fmap_ext.
    intros i g Hgi. simpl. f_equal.
    assert (Hgin : g ∈ GROUP_BY key joined) by by eapply list_elem_of_lookup_2.
    rewrite Forall_forall in Hg. rewrite (Hg g Hgin).
    assert (Hkey : g.1 ∈ (GROUP_BY key joined).*1) by by apply list_elem_of_fmap_2.
    apply Hk, sold_keys, list_elem_of_fmap in Hkey as (p & -> & Hp).
    apply list_elem_of_filter in Hp as [_ Hp].
    subst key joined. simpl. rewrite group_of_product by done.
    rewrite <- list_fmap_compose.
    by rewrite (SUM_total _ SaleItem.qty). }
  rewrite Hrows.
  transitivity ((λ k : Z * string, (k.2, units_sold st k.1)) <$>
                  ((λ p, (Product.product_id p, Product.name p)) <$> sellers st)).
  - apply fmap_Permutation, NoDup_Permutation; [done|by apply unique_sellers|].
    intros k. rewrite Hk. apply sold_keys.
  - by rewrite <- list_fmap_compose.
Qed.

(** X6. With [product_id] the key of the catalog, the top sellers are the
    first [n] rows of a ranking of the products that have a sale item: every
    such product once and no other, each with its name and the sum of the
    quantities of its sale items, in descending order of that sum. The
    response carries the sums as numbers, and never more than [n] rows. *)
Theorem top_selling_ranks_the_sellers (n : nat) (st : Store) :
  unique_products st →
  ∃ ranked : list (string * Z),
    ranked ≡ₚ seller_row st <$> sellers st
    ∧ Sorted (λ a b, b ≤ a) ranked.*2
    ∧ Server.top_selling n st = top_selling_row <$> take n ranked
    ∧ Server.top_selling_json <$> Server.top_selling n st
      = top_selling_out <$> take n ranked
    ∧ (length (Server.top_selling n st) ≤ n)%nat.
Proof.
  intros Hu. unfold Server.top_selling.
  set (rows := _ <$> GROUP_BY _ _).
  exists (ORDER_BY_DESC snd rows). split_and!.
  - rewrite ORDER_BY_DESC_perm. by apply top_selling_groups.
  - apply ORDER_BY_DESC_sorted.
  - done.
  - rewrite <- list_fmap_compose. apply list_fmap_ext. intros i r _.
    unfold Server.top_selling_json, top_selling_out. simpl.
    by rewrite (Number_or_decimal r.2).
  - rewrite length_fmap. unfold LIMIT. rewrite length_take. lia.
Qed.

Lemma top_selling_json_cjs (n : nat) (st : Store) :
  ServerCjs.top_selling_json <$> Server.top_selling n st
  = Server.top_selling_json <$> Server.top_selling n st.
Proof.
  unfold Server.top_selling. rewrite <- !list_fmap_compose.
  apply list_fmap_ext. intros i r _.
  unfold ServerCjs.top_selling_json, Server.top_selling_json. simpl.
  by rewrite (Number_or_decimal r.2), (or_Number_decimal r.2).
Qed.

(** Two answers of [ORDER BY key DESC] on the same rows carry the same keys
    in the same places, whatever they do with rows of equal keys. *)
Lemma may_rank_same_keys {A} (key : A → Z) (rows r1 r2 : list A) :
  may_rank key rows r1 → may_rank key rows r2 → key <$> r1 = key <$> r2.
Proof.
  intros [Hp1 Hs1] [Hp2 Hs2].
  assert (Transitive (λ a b : Z, b ≤ a)) by (intros x y z ??; lia).
  assert (AntiSymm (=) (λ a b : Z, b ≤ a)) by (intros x y ??; lia).
  apply (Sorted_unique (λ a b : Z, b ≤ a)); [done..|].
  by rewrite Hp1, Hp2.
Qed.

Lemma top_selling_json_row (r : string * Z) :
  Server.top_selling_json (top_selling_row r) = top_selling_out r.
Proof.
  unfold Server.top_selling_json, top_selling_out, top_selling_row. simpl.
  by rewrite (Number_or_decimal r.2).
Qed.

Lemma top_selling_json_cjs_row (r : string * Z) :
  ServerCjs.top_selling_json (top_selling_row r) = top_selling_out r.
Proof.
  unfold ServerCjs.top_selling_json, top_selling_out, top_selling_row. simpl.
  by rewrite (or_Number_decimal r.2).
Qed.

(** X7. The metrics of the older server file against those of server.js. The
    status and every field but [top_selling_products] are the same. The two
    files rank the same rows by the same key, the older one keeping five and
    server.js ten; rows of equal [total_sales] may come in a different order
    in each. Whatever the two orders are, the older list has at most five
    rows, each a row of the query, and its [total_sales], place by place,
    are the first five [total_sales] of the list of server.js. *)
Theorem older_metrics_list_five (st : Store) (k : string) :
  status (ServerCjs.get_metrics st) = status (Server.get_metrics st)
  ∧ (k ≠ "top_selling_products" →
     get k (body (ServerCjs.get_metrics st)) = get k (body (Server.get_metrics st)))
  ∧ (∃ ranked5 ranked10 : list (string * Z),
       may_rank snd (unranked_sellers st) ranked5
       ∧ may_rank snd (unranked_sellers st) ranked10
       ∧ get "top_selling_products" (body (ServerCjs.get_metrics st))
         = Some (JArray (ServerCjs.top_selling_json <$>
                           (top_selling_row <$> LIMIT 5 ranked5)))
       ∧ get "top_selling_products" (body (Server.get_metrics st))
         = Some (JArray (Server.top_selling_json <$>
                           (top_selling_row <$> LIMIT 10 ranked10))))
  ∧ (∀ ranked5 ranked10 : list (string * Z),
       may_rank snd (unranked_sellers st) ranked5 →
       may_rank snd (unranked_sellers st) ranked10 →
       let older := ServerCjs.top_selling_json <$> (top_selling_row <$> LIMIT 5 ranked5) in
       let newer := Server.top_selling_json <$> (top_selling_row <$> LIMIT 10 ranked10) in
       older = top_selling_out <$> take 5 ranked5
       ∧ newer = top_selling_out <$> take 10 ranked10
       ∧ (length older ≤ 5)%nat
       ∧ (∀ r, r ∈ take 5 ranked5 → r ∈ unranked_sellers st)
       ∧ (take 5 ranked5).*2 = take 5 (take 10 ranked10).*2
       ∧ get "total_sales" <$> older = take 5 (get "total_sales" <$> newer)).
Proof.
  split_and!; [done| | |].
  - intros Hk. cbn [ServerCjs.get_metrics Server.get_metrics body get assoc].
    repeat (case_decide; [done|]). done.
  - exists (ORDER_BY_DESC snd (unranked_sellers st)),
           (ORDER_BY_DESC snd (unranked_sellers st)).
    assert (Hr : may_rank snd (unranked_sellers st)
                   (ORDER_BY_DESC snd (unranked_sellers st))).
    { split; [apply ORDER_BY_DESC_perm|apply ORDER_BY_DESC_sorted]. }
    split_and!; [done|done| |].
    + cbn [ServerCjs.get_metrics body get assoc].
      repeat (rewrite decide_False by done). by rewrite decide_True by done.
    + cbn [Server.get_metrics body get assoc].
      repeat (rewrite decide_False by done). by rewrite decide_True by done.
  - intros ranked5 ranked10 H5 H10 older newer. subst older newer. unfold LIMIT.
    assert (Ho : ServerCjs.top_selling_json <$> (top_selling_row <$> take 5 ranked5)
                 = top_selling_out <$> take 5 ranked5).
    { rewrite <- list_fmap_compose. apply list_fmap_ext. intros i r _.
      apply top_selling_json_cjs_row. }
    assert (Hn : Server.top_selling_json <$> (top_selling_row <$> take 10 ranked10)
                 = top_selling_out <$> take 10 ranked10).
    { rewrite <- list_fmap_compose. apply list_fmap_ext. intros i r _.
      apply top_selling_json_row. }
    assert (Hk : (take 5 ranked5).*2 = take 5 (take 10 ranked10).*2).
    { rewrite !fmap_take, take_take.
      by rewrite (may_rank_same_keys snd _ ranked5 ranked10 H5 H10). }
    rewrite Ho, Hn. split_and!; [done|done| | |done|].
    + rewrite length_fmap, length_take. lia.
    + intros r Hr. destruct H5 as [Hp _]. rewrite <- Hp.
      by apply (subseteq_take 5 ranked5).
    + rewrite <- !list_fmap_compose.
      change (get "total_sales" ∘ top_selling_out)
        with ((λ z : Z, Some (JVal (JNumber (Num z)))) ∘ (snd : string * Z → Z)).
      rewrite !list_fmap_compose, <- fmap_take. by rewrite Hk.
Qed.

End TopSellers.

(** * The restock script *)

Section Script.
Import RestockScript.

Lemma wrap64_small (z : Z) : - 2 ^ 63 ≤ z < 2 ^ 63 → wrap64 z = z.
Proof. intros Hz. unfold wrap64. rewrite Z.mod_small; lia. Qed.

Lemma add_of_plain (base rem : Z) (i : nat) :
  (0 < rem → - 2 ^ 63 ≤ base + 1 < 2 ^ 63) →
  add_of base rem i = base + (if Z.of_nat i <? rem then 1 else 0).
Proof.
  intros Hb. unfold add_of. destruct (Z.ltb_spec (Z.of_nat i) rem); [|lia].
  rewrite wrap64_small; [done|]. apply Hb. lia.
Qed.

Lemma shares_machines (base rem : Z) (i : nat) (ms : list Z) :
  (shares base rem i ms).*1 = ms.
Proof. revert i. induction ms as [|m ms IH]; intros i; simpl; [done|]. by rewrite IH. Qed.

Lemma shares_sum (base rem : Z) (i : nat) (ms : list Z) :
  (0 < rem → - 2 ^ 63 ≤ base + 1 < 2 ^ 63) →
  foldr Z.add 0 (shares base rem i ms).*2
  = Z.of_nat (length ms) * base
    + Z.max 0 (Z.min rem (Z.of_nat i + Z.of_nat (length ms)) - Z.of_nat i).
Proof.
  intros Hb. revert i. induction ms as [|m ms IH]; intros i.
  - simpl. lia.
  - cbn [shares fmap list_fmap foldr snd length]. rewrite IH, add_of_plain by done.
    destruct (Z.ltb_spec (Z.of_nat i) rem); lia.
Qed.

Lemma shares_bounds (base rem : Z) (i : nat) (ms : list Z) :
  (0 < rem → - 2 ^ 63 ≤ base + 1 < 2 ^ 63) →
  Forall (λ a, base ≤ a ≤ base + 1 ∧ (rem = 0 → a = base)) (shares base rem i ms).*2.
Proof.
  intros Hb. revert i. induction ms as [|m ms IH]; intros i; [constructor|].
  cbn [shares fmap list_fmap snd]. constructor; [|apply IH].
  rewrite add_of_plain by done. destruct (Z.ltb_spec (Z.of_nat i) rem); lia.
Qed.

(** The quotient and the remainder the script computes. *)
Lemma script_division (TOTAL_QTY count : Z) :
  0 < count → 0 ≤ TOTAL_QTY < 2 ^ 63 →
  TOTAL_QTY ÷ count = TOTAL_QTY / count
  ∧ Z.rem TOTAL_QTY count = TOTAL_QTY mod count
  ∧ TOTAL_QTY = count * (TOTAL_QTY / count) + TOTAL_QTY mod count
  ∧ 0 ≤ TOTAL_QTY mod count < count
  ∧ (0 < TOTAL_QTY mod count → - 2 ^ 63 ≤ TOTAL_QTY / count + 1 < 2 ^ 63).
Proof.
  intros Hc Ht.
  pose proof (Z.div_mod TOTAL_QTY count ltac:(lia)) as Hdm.
  pose proof (Z.mod_pos_bound TOTAL_QTY count Hc) as Hm.
  pose proof (Z.div_pos TOTAL_QTY count ltac:(lia) Hc) as Hd.
  split; [apply Z.quot_div_nonneg; lia|].
  split; [apply Z.rem_mod_nonneg; lia|].
  split; [lia|]. split; [lia|]. intros Hr. nia.
Qed.

(** X8. The shares the script prints, for a total [0 ≤ TOTAL_QTY < 2^63] and at
    least one machine: every machine is given a share, the shares add up to
    [TOTAL_QTY], each is the quotient [TOTAL_QTY / count] or one more, so no
    two differ by more than one, and all are the quotient when the division
    is exact. No share wraps around. *)
Theorem script_shares_add_up (TOTAL_QTY : Z) (machines : list Z) :
  machines ≠ [] →
  0 ≤ TOTAL_QTY < 2 ^ 63 →
  let count := Z.of_nat (length machines) in
  let given := shares (TOTAL_QTY ÷ count) (Z.rem TOTAL_QTY count) 0 machines in
  given.*1 = machines
  ∧ foldr Z.add 0 given.*2 = TOTAL_QTY
  ∧ Forall (λ a, TOTAL_QTY / count ≤ a ≤ TOTAL_QTY / count + 1
                 ∧ (TOTAL_QTY mod count = 0 → a = TOTAL_QTY / count)) given.*2.
Proof.
  intros Hne Ht count given. subst given.
  assert (Hc : 0 < count) by (subst count; destruct machines; simpl; [done|lia]).
  destruct (script_division TOTAL_QTY count Hc Ht) as (-> & -> & Hdm & Hm & Hb).
  split_and!.
  - apply shares_machines.
  - rewrite shares_sum by done. fold count. lia.
  - by apply shares_bounds.
Qed.

Lemma upsert_step (st : Store) (m p v now : Z) :
  unique_pairs (inventory st) → references_exist st m p →
  stock_quantity (upsert st m p v now) = stock_quantity st + v
  ∧ unique_pairs (inventory (upsert st m p v now))
  ∧ same_catalog_and_sales st (upsert st m p v now)
  ∧ (m, p) ∈ pairs (upsert st m p v now)
  ∧ (∀ k, k ∈ pairs st → k ∈ pairs (upsert st m p v now)).
Proof.
  intros Hu Hfk. unfold upsert, stock_quantity, pairs, unique_pairs.
  destruct (decide (duplicate_key _ _ _)) as [Hd|Hd]; simpl.
  - rewrite restocked_keeps_pairs. split_and!; try done.
    + by apply restocked_sum.
    + apply Exists_exists in Hd as (r & Hr & <-). by apply list_elem_of_fmap_2.
  - rewrite decide_True by done. simpl.
    rewrite sum_snoc, fmap_app. simpl. split_and!; try done.
    + apply NoDup_app. split_and!; [done| |apply NoDup_singleton].
      intros k Hk ->%list_elem_of_singleton. by apply pair_absent_iff in Hd.
    + apply elem_of_app. right. by apply list_elem_of_singleton.
    + intros k Hk. apply elem_of_app. by left.
Qed.

Lemma loop_total (st : Store) (PRODUCT_ID base rem : Z) (now : nat → Z) (i : nat)
    (ms : list Z) :
  unique_pairs (inventory st) →
  PRODUCT_ID ∈ Product.product_id <$> products st →
  Forall (λ m, m ∈ Machine.machine_id <$> machines st) ms →
  stock_quantity (loop st PRODUCT_ID base rem now i ms)
  = stock_quantity st + foldr Z.add 0 (shares base rem i ms).*2
  ∧ unique_pairs (inventory (loop st PRODUCT_ID base rem now i ms))
  ∧ same_catalog_and_sales st (loop st PRODUCT_ID base rem now i ms)
  ∧ (∀ m, m ∈ ms → (m, PRODUCT_ID) ∈ pairs (loop st PRODUCT_ID base rem now i ms))
  ∧ (∀ k, k ∈ pairs st → k ∈ pairs (loop st PRODUCT_ID base rem now i ms)).
Proof.
  revert st i. induction ms as [|m ms IH]; intros st i Hu Hp Hms.
  - simpl. split_and!; try done; [lia|]. intros m Hm. by apply elem_of_nil in Hm.
  - apply Forall_cons in Hms as [Hm Hms]. cbn [loop shares fmap list_fmap foldr snd].
    destruct (upsert_step st m PRODUCT_ID (add_of base rem i) (now i) Hu)
      as (Hsum & Hu' & (Hps & Hmc & Hs & Hsi) & Hin & Hkeep); [done|].
    destruct (IH (upsert st m PRODUCT_ID (add_of base rem i) (now i)) (S i))
      as (Hsum' & Hu'' & (Hps' & Hmc' & Hs' & Hsi') & Hin' & Hkeep').
    { done. } { by rewrite Hps. } { by rewrite Hmc. }
    split_and!.
    + rewrite Hsum', Hsum. lia.
    + done.
    + split_and!; congruence.
    + intros m' [->|Hm']%elem_of_cons; [by apply Hkeep'|by apply Hin'].
    + intros k Hk. by apply Hkeep', Hkeep.
Qed.

(** X9. The script on a ledger with one record per pair, for a product of the
    catalog and a total [0 ≤ TOTAL_QTY < 2^63]. With no machine it ends with
    status 1 and leaves the store as it was. Otherwise it ends with status 0,
    the quantities of the ledger have grown by [TOTAL_QTY] in all, every
    machine has a record of the product, the ledger still has one record per
    pair and the other tables are unchanged. *)
Theorem script_restocks_every_machine (st : Store) (PRODUCT_ID TOTAL_QTY : Z)
    (now : nat → Z) :
  unique_pairs (inventory st) →
  PRODUCT_ID ∈ Product.product_id <$> products st →
  0 ≤ TOTAL_QTY < 2 ^ 63 →
  (machines st = [] → script st PRODUCT_ID TOTAL_QTY now = (st, 1))
  ∧ (machines st ≠ [] →
     (script st PRODUCT_ID TOTAL_QTY now).2 = 0
     ∧ stock_quantity (script st PRODUCT_ID TOTAL_QTY now).1 = stock_quantity st + TOTAL_QTY
     ∧ unique_pairs (inventory (script st PRODUCT_ID TOTAL_QTY now).1)
     ∧ same_catalog_and_sales st (script st PRODUCT_ID TOTAL_QTY now).1
     ∧ (∀ m, m ∈ machines st →
          (Machine.machine_id m, PRODUCT_ID) ∈ pairs (script st PRODUCT_ID TOTAL_QTY now).1)).
Proof.
  intros Hu Hp Ht. unfold script.
  assert (Hperm : fetch_machines st ≡ₚ Machine.machine_id <$> machines st)
    by apply merge_sort_Permutation.
  split.
  - intros Hm. rewrite Hm in Hperm. simpl in Hperm.
    apply Permutation_nil_r in Hperm. by rewrite Hperm.
  - intros Hm.
    assert (Hne : fetch_machines st ≠ []).
    { intros He. rewrite He in Hperm. symmetry in Hperm.
      apply Permutation_nil_r in Hperm. by destruct (machines st). }
    set (count := Z.of_nat (length (fetch_machines st))).
    assert (Hc : 0 < count)
      by (subst count; destruct (fetch_machines st); simpl; [done|lia]).
    destruct (Z.eqb_spec count 0) as [?|_]; [lia|]. cbn [fst snd].
    destruct (script_division TOTAL_QTY count Hc Ht) as (-> & -> & Hdm & Hmod & Hb).
    destruct (loop_total st PRODUCT_ID (TOTAL_QTY / count) (TOTAL_QTY mod count) now 0
                (fetch_machines st) Hu Hp) as (Hsum & Hu' & Hcat & Hin & _).
    { apply Forall_forall. intros m Hmin. by rewrite <- Hperm. }
    split_and!; try done.
    + rewrite Hsum, shares_sum by done. fold count. lia.
    + intros m Hmin. apply Hin. rewrite Hperm. by apply list_elem_of_fmap_2.
Qed.

End Script.

(** * The lists and what the pages show *)

(** Reading a key of an object literal. *)
Ltac read_fields :=
  cbn [Read.dot Read.opt Http.get Http.assoc default from_option id mbind option_bind];
  repeat first [rewrite decide_True by reflexivity | rewrite decide_False by discriminate];
  cbn [Read.coalesce Read.nullish Js.is_nullish default from_option id mbind option_bind
       fst snd].

Section Reading.
Import Js Http Read.
Context `{rt : Runtime}.

Lemma mapM_fmap {A B C} (f : B → option C) (g : A → B) (h : A → C) (l : list A) :
  (∀ x, f (g x) = Some (h x)) → mapM f (g <$> l) = Some (h <$> l).
Proof.
  intros H. induction l as [|x l IH]; [done|].
  rewrite !fmap_cons. cbn [mapM]. rewrite H. cbn [mbind option_bind].
  by rewrite IH.
Qed.

Lemma number_decimal (z : Z) : number (JVal (JStr (decimal z))) = JVal (JNumber (Num z)).
Proof. unfold number. simpl. by rewrite Number_path_segment. Qed.

Lemma ORDER_BY_perm {A} (key : A → Z) (l : list A) : Sql.ORDER_BY key l ≡ₚ l.
Proof. apply merge_sort_Permutation. Qed.

Lemma ORDER_BY_sorted {A} (key : A → Z) (l : list A) :
  Sorted Z.le (key <$> Sql.ORDER_BY key l).
Proof.
  assert (Total (Sql.asc_by key)) by (intros a b; unfold Sql.asc_by; lia).
  apply (Sorted_fmap key (Sql.asc_by key)); [by intros|].
  apply (Sorted_merge_sort (Sql.asc_by key)).
Qed.

Lemma sorted_head_least (x : Z) (l : list Z) :
  Sorted Z.le (x :: l) → Forall (Z.le x) l.
Proof.
  intros Hs. apply Sorted_StronglySorted in Hs; [|intros a b c; lia].
  by apply StronglySorted_inv in Hs as [_ Hx].
Qed.

(** *** Machines *)

Lemma getMachines_item_row (m : Machine.t) :
  Api.getMachines_item (Server.machine_json m) = Some (listed_machine m).
Proof.
  unfold Api.getMachines_item, Server.machine_json, listed_machine.
  destruct m as [k loc desc]. read_fields.
  destruct loc, desc; done.
Qed.

Lemma normalizeMachine_listed (m : Machine.t) :
  InventoryPage.normalizeMachine (listed_machine m) = listed_machine m.
Proof. unfold InventoryPage.normalizeMachine, listed_machine. by read_fields. Qed.

End Reading.

Section Lists.
Import Js Http Read.
Context `{rt : Runtime} `{co : Sql.Collation}.

Lemma request_ok (items : list Json) :
  Api.request (mkResponse 200 (JArray items)) = Some (JArray items).
Proof. done. Qed.

(** X10. The machines of the inventory page. The page lists every machine
    once, in ascending order of id, with the id it has in the store, its
    location (empty when there is none) and, as its name, its description,
    or [Machine <id>] when it has none: the location is not used for the
    name, so a machine with a location and no description is named by its
    location in the machine distribution and [Machine <id>] here. With no
    machine selected before, the first of the list is selected, which has
    the least id. *)
Theorem page_names_machines_by_description (st : Store) (prev : Json) :
  ∃ listed : list Machine.t,
    listed ≡ₚ machines st
    ∧ Sorted Z.le (Machine.machine_id <$> listed)
    ∧ InventoryPage.loadMachines (Server.get_machines st) prev
      = Some (listed_machine <$> listed,
              match listed with
              | [] => prev
              | first :: _ =>
                  coalesce prev (JVal (JNumber (Num (Machine.machine_id first))))
              end)
    ∧ (∀ first rest m, listed = first :: rest → m ∈ machines st →
         Machine.machine_id first ≤ Machine.machine_id m)
    ∧ (∀ m loc, m ∈ machines st →
         Machine.description m = None → Machine.location m = Some loc → loc ≠ "" →
         get "name" (listed_machine m)
         = Some (JVal (JStr ("Machine " +:+ decimal (Machine.machine_id m))))
         ∧ Server.machine_name m = loc).
Proof.
  exists (Sql.ORDER_BY Machine.machine_id (machines st)).
  pose proof (ORDER_BY_perm Machine.machine_id (machines st)) as Hperm.
  pose proof (ORDER_BY_sorted Machine.machine_id (machines st)) as Hsorted.
  split_and!; [done|done| | |].
  - unfold InventoryPage.loadMachines, Api.getMachines, Server.get_machines.
    rewrite request_ok. cbn [mbind option_bind map_array].
    rewrite (mapM_fmap _ _ listed_machine) by apply getMachines_item_row.
    cbn [mbind option_bind]. rewrite <- list_fmap_compose.
    rewrite (list_fmap_ext (InventoryPage.normalizeMachine ∘ listed_machine) listed_machine)
      by (intros; apply normalizeMachine_listed).
    by destruct (Sql.ORDER_BY _ _).
  - intros first rest m Hl Hm. rewrite Hl in Hperm, Hsorted.
    rewrite fmap_cons in Hsorted. apply sorted_head_least in Hsorted.
    rewrite <- Hperm in Hm. apply elem_of_cons in Hm as [->|Hm]; [done|].
    rewrite Forall_forall in Hsorted. apply Hsorted. by apply list_elem_of_fmap_2.
  - intros m loc _ Hd Hl Hne. unfold listed_machine. read_fields.
    rewrite Hd. split; [done|].
    rewrite machine_name_display. unfold display_name. rewrite Hl, Hd. simpl.
    apply String.eqb_neq in Hne. by rewrite Hne.
Qed.

(** *** The ledger of a machine *)

Lemma getInventory_item_row (ip : Inventory.t * Product.t) :
  Api.getInventory_item (Server.joined_row ip) = Some (listed_item ip).
Proof.
  unfold Api.getInventory_item, Server.joined_row, listed_item.
  unfold decimal_column, int_column, text_column.
  destruct ip as [i p]. read_fields.
  by rewrite number_decimal.
Qed.

Lemma normalizeInventoryItem_listed (ip : Inventory.t * Product.t) :
  InventoryPage.normalizeInventoryItem (listed_item ip) = shown_item ip.
Proof. unfold InventoryPage.normalizeInventoryItem, listed_item, shown_item. by read_fields. Qed.

(** X11. The ledger of a machine on the inventory page. For the machine with
    id [k] the server lists each ledger row of that machine whose product is
    in the catalog, once for each product with that id, and nothing else;
    the page shows each of them with the record's [inv_id] as its id, the
    product's name and price, and the stored [qty] as its quantity. *)
Theorem page_shows_the_ledger_of_a_machine (st : Store) (k : Z) :
  ∃ rows : list (Inventory.t * Product.t),
    rows ≡ₚ stocked_in st k
    ∧ Server.get_inventory st (decimal k)
      = mkResponse 200 (JArray (Server.joined_row <$> rows))
    ∧ InventoryPage.loadInventory (Server.get_inventory st (decimal k))
      = Some (shown_item <$> rows)
    ∧ (∀ i p, (i, p) ∈ rows
         ↔ i ∈ inventory st ∧ p ∈ products st
           ∧ Product.product_id p = Inventory.product_id i
           ∧ Inventory.machine_id i = k)
    ∧ (∀ ip, ip ∈ rows →
         shows (shown_item ip)
           (InventoryPage.mkItem (Num (Inventory.inv_id ip.1)) (Product.name ip.2)
              (Num (Product.price ip.2)) (Num (Inventory.qty ip.1)))).
Proof.
  exists (Sql.ORDER_BY_TEXT (λ ip : Inventory.t * Product.t, Product.name ip.2)
            (stocked_in st k)).
  assert (Hperm : Sql.ORDER_BY_TEXT (λ ip : Inventory.t * Product.t, Product.name ip.2)
                    (stocked_in st k) ≡ₚ stocked_in st k)
    by apply merge_sort_Permutation.
  assert (Hget : Server.get_inventory st (decimal k)
                 = mkResponse 200
                     (JArray (Server.joined_row <$>
                                Sql.ORDER_BY_TEXT
                                  (λ ip : Inventory.t * Product.t, Product.name ip.2)
                                  (stocked_in st k)))).
  { unfold Server.get_inventory, Server.select_machine_rows.
    by rewrite Number_path_segment. }
  split_and!; [done|done| | |].
  - rewrite Hget. unfold InventoryPage.loadInventory, Api.getInventory.
    rewrite request_ok. cbn [mbind option_bind map_array].
    rewrite (mapM_fmap _ _ listed_item) by apply getInventory_item_row.
    cbn [mbind option_bind]. rewrite <- list_fmap_compose.
    apply f_equal, list_fmap_ext. intros. apply normalizeInventoryItem_listed.
  - intros i p. rewrite Hperm. unfold stocked_in.
    rewrite list_elem_of_filter, elem_of_JOIN, bool_decide_eq_true. simpl. tauto.
  - intros ip _. unfold shows, shown_item. simpl. by read_fields.
Qed.

End Lists.

(** * Remove by decrement *)

Section RemoveByDecrement.
Import Js Http Read.
Context `{rt : Runtime} `{co : Sql.Collation}.

(** What the page holds after [loadInventory]. *)
Lemma loadInventory_rows (st : Store) (k : Z) :
  InventoryPage.loadInventory (Server.get_inventory st (decimal k))
  = Some (shown_item <$>
            Sql.ORDER_BY_TEXT (λ ip : Inventory.t * Product.t, Product.name ip.2)
              (stocked_in st k)).
Proof.
  unfold Server.get_inventory, Server.select_machine_rows.
  rewrite Number_path_segment. cbn [bind_int mbind option_bind].
  unfold InventoryPage.loadInventory, Api.getInventory.
  rewrite request_ok. cbn [mbind option_bind map_array].
  rewrite (mapM_fmap _ _ listed_item) by apply getInventory_item_row.
  cbn [mbind option_bind]. rewrite <- list_fmap_compose.
  apply f_equal, list_fmap_ext. intros. apply normalizeInventoryItem_listed.
Qed.

(** An id of the ledger names one record. *)
Lemma same_id_same_record (l : list Inventory.t) (r r' : Inventory.t) :
  unique_ids l → r ∈ l → r' ∈ l → Inventory.inv_id r = Inventory.inv_id r' → r = r'.
Proof.
  intros Hu [i Hi]%list_elem_of_lookup [j Hj]%list_elem_of_lookup Heq.
  assert (i = j) as ->; [|congruence].
  eapply (NoDup_lookup _ i j (Inventory.inv_id r) Hu); rewrite list_lookup_fmap.
  - by rewrite Hi.
  - by rewrite Hj; simpl; rewrite Heq.
Qed.

(** C4. The page's remove, given a number [r ≥ 0] for an item that shows the
    quantity [shown] of a record, sends a direct set of that record to
    [max(0, shown - r)]; the server (either file) answers 200 and the
    record, still in its place with its ids and its [last_restock], then
    holds exactly that quantity: [shown - r] when [r ≤ shown] and 0
    otherwise, never a negative one; every other record is as it was. For an
    item of the list the page has loaded from this store, the quantity shown
    is the quantity the record holds. *)
Theorem remove_by_decrement_clamps (st : Store) (now : Z) (selectedMachine : JsValue)
    (item : InventoryPage.InventoryItem) (answer : string) (conf : bool)
    (i : nat) (row : Inventory.t) (shown r : Z) :
  unique_ids (inventory st) →
  inventory st !! i = Some row →
  InventoryPage.id item = Num (Inventory.inv_id row) →
  InventoryPage.quantity item = Num shown →
  truthy selectedMachine = true →
  toLowerCase (trim answer) ≠ "" →
  toLowerCase (trim answer) ≠ "all" →
  parseInt10 (toLowerCase (trim answer)) = Num r →
  0 ≤ r →
  let newQty := Z.max 0 (shown - r) in
  let req := set_request (Inventory.inv_id row) newQty in
  let after := inventory (serve st now req).1 in
  InventoryPage.handleRemove selectedMachine item (Some answer) conf = InventoryPage.Fetch req
  ∧ status (serve st now req).2 = 200
  ∧ after !! i
    = Some (Inventory.mk (Inventory.inv_id row) (Inventory.machine_id row)
              (Inventory.product_id row) newQty (Inventory.last_restock row))
  ∧ (∀ j, j ≠ i → after !! j = inventory st !! j)
  ∧ length after = length (inventory st)
  ∧ (r ≤ shown → Inventory.qty <$> (after !! i) = Some (shown - r))
  ∧ (shown ≤ r → Inventory.qty <$> (after !! i) = Some 0)
  ∧ (∀ q, Inventory.qty <$> (after !! i) = Some q → 0 ≤ q)
  ∧ same_catalog_and_sales st (serve st now req).1
  ∧ serve_cjs st now req = serve st now req
  ∧ (∀ k items j,
       InventoryPage.loadInventory (Server.get_inventory st (decimal k)) = Some items →
       j ∈ items → shows j item → shown = Inventory.qty row).
Proof.
  intros Hu Hi Hid Hq Hsm Hne Hna Hr Hr0 newQty req after.
  destruct (set_request_served st now (Inventory.inv_id row) newQty) as [Hst Hstatus].
  fold req in Hst, Hstatus.
  assert (Hinv : after = <[i := Inventory.set_qty newQty row]> (inventory st)).
  { subst after. rewrite Hst. simpl. by apply set_qty_at. }
  assert (Hat : after !! i
                = Some (Inventory.mk (Inventory.inv_id row) (Inventory.machine_id row)
                          (Inventory.product_id row) newQty (Inventory.last_restock row))).
  { rewrite Hinv. apply list_lookup_insert_eq. by eapply lookup_lt_Some. }
  split_and!; try done.
  - unfold InventoryPage.handleRemove, js_not. rewrite Hsm. simpl.
    rewrite decide_False by done. rewrite decide_False by done.
    rewrite Hr, Hid, Hq. simpl.
    destruct (Z.ltb_spec r 0); [lia|]. done.
  - intros j Hj. rewrite Hinv. by apply list_lookup_insert_ne.
  - rewrite Hinv. apply length_insert.
  - intros Hle. rewrite Hat. simpl. f_equal. lia.
  - intros Hle. rewrite Hat. simpl. f_equal. lia.
  - rewrite Hat. simpl. intros q [= <-]. lia.
  - by rewrite Hst.
  - intros k items j Hload Hj Hshows.
    rewrite loadInventory_rows in Hload. injection Hload as <-.
    apply list_elem_of_fmap in Hj as ([i' p'] & -> & Hin).
    assert (Hperm : Sql.ORDER_BY_TEXT (λ ip : Inventory.t * Product.t, Product.name ip.2)
                      (stocked_in st k) ≡ₚ stocked_in st k)
      by apply merge_sort_Permutation.
    rewrite Hperm in Hin. unfold stocked_in in Hin.
    apply list_elem_of_filter in Hin as [_ (Hi' & _ & _)%elem_of_JOIN].
    destruct Hshows as (Hsid & _ & _ & Hsq).
    unfold shown_item in Hsid, Hsq. revert Hsid Hsq. read_fields.
    rewrite Hid, Hq. intros [= Heq] [= Hqty].
    assert (i' = row) as ->; [|done].
    eapply same_id_same_record; [done..| |done]. by eapply list_elem_of_lookup_2.
Qed.

End RemoveByDecrement.

(** * The catalog *)

Section Catalog.
Import Js Http Read.
Context `{rt : Runtime} `{tb : Server.TextBinding}.

Lemma product_body_fields (name : string) (price : Z) (unit : option string) :
  field (product_body name price unit) "name" = JStr name
  ∧ field (product_body name price unit) "price" = JNumber (Num price)
  ∧ js_or (field (product_body name price unit) "unit") (JStr "pcs")
    = JStr (stored_unit unit).
Proof.
  unfold field, product_body. destruct unit as [u|]; split_and!.
  - by rewrite lookup_insert_ne, lookup_insert_eq.
  - by rewrite !lookup_insert_ne, lookup_singleton_eq.
  - rewrite lookup_insert_eq. unfold js_or. simpl. by destruct (String.eqb u "").
  - by rewrite lookup_insert_eq.
  - by rewrite lookup_insert_ne, lookup_singleton_eq.
  - by rewrite lookup_insert_ne, lookup_singleton_ne.
Qed.

Lemma fresh_product_id_above (rows : list Product.t) (p : Product.t) :
  p ∈ rows → Product.product_id p < Server.fresh_product_id rows.
Proof.
  unfold Server.fresh_product_id. intros Hp.
  enough (Product.product_id p ≤ foldr Z.max 0 (Product.product_id <$> rows)) by lia.
  induction rows as [|q rows IH]; [by apply elem_of_nil in Hp|].
  rewrite fmap_cons. cbn [foldr].
  apply elem_of_cons in Hp as [->|Hp]; [lia|]. specialize (IH Hp). lia.
Qed.

Lemma post_product_created (st : Store) (name : string) (price : Z) (unit : option string) :
  name ≠ "" →
  Server.post_product st (product_body name price unit)
  = (Server.with_products st
       (products st ++
          [Product.mk (Server.fresh_product_id (products st)) name price (stored_unit unit)]),
     mkResponse 200
       (JObject [("message", JVal (JStr "Product added"));
                 ("product_id",
                  JVal (JNumber (Num (Server.fresh_product_id (products st)))))])).
Proof.
  intros Hne. unfold Server.post_product.
  destruct (product_body_fields name price unit) as (-> & -> & ->).
  unfold js_not. simpl. apply String.eqb_neq in Hne. by rewrite Hne.
Qed.

(** X12. [POST /api/products] is answered 400, with the store unchanged,
    exactly when the name is missing or not truthy (the empty string is not)
    or the price is missing or null. A price of 0 or below 0 passes: with a
    name that is not empty and an integer price the product is added at the
    end of the catalog under a new id, with the unit [pcs] when the unit is
    missing or empty, and the answer carries the new id. *)
Theorem product_needs_name_and_price (st : Store) (body : gmap string JsValue)
    (name : string) (price : Z) (unit : option string) :
  (status (Server.post_product st body).2 = 400
   ↔ truthy (field body "name") = false ∨ is_nullish (field body "price") = true)
  ∧ (status (Server.post_product st body).2 = 400 →
     Server.post_product st body
     = (st, mkResponse 400 (error_message "Name and price are required")))
  ∧ Server.post_product st (product_body "" price unit)
    = (st, mkResponse 400 (error_message "Name and price are required"))
  ∧ (name ≠ "" →
     Server.post_product st (product_body name price unit)
     = (Server.with_products st
          (products st ++
             [Product.mk (Server.fresh_product_id (products st)) name price
                (stored_unit unit)]),
        mkResponse 200
          (JObject [("message", JVal (JStr "Product added"));
                    ("product_id",
                     JVal (JNumber (Num (Server.fresh_product_id (products st)))))]))
     ∧ Server.fresh_product_id (products st) ∉ Product.product_id <$> products st).
Proof.
  assert (H : status (Server.post_product st body).2 = 400
              ↔ truthy (field body "name") = false
                ∨ is_nullish (field body "price") = true).
  { unfold Server.post_product, js_not.
    destruct (truthy (field body "name")); simpl.
    - destruct (is_nullish (field body "price")); simpl; [split; auto|].
      destruct (Server.insert_product _ _ _ _) as [[st' k]|];
        (split; [done|by intros [|]]).
    - split; auto. }
  split_and!.
  - done.
  - intros [Hn|Hp]%H; unfold Server.post_product, js_not; [by rewrite Hn|].
    rewrite Hp. by rewrite orb_true_r.
  - unfold Server.post_product.
    by destruct (product_body_fields "" price unit) as (-> & _ & _).
  - intros Hne. split; [by apply post_product_created|].
    intros (p & Hp & Hin)%list_elem_of_fmap.
    apply fresh_product_id_above in Hin. lia.
Qed.

Lemma getProducts_item_row (p : Product.t) :
  Api.getProducts_item (Server.product_json p) = Some (listed_product p).
Proof.
  unfold Api.getProducts_item, Server.product_json, listed_product.
  unfold decimal_column, int_column, text_column. read_fields.
  by rewrite number_decimal.
Qed.

(** X13. A product that was created is in the list the client then reads,
    under the id the server answered, with its name, its price as a number
    and its unit, next to the products that were there; the list is in
    ascending order of id. What [createProduct] itself returns is read off
    the server's answer, which carries the id only: its name is
    [undefined], its price 0 and its unit empty, whatever was sent. *)
Theorem created_product_is_listed (st : Store) (name : string) (price : Z)
    (unit : option string) :
  name ≠ "" →
  let answer := Server.post_product st (product_body name price unit) in
  let new := Product.mk (Server.fresh_product_id (products st)) name price
               (stored_unit unit) in
  (∃ listed : list Product.t,
     listed ≡ₚ products st ++ [new]
     ∧ Sorted Z.le (Product.product_id <$> listed)
     ∧ Api.getProducts (Server.get_products answer.1) = Some (listed_product <$> listed))
  ∧ Api.createProduct answer.2
    = Some (JObject [("id", JVal (JNumber (Num (Product.product_id new))));
                     ("name", JVal JUndefined);
                     ("price", JVal (JNumber (Num 0)));
                     ("unit", JVal (JStr ""))]).
Proof.
  intros Hne answer new. subst answer new. rewrite post_product_created by done.
  cbn [fst snd]. split.
  - eexists. split_and!; [apply ORDER_BY_perm|apply ORDER_BY_sorted|].
    unfold Api.getProducts, Server.get_products. rewrite request_ok.
    cbn [mbind option_bind map_array].
    by rewrite (mapM_fmap _ _ listed_product) by apply getProducts_item_row.
  - unfold Api.createProduct, Api.request.
    cbn [Read.ok Read.parsed status body andb Z.leb Z.compare Pos.compare
         Pos.compare_cont].
    by read_fields.
Qed.

End Catalog.

(** * The dashboard *)

Section DashboardLoads.
Import Js Http Read.
Context `{rt : Runtime}.

Lemma sum_stock_value_number (st : Store) :
  js_or (Number (Server.sum_stock_value st)) Server.zero = JNumber (Num (stock_value st)).
Proof. by rewrite sum_stock_value_spec, or_Number_decimal. Qed.

(** X14. The dashboard's metrics. When [/metrics] answers, its body is what
    the dashboard shows. When that request fails, the object built from the
    compatibility view has the same product count, machine count, summed
    quantity and stock value as [/metrics] would have given, and an empty
    list of top sellers. *)
Theorem dashboard_fallback_agrees (st : Store) (failed other : Response) :
  ok failed = false →
  Dashboard.load_metrics (Server.get_metrics st) other = Some (body (Server.get_metrics st))
  ∧ ∃ m : Json,
      Dashboard.load_metrics failed (Server.get_dashboard_metrics st) = Some m
      ∧ get "total_products" m = get "total_products" (body (Server.get_metrics st))
      ∧ get "total_machines" m = get "total_machines" (body (Server.get_metrics st))
      ∧ get "total_stock_quantity" m
        = get "total_stock_quantity" (body (Server.get_metrics st))
      ∧ get "total_stock_value" m = get "total_stock_value" (body (Server.get_metrics st))
      ∧ get "top_selling_products" m = Some (JArray []).
Proof.
  intros Hf. split; [done|].
  unfold Dashboard.load_metrics, Dashboard.req. rewrite Hf.
  unfold Server.get_dashboard_metrics, Server.get_metrics.
  cbn [ok parsed status body andb Z.leb Z.compare Pos.compare Pos.compare_cont].
  unfold Dashboard.fallback_metrics. rewrite !sum_stock_value_number.
  unfold Server.count_products, Server.count_machines, Server.sum_stock_quantity.
  unfold decimal_column, int_column. read_fields.
  eexists. split; [reflexivity|]. read_fields.
  split_and!; try done.
  unfold or_else, number, Server.zero. simpl.
  by destruct (Z.eqb_spec (stock_value st) 0) as [->|].
Qed.

End DashboardLoads.

Section DashboardDistribution.
Import Js Http Read Sql.
Context `{rt : Runtime}.

Lemma mapM_fmap_on {A B C} (P : A → Prop) (f : B → option C) (g : A → B) (h : A → C)
    (l : list A) :
  Forall P l → (∀ x, P x → f (g x) = Some (h x)) → mapM f (g <$> l) = Some (h <$> l).
Proof.
  intros Hl H. induction Hl as [|x l Hx _ IH]; [done|].
  rewrite !fmap_cons. cbn [mapM]. rewrite H by done. cbn [mbind option_bind].
  by rewrite IH.
Qed.

(** The name the query gives a machine is never empty. *)
Lemma machine_name_nonempty (m : Machine.t) : Server.machine_name m ≠ "".
Proof.
  unfold Server.machine_name, NULLIF, COALESCE.
  destruct m as [k [loc|] [desc|]]; simpl; repeat case_decide; simpl; done.
Qed.

Lemma distribution_names (st : Store) :
  Forall (λ r : Z * string * Z * Z, r.1.1.2 ≠ "") (Server.distribution_rows st).
Proof.
  unfold Server.distribution_rows.
  set (key := λ r : Server.MIP, (Machine.machine_id r.1.1, Server.machine_name r.1.1)).
  destruct (GROUP_BY_grouped key (Server.distribution_joined st)) as (_ & _ & Hk).
  rewrite ORDER_BY_DESC_perm. apply Forall_fmap, Forall_forall.
  intros g Hg. simpl.
  assert (Hin : g.1 ∈ (GROUP_BY key (Server.distribution_joined st)).*1)
    by by apply list_elem_of_fmap_2.
  apply Hk, list_elem_of_fmap in Hin as (r & -> & _). simpl.
  apply machine_name_nonempty.
Qed.

Lemma machine_item_row (r : Z * string * Z * Z) :
  r.1.1.2 ≠ "" →
  Dashboard.machine_item (Server.distribution_json (out_row r)) = Some (dashboard_row r).
Proof.
  intros Hne. unfold Dashboard.machine_item, Server.distribution_json, out_row, dashboard_row.
  cbn [Server.Distribution.machine_id Server.Distribution.machine_name
       Server.Distribution.total_qty Server.Distribution.total_value].
  read_fields. unfold or_else, number. simpl.
  apply String.eqb_neq in Hne. rewrite Hne. simpl.
  by destruct (Z.eqb_spec r.1.2 0) as [->|], (Z.eqb_spec r.2 0) as [->|].
Qed.

(** X15. The machine distribution on the dashboard. The rows the dashboard
    keeps are the rows of the server's query, one for one and in the same
    order (descending total quantity), each with the machine's id, the name
    the query gave it and the two totals as numbers. That name is never
    empty, so the label [M <id>] the dashboard would put in its place never
    shows. When the request fails the dashboard keeps no row. *)
Theorem dashboard_shows_the_distribution (st : Store) (failed : Response) :
  Dashboard.load_machine_dist (Server.get_machine_distribution st)
  = dashboard_row <$> Server.distribution_rows st
  ∧ Forall (λ r : Z * string * Z * Z, r.1.1.2 ≠ "") (Server.distribution_rows st)
  ∧ Sorted (λ a b, b ≤ a) ((λ r : Z * string * Z * Z, r.1.2) <$> Server.distribution_rows st)
  ∧ (ok failed = false → Dashboard.load_machine_dist failed = []).
Proof.
  split_and!.
  - unfold Dashboard.load_machine_dist, Dashboard.req, Server.get_machine_distribution.
    cbn [ok parsed status body andb Z.leb Z.compare Pos.compare Pos.compare_cont
         mbind option_bind].
    rewrite distribution_out_spec, <- list_fmap_compose.
    unfold or_else. cbn [value truthy map_array].
    rewrite (mapM_fmap_on (λ r : Z * string * Z * Z, r.1.1.2 ≠ "") _ _ dashboard_row);
      [done|apply distribution_names|].
    intros r Hr. by apply machine_item_row.
  - apply distribution_names.
  - apply ORDER_BY_DESC_sorted.
  - intros Hf. unfold Dashboard.load_machine_dist, Dashboard.req. by rewrite Hf.
Qed.

End DashboardDistribution.

(** * The address of a request *)

Section Address.
Import Js.

Lemma append_cons (x : ascii) (a b : string) : String x a +:+ b = String x (a +:+ b).
Proof. reflexivity. Qed.

Lemma append_assoc (a b c : string) : (a +:+ b) +:+ c = a +:+ (b +:+ c).
Proof. induction a as [|x a IH]; [done|]. by rewrite !append_cons, IH. Qed.

Lemma endsWith_append (s t : string) : endsWith (s +:+ t) t = true.
Proof.
  induction s as [|x s IH].
  - change ("" +:+ t) with t. destruct t; cbn [endsWith]; by rewrite String.eqb_refl.
  - rewrite append_cons. cbn [endsWith]. rewrite IH. apply orb_true_r.
Qed.

Lemma rawBase_set (base : string) : base ≠ "" → Api.rawBase (Some base) = base.
Proof.
  intros Hne. unfold Api.rawBase, js_or. simpl.
  apply String.eqb_neq in Hne. by rewrite Hne.
Qed.

Lemma append_nonempty (s t : string) : t ≠ "" → s +:+ t ≠ "".
Proof. intros Ht. destruct s; [done|]. by rewrite append_cons. Qed.

(** X16. The address a request is sent to. With [VITE_API_BASE] set to a base
    that is not empty, one slash at the end of the base and a slash at the
    start of the path make no difference: the address is the base, [/api/]
    and the path. With the variable not set, or empty, the base is
    [http://localhost:3000]. *)
Theorem url_ignores_the_slashes (base path : string) :
  base ≠ "" →
  endsWith base "/" = false →
  startsWith path "/" = false →
  Api.url (Some base) path = base +:+ "/api/" +:+ path
  ∧ Api.url (Some (base +:+ "/")) path = base +:+ "/api/" +:+ path
  ∧ Api.url (Some base) ("/" +:+ path) = base +:+ "/api/" +:+ path
  ∧ Api.url (Some (base +:+ "/")) ("/" +:+ path) = base +:+ "/api/" +:+ path
  ∧ Api.url None path = "http://localhost:3000/api/" +:+ path
  ∧ Api.url (Some "") path = Api.url None path.
Proof.
  intros Hne Hb Hp.
  assert (Hslash : startsWith ("/" +:+ path) "/" = true).
  { unfold startsWith. rewrite append_cons. cbn [String.prefix].
    by destruct (ascii_dec "/" "/"), path. }
  unfold Api.url, Api.API_BASE_URL.
  rewrite !rawBase_set by (done || by apply append_nonempty).
  rewrite Hb, Hp, Hslash, endsWith_append.
  change ("" +:+ path) with path.
  split_and!; try done; by rewrite !append_assoc.
Qed.

End Address.

(** * The forms of the inventory page *)

Section Forms.
Import Js Http.
Context `{rt : Runtime}.

Lemma saveEdit_sends_typed (selectedMachine : JsValue) (k typed : Z) :
  k ≠ 0 → truthy selectedMachine = true → 0 ≤ typed →
  InventoryPage.saveEdit (JNumber (Num k)) selectedMachine (Num typed)
  = InventoryPage.Fetch (set_request k typed).
Proof.
  intros Hk Hsm Ht. unfold InventoryPage.saveEdit, js_not. rewrite Hsm. simpl.
  destruct (Z.eqb_spec k 0); [done|]. simpl.
  assert (Hq : parseInt10 (String_ (js_or (JNumber (Num typed)) (JNumber (Num 0))))
               = Num typed).
  { unfold js_or. simpl. destruct (Z.eqb_spec typed 0) as [->|]; simpl.
    - apply (parseInt10_decimal 0).
    - apply parseInt10_decimal. }
  rewrite Hq. simpl. by destruct (Z.ltb_spec typed 0); [lia|].
Qed.

Lemma with_inventory_same (st : Store) : with_inventory st (inventory st) = st.
Proof. by destruct st. Qed.

Lemma set_qty_same (row : Inventory.t) : Inventory.set_qty (Inventory.qty row) row = row.
Proof. by destruct row. Qed.

(** X17. The edit form. Opened on an item of the list and saved with a typed
    quantity between 0 and 2^53, on a record whose id has magnitude at most
    2^53 (the integers [String], [parseInt] and unary [+] carry without
    rounding and in plain digits), it sends the direct set of the item's
    record to that quantity; the server answers 200 and that record, and no
    other, then holds the typed quantity. Saved without a change, on a
    record whose quantity is between 0 and 2^53, it leaves the store exactly
    as it was. *)
Theorem edit_form_sets_the_quantity (st : Store) (now : Z) (selectedMachine : JsValue)
    (item : InventoryPage.InventoryItem) (i : nat) (row : Inventory.t) (typed : Z) :
  unique_ids (inventory st) →
  inventory st !! i = Some row →
  InventoryPage.id item = Num (Inventory.inv_id row) →
  InventoryPage.quantity item = Num (Inventory.qty row) →
  Inventory.inv_id row ≠ 0 →
  Z.abs (Inventory.inv_id row) ≤ 2 ^ 53 →
  truthy selectedMachine = true →
  0 ≤ typed ≤ 2 ^ 53 →
  let editingId := (InventoryPage.startEdit item).1 in
  let req := set_request (Inventory.inv_id row) typed in
  InventoryPage.saveEdit editingId selectedMachine (Num typed) = InventoryPage.Fetch req
  ∧ status (serve st now req).2 = 200
  ∧ inventory (serve st now req).1 = <[i := Inventory.set_qty typed row]> (inventory st)
  ∧ same_catalog_and_sales st (serve st now req).1
  ∧ (0 ≤ Inventory.qty row ≤ 2 ^ 53 →
     ∃ unchanged,
       InventoryPage.saveEdit editingId selectedMachine (InventoryPage.startEdit item).2
       = InventoryPage.Fetch unchanged
       ∧ (serve st now unchanged).1 = st).
Proof.
  intros Hu Hi Hid Hq Hk _ Hsm [Ht _] editingId req. subst editingId req.
  unfold InventoryPage.startEdit. rewrite Hid, Hq. cbn [fst snd].
  assert (Hset : ∀ q, (serve st now (set_request (Inventory.inv_id row) q)).1
                      = with_inventory st (<[i := Inventory.set_qty q row]> (inventory st))).
  { intros q. destruct (set_request_served st now (Inventory.inv_id row) q) as [-> _].
    by rewrite (set_qty_at _ i row). }
  split_and!.
  - by apply saveEdit_sends_typed.
  - by destruct (set_request_served st now (Inventory.inv_id row) typed).
  - by rewrite Hset.
  - by rewrite Hset.
  - intros [Hrow _]. eexists. split; [by apply saveEdit_sends_typed|].
    rewrite Hset, set_qty_same, (list_insert_id _ i row) by done.
    apply with_inventory_same.
Qed.




End Forms.

(** * The revenue trend *)

Section RevenueTrend.
Import Js Http Read Sql.
Context `{rt : Runtime} `{de : DateEncoding}.

(** A time is at or after the midnight of a day when its own day is. *)
Lemma midnight_le (d t : Z) : midnight d ≤ t ↔ d ≤ DATE t.
Proof.
  unfold midnight, DATE.
  pose proof (Z.div_mod t 86400 ltac:(lia)) as Hdm.
  pose proof (Z.mod_pos_bound t 86400 ltac:(lia)) as Hm.
  split; intros H; nia.
Qed.

Lemma sorted_nodup_strict (l : list Z) : Sorted Z.le l → NoDup l → Sorted Z.lt l.
Proof.
  intros Hs Hnd. apply Sorted_StronglySorted in Hs; [|intros a b c; lia].
  apply StronglySorted_Sorted.
  induction Hs as [|x l Hs IH Hx]; [constructor|].
  apply NoDup_cons in Hnd as [Hin Hnd]. constructor; [by apply IH|].
  rewrite Forall_forall in Hx. apply Forall_forall. intros y Hy.
  specialize (Hx y Hy). assert (x ≠ y) by (by intros ->). lia.
Qed.

Lemma trend_item_row (r : Z * Z) :
  Dashboard.trend_item (Server.revenue_trend_json r) = Some (trend_point r).
Proof.
  unfold Dashboard.trend_item, Server.revenue_trend_json, trend_point, decimal_column.
  read_fields. unfold or_else. cbn [value truthy]. rewrite decimal_nonempty.
  cbn [negb]. by rewrite number_decimal.
Qed.

(** X19. The revenue trend. Its rows are in ascending order of date with one
    row for a date; a date has a row exactly when it is not before the
    seventh day before today and some sale was made on it, so a day without
    a sale is left out and, with no sale in the future, the dates span eight
    days; the revenue of a row is the sum of the amounts of all sales of its
    date. The server sends that sum as the driver's string and the
    dashboard reads it as a number. *)
Theorem revenue_trend_by_day (st : Store) (now : Z) :
  Sorted Z.lt (Server.revenue_trend_rows st now).*1
  ∧ (∀ d, d ∈ (Server.revenue_trend_rows st now).*1
       ↔ DATE now - 7 ≤ d ∧ sales_on st d ≠ [])
  ∧ (∀ d, d ∈ (Server.revenue_trend_rows st now).*1 →
       Forall (λ s, Sale.sale_time s ≤ now) (sales st) →
       DATE now - 7 ≤ d ≤ DATE now)
  ∧ (∀ r, r ∈ Server.revenue_trend_rows st now → r.2 = revenue_on st r.1)
  ∧ Dashboard.load_revenue_trend (Server.get_revenue_trend st now)
    = trend_point <$> Server.revenue_trend_rows st now.
Proof.
  unfold Server.revenue_trend_rows.
  set (key := λ s : Sale.t, DATE (Sale.sale_time s)).
  set (recent := filter (λ s, midnight (DATE now - 7) ≤ Sale.sale_time s) (sales st)).
  set (rows := (λ g : Z * list Sale.t, _) <$> GROUP_BY key recent).
  destruct (GROUP_BY_grouped key recent) as (Hnd & Hg & Hk).
  assert (Hdates : (ORDER_BY fst rows).*1 ≡ₚ (GROUP_BY key recent).*1).
  { rewrite ORDER_BY_perm. subst rows. by rewrite <- list_fmap_compose. }
  assert (Hin : ∀ d, d ∈ (ORDER_BY fst rows).*1 ↔ DATE now - 7 ≤ d ∧ sales_on st d ≠ []).
  { intros d. rewrite Hdates, Hk, list_elem_of_fmap. unfold sales_on. split.
    - intros (s & -> & [Hw Hs]%list_elem_of_filter). apply midnight_le in Hw.
      split; [done|]. intros He.
      eapply (filter_nil_not_elem_of _ _ s) in He; done.
    - intros [Hd Hne].
      destruct (filter (λ s : Sale.t, DATE (Sale.sale_time s) = d) (sales st))
        as [|s l] eqn:Hf; [done|].
      assert (Hs : s ∈ filter (λ s : Sale.t, DATE (Sale.sale_time s) = d) (sales st))
        by (rewrite Hf; left).
      apply list_elem_of_filter in Hs as [<- Hs].
      exists s. split; [done|]. apply list_elem_of_filter. split; [|done].
      by apply midnight_le. }
  split_and!.
  - apply sorted_nodup_strict; [apply (ORDER_BY_sorted fst)|]. by rewrite Hdates.
  - done.
  - intros d [Hd Hne]%Hin Hpast. split; [done|].
    destruct (sales_on st d) as [|s l] eqn:Hf; [done|].
    assert (Hs : s ∈ sales_on st d) by (rewrite Hf; left).
    apply list_elem_of_filter in Hs as [<- Hs].
    rewrite Forall_forall in Hpast. specialize (Hpast s Hs).
    unfold DATE. by apply Z.div_le_mono.
  - intros r Hr. rewrite ORDER_BY_perm in Hr.
    apply list_elem_of_fmap in Hr as (g & -> & Hgin). simpl.
    rewrite Forall_forall in Hg. rewrite (Hg g Hgin).
    rewrite (SUM_total _ Sale.total_amount) by done.
    unfold revenue_on, sales_on. do 2 f_equal. subst recent.
    rewrite list_filter_filter. apply list_filter_iff. intros s. simpl.
    split; [tauto|]. intros Hs. split; [done|].
    assert (Hd : g.1 ∈ (ORDER_BY fst rows).*1).
    { rewrite Hdates. by apply list_elem_of_fmap_2. }
    apply Hin in Hd as [Hd _]. subst key. simpl in Hs. apply midnight_le. by rewrite Hs.
  - unfold Dashboard.load_revenue_trend, Dashboard.req, Server.get_revenue_trend.
    cbn [ok parsed status body andb Z.leb Z.compare Pos.compare Pos.compare_cont
         mbind option_bind map_array].
    unfold Server.revenue_trend_rows. fold key recent rows.
    by rewrite (mapM_fmap _ _ trend_point) by apply trend_item_row.
Qed.

End RevenueTrend.

(** * The trend and the total revenue *)

Section TrendTotal.
Import Js Http Sql.
Context `{rt : Runtime}.

Lemma filter_all {A} (P : A → Prop) `{∀ x, Decision (P x)} (l : list A) :
  Forall P l → filter P l = l.
Proof.
  induction 1 as [|x l Hx _ IH]; [done|]. by rewrite filter_cons_True, IH.
Qed.

Lemma sum_perm (l k : list Z) : l ≡ₚ k → foldr Z.add 0 l = foldr Z.add 0 k.
Proof. induction 1; simpl; lia. Qed.

(** Grouping moves no row in or out: the sums of the groups add up to the sum
    of the rows. *)
Lemma group_add_sum {K A} `{EqDecision K} (f : A → Z) (k : K) (x : A)
    (groups : list (K * list A)) :
  foldr Z.add 0 ((λ g, foldr Z.add 0 (f <$> g.2)) <$> group_add k x groups)
  = foldr Z.add 0 ((λ g, foldr Z.add 0 (f <$> g.2)) <$> groups) + f x.
Proof.
  induction groups as [|[k' xs] groups IH]; [simpl; lia|].
  cbn [group_add]. case_decide.
  - rewrite !fmap_cons. cbn [foldr snd]. rewrite sum_snoc. lia.
  - rewrite !fmap_cons. cbn [foldr]. rewrite IH. lia.
Qed.

Lemma GROUP_BY_sum {K A} `{EqDecision K} (key : A → K) (f : A → Z) (l : list A) :
  foldr Z.add 0 ((λ g, foldr Z.add 0 (f <$> g.2)) <$> GROUP_BY key l)
  = foldr Z.add 0 (f <$> l).
Proof.
  unfold GROUP_BY.
  enough (H : ∀ groups,
    foldr Z.add 0 ((λ g, foldr Z.add 0 (f <$> g.2)) <$>
                     foldl (λ gs x, group_add (key x) x gs) groups l)
    = foldr Z.add 0 ((λ g, foldr Z.add 0 (f <$> g.2)) <$> groups)
      + foldr Z.add 0 (f <$> l)) by (rewrite H; simpl; lia).
  induction l as [|x l IH]; intros groups; [simpl; lia|].
  cbn [foldl]. rewrite IH, group_add_sum, fmap_cons. cbn [foldr]. lia.
Qed.

(** X20. The revenues of the trend add up to the amounts of the sales made
    on or after the seventh day before today; when every sale is that
    recent, they add up to the total revenue of the metrics. *)
Theorem trend_adds_up_to_the_revenue (st : Store) (now : Z) :
  foldr Z.add 0 (Server.revenue_trend_rows st now).*2 = amount (recent_sales st now)
  ∧ (Forall (λ s, DATE now - 7 ≤ DATE (Sale.sale_time s)) (sales st) →
     get "total_revenue" (body (Server.get_metrics st))
     = Some (JVal (JNumber (Num (foldr Z.add 0 (Server.revenue_trend_rows st now).*2))))).
Proof.
  assert (Hsum : foldr Z.add 0 (Server.revenue_trend_rows st now).*2
                 = amount (recent_sales st now)).
  { unfold Server.revenue_trend_rows, amount, recent_sales.
    rewrite (sum_perm _ _ (fmap_Permutation snd _ _ (ORDER_BY_perm fst _))).
    rewrite <- list_fmap_compose.
    rewrite (list_fmap_ext _ (λ g : Z * list Sale.t,
                                foldr Z.add 0 (Sale.total_amount <$> g.2))).
    - rewrite GROUP_BY_sum. do 2 f_equal. apply list_filter_iff.
      intros s. apply midnight_le.
    - intros i g _. simpl. by apply SUM_total. }
  split; [done|]. intros Hall. rewrite Hsum.
  destruct (coerced_sums_are_numbers st) as (_ & -> & _).
  unfold amount, recent_sales. by rewrite filter_all.
Qed.

End TrendTotal.

(** * What a direct set answers *)

Section ReadBack.
Import Js Http Sql.
Context `{rt : Runtime}.

Lemma filter_JOIN_left {A B} (P : A → Prop) `{∀ x, Decision (P x)}
    (l : list A) (r : list B) (on : A → B → bool) :
  filter (λ ab : A * B, P ab.1) (JOIN l r on) = JOIN (filter P l) r on.
Proof.
  unfold JOIN. induction l as [|a l IH]; [done|].
  cbn [flat_map]. rewrite filter_app, IH.
  destruct (decide (P a)) as [Ha|Ha].
  - rewrite (filter_cons_True P) by done. cbn [flat_map]. f_equal.
    apply filter_all, Forall_fmap, Forall_forall. by intros.
  - rewrite (filter_cons_False P) by done.
    rewrite filter_none; [done|]. apply Forall_fmap, Forall_forall. by intros.
Qed.

Lemma the_record (l : list Inventory.t) (i : nat) (row : Inventory.t) (k : Z) :
  unique_ids l → l !! i = Some row → Inventory.inv_id row = k →
  filter (λ r, Inventory.inv_id r = k) l = [row].
Proof.
  unfold unique_ids. intros Hu Hi <-. revert i Hu Hi.
  induction l as [|r l IH]; intros i Hu Hi; [done|].
  rewrite fmap_cons in Hu. apply NoDup_cons in Hu as [Hr Hu].
  destruct i as [|i]; simpl in Hi.
  - injection Hi as ->. rewrite filter_cons_True by done. f_equal.
    apply filter_none, Forall_forall. intros r' Hr' Heq. apply Hr.
    rewrite <- Heq. by apply list_elem_of_fmap_2.
  - rewrite filter_cons_False; [by eapply IH|].
    intros Heq. apply Hr. rewrite Heq.
    apply list_elem_of_fmap_2. by eapply list_elem_of_lookup_2.
Qed.

Lemma set_qty_absent (k q : Z) (l : list Inventory.t) :
  k ∉ Inventory.inv_id <$> l →
  (λ r, if decide (Inventory.inv_id r = k) then Inventory.set_qty q r else r) <$> l = l.
Proof.
  intros Hn. induction l as [|r l IH]; [done|].
  rewrite fmap_cons in Hn. apply not_elem_of_cons in Hn as [Hr Hn].
  rewrite fmap_cons, IH by done. by rewrite decide_False.
Qed.

(** X21. What a direct set answers. For a record whose product is in the
    catalog (ids being keys), the answer is 200 with that record as it now
    is: the quantity that was sent, the other fields as before, the name and
    the price of its product. For an id no record has, the answer is still
    200, with no body, and nothing is changed. *)
Theorem direct_set_answers_with_the_record (st : Store) (q : Z) (i : nat)
    (row : Inventory.t) (p : Product.t) :
  unique_ids (inventory st) →
  unique_products st →
  inventory st !! i = Some row →
  p ∈ products st →
  Product.product_id p = Inventory.product_id row →
  Server.put_inventory st (decimal (Inventory.inv_id row)) (qty_body q)
  = (with_inventory st (<[i := Inventory.set_qty q row]> (inventory st)),
     mkResponse 200 (Server.joined_row (Inventory.set_qty q row, p)))
  ∧ get "qty" (Server.joined_row (Inventory.set_qty q row, p))
    = Some (JVal (JNumber (Num q)))
  ∧ (∀ k, k ∉ inv_ids st →
       Server.put_inventory st (decimal k) (qty_body q)
       = (st, mkResponse 200 (JVal JUndefined))).
Proof.
  intros Hu Hup Hi Hp Hpid.
  assert (Hput : ∀ k,
    Server.put_inventory st (decimal k) (qty_body q)
    = let rows := (λ r, if decide (Inventory.inv_id r = k)
                        then Inventory.set_qty q r else r) <$> inventory st in
      (with_inventory st rows,
       mkResponse 200
         (default (JVal JUndefined)
            (head (Server.joined_row <$>
                     JOIN (filter (λ r, Inventory.inv_id r = k) rows) (products st)
                       (λ i p, bool_decide (Product.product_id p = Inventory.product_id i))))))).
  { intros k. cbn zeta. rewrite <- (filter_JOIN_left (λ r, Inventory.inv_id r = k)).
    unfold Server.put_inventory. rewrite Number_path_segment.
    unfold qty_body, field. rewrite lookup_singleton_eq. simpl.
    unfold Server.select_row. simpl. done. }
  split_and!.
  - rewrite Hput. cbn zeta. rewrite (set_qty_at _ i row q) by done.
    assert (Hi' : <[i := Inventory.set_qty q row]> (inventory st) !! i
                  = Some (Inventory.set_qty q row)).
    { apply list_lookup_insert_eq. by eapply lookup_lt_Some. }
    assert (Hu' : unique_ids (<[i := Inventory.set_qty q row]> (inventory st))).
    { rewrite <- (set_qty_at _ i row q) by done. unfold unique_ids.
      by rewrite set_qty_keeps_ids. }
    rewrite (the_record _ i (Inventory.set_qty q row) (Inventory.inv_id row) Hu' Hi')
      by done.
    unfold JOIN. cbn [flat_map].
    rewrite (the_product (products st) p) by done. done.
  - unfold Server.joined_row. by read_fields.
  - intros k Hk. rewrite Hput. cbn zeta. rewrite set_qty_absent by done.
    rewrite with_inventory_same.
    rewrite (filter_none (λ r, Inventory.inv_id r = k)); [done|].
    apply Forall_forall. intros r Hr Heq. apply Hk. rewrite <- Heq.
    by apply list_elem_of_fmap_2.
Qed.

End ReadBack.

(** * The metrics of the service layer *)

Section ServiceMetrics.
Import Js Http Read.
Context `{rt : Runtime}.

(** X22. [getDashboardMetrics] of the service layer returns the compatibility
    view of server.js as it is, and that view has none of the keys of
    [DashboardMetrics]: each of them reads as [undefined] on the object
    returned, on every store. The figures are there under the keys of the
    compatibility view. *)
Theorem service_metrics_have_other_keys (st : Store) (summary : Response) :
  Api.getDashboardMetrics (Server.get_dashboard_metrics st) summary
  = Some (body (Server.get_dashboard_metrics st))
  ∧ Forall (λ k, opt (body (Server.get_dashboard_metrics st)) k = JVal JUndefined)
      DashboardMetrics_keys
  ∧ opt (body (Server.get_dashboard_metrics st)) "totalProducts"
    = JVal (JNumber (Num (Z.of_nat (length (products st)))))
  ∧ opt (body (Server.get_dashboard_metrics st)) "stockValue"
    = JVal (JNumber (Num (stock_value st))).
Proof.
  split_and!.
  - done.
  - unfold DashboardMetrics_keys, Server.get_dashboard_metrics. cbn [body].
    repeat constructor; by read_fields.
  - unfold Server.get_dashboard_metrics. cbn [body]. by read_fields.
  - unfold Server.get_dashboard_metrics. cbn [body]. read_fields.
    by rewrite sum_stock_value_number.
Qed.

End ServiceMetrics.

(** * The properties at concrete stores *)

Section Evaluated.
Import Js Http.
#[local] Existing Instance Js.ascii_runtime.
#[local] Existing Instance Sql.binary_collation.
#[local] Existing Instance Server.strict_text.
#[local] Existing Instance Http.day_number.

Lemma ten_and_five_make_fifteen :
  (unique_pairs (inventory stocked_store)
   ∧ status (Server.post_inventory stocked_store 2000
               (restock_body (JNumber (Num 1)) (JNumber (Num 1)) (JNumber (Num 5)))).2
     = 201)
  ∧ stock_quantity stocked_store = 10
  ∧ ∃ v, bind_int (JNumber (Num 5)) = Some v
      ∧ stock_quantity
          (Server.post_inventory stocked_store 2000
             (restock_body (JNumber (Num 1)) (JNumber (Num 1)) (JNumber (Num 5)))).1
        = 10 + v.
Proof.
  assert (Hu : unique_pairs (inventory stocked_store)) by apply NoDup_singleton.
  assert (Hs : status (Server.post_inventory stocked_store 2000
                         (restock_body (JNumber (Num 1)) (JNumber (Num 1))
                            (JNumber (Num 5)))).2 = 201) by by vm_compute.
  split; [done|]. split; [done|].
  destruct (restock_raises_the_total stocked_store 2000
              (restock_body (JNumber (Num 1)) (JNumber (Num 1)) (JNumber (Num 5))) Hu Hs)
    as (v & Hv & Hsum & _).
  exists v. split; [exact Hv|exact Hsum].
Defined.

Lemma all_in_capitals_deletes :
  (truthy (JNumber (Num 1)) = true ∧ toLowerCase (trim " ALL ") = "all" ∧ (1 : Z) ≠ 0)
  ∧ InventoryPage.handleRemove (JNumber (Num 1))
      (InventoryPage.mkItem (Num 1) "Chips" (Num 20) (Num 10)) (Some " ALL ") false
    = InventoryPage.Nothing
  ∧ InventoryPage.handleRemove (JNumber (Num 1))
      (InventoryPage.mkItem (Num 1) "Chips" (Num 20) (Num 10)) (Some " ALL ") true
    = InventoryPage.Fetch (DELETE_inventory "1")
  ∧ status (serve stocked_store 2000 (DELETE_inventory "1")).2 = 200
  ∧ status (serve_cjs stocked_store 2000 (DELETE_inventory "1")).2 = 404.
Proof.
  assert (H1 : truthy (JNumber (Num 1)) = true) by done.
  assert (H2 : toLowerCase (trim " ALL ") = "all") by done.
  assert (H3 : (1 : Z) ≠ 0) by done.
  split; [done|].
  destruct (remove_all_needs_confirmation stocked_store 2000 (JNumber (Num 1))
              (InventoryPage.mkItem (Num 1) "Chips" (Num 20) (Num 10)) " ALL " true 1
              H1 H2 eq_refl H3)
    as (_ & _ & _ & Hno & Hyes & Hs & _ & Hc & _).
  split_and!; [exact Hno|exact Hyes|exact Hs|exact Hc].
Defined.

Lemma remove_then_restock_stays_non_negative :
  (Forall sent_by_page
     [(2000, set_request 1 0); (3000, restock_request 1 1 4)].*2
   ∧ non_negative (inventory stocked_store))
  ∧ non_negative
      (inventory (run stocked_store
                    [(2000, set_request 1 0); (3000, restock_request 1 1 4)]))
  ∧ non_negative
      (inventory (run_cjs stocked_store
                    [(2000, set_request 1 0); (3000, restock_request 1 1 4)])).
Proof.
  assert (Hreqs : Forall sent_by_page
                    [(2000, set_request 1 0); (3000, restock_request 1 1 4)].*2).
  { repeat constructor.
    - by apply (sent_by_handleRemove (JNumber (Num 1))
                  (InventoryPage.mkItem (Num 1) "Chips" (Num 20) (Num 10))
                  (Some "15") false).
    - by apply (sent_by_handleRestock (JNumber (Num 1)) "1" "4"). }
  assert (Hst : non_negative (inventory stocked_store)) by (by repeat constructor).
  split; [done|].
  exact (page_keeps_quantities_non_negative stocked_store
           [(2000, set_request 1 0); (3000, restock_request 1 1 4)] Hreqs Hst).
Defined.

Lemma cola_outsells_chips :
  unique_products three_machine_store
  ∧ ∃ ranked : list (string * Z),
      ranked ≡ₚ [("Chips", 2); ("Cola", 3)]
      ∧ Sorted (λ a b, b ≤ a) ranked.*2
      ∧ Server.top_selling 1 three_machine_store = top_selling_row <$> take 1 ranked.
Proof.
  assert (Hu : unique_products three_machine_store).
  { apply (bool_decide_unpack _). by vm_compute. }
  split; [done|].
  destruct (top_selling_ranks_the_sellers 1 three_machine_store Hu)
    as (ranked & Hperm & Hsorted & Htop & _).
  exists ranked. split_and!; [exact Hperm|exact Hsorted|exact Htop].
Defined.

Lemma seven_machines_share_120 :
  ([1; 2; 3; 4; 5; 6; 7] ≠ ([] : list Z) ∧ 0 ≤ 120 < 2 ^ 63)
  ∧ (shares (120 ÷ 7) (Z.rem 120 7) 0 [1; 2; 3; 4; 5; 6; 7]).*1 = [1; 2; 3; 4; 5; 6; 7]
  ∧ foldr Z.add 0 (shares (120 ÷ 7) (Z.rem 120 7) 0 [1; 2; 3; 4; 5; 6; 7]).*2 = 120.
Proof.
  assert (H1 : [1; 2; 3; 4; 5; 6; 7] ≠ ([] : list Z)) by done.
  assert (H2 : 0 ≤ 120 < 2 ^ 63) by (by vm_compute).
  split; [done|].
  destruct (script_shares_add_up 120 [1; 2; 3; 4; 5; 6; 7] H1 H2) as (Hm & Hsum & _).
  split; [exact Hm|exact Hsum].
Defined.

Lemma script_on_three_machines :
  (unique_pairs (inventory three_machine_store)
   ∧ 2 ∈ Product.product_id <$> products three_machine_store
   ∧ 0 ≤ 120 < 2 ^ 63
   ∧ machines three_machine_store ≠ [])
  ∧ (RestockScript.script three_machine_store 2 120 (λ i, 5000 + Z.of_nat i)).2 = 0
  ∧ stock_quantity
      (RestockScript.script three_machine_store 2 120 (λ i, 5000 + Z.of_nat i)).1
    = stock_quantity three_machine_store + 120.
Proof.
  assert (Hu : unique_pairs (inventory three_machine_store)).
  { apply (bool_decide_unpack _). by vm_compute. }
  assert (Hp : 2 ∈ Product.product_id <$> products three_machine_store).
  { apply (bool_decide_unpack _). by vm_compute. }
  assert (Ht : 0 ≤ 120 < 2 ^ 63) by (by vm_compute).
  assert (Hm : machines three_machine_store ≠ []) by done.
  split; [done|].
  destruct (script_restocks_every_machine three_machine_store 2 120
              (λ i, 5000 + Z.of_nat i) Hu Hp Ht) as [_ H].
  destruct (H Hm) as (Hexit & Hsum & _).
  split; [exact Hexit|exact Hsum].
Defined.

Lemma tea_is_created_without_its_name :
  "Tea" ≠ ""
  ∧ Api.createProduct (Server.post_product one_machine_store (product_body "Tea" 15 None)).2
    = Some (JObject [("id", JVal (JNumber (Num 2))); ("name", JVal JUndefined);
                     ("price", JVal (JNumber (Num 0))); ("unit", JVal (JStr ""))]).
Proof.
  assert (Hne : "Tea" ≠ "") by done.
  split; [done|].
  exact (proj2 (created_product_is_listed one_machine_store "Tea" 15 None Hne)).
Defined.

Lemma fallback_of_three_machines :
  Read.ok internal_error = false
  ∧ ∃ m : Json,
      Dashboard.load_metrics internal_error (Server.get_dashboard_metrics three_machine_store)
      = Some m
      ∧ get "total_stock_value" m
        = get "total_stock_value" (body (Server.get_metrics three_machine_store))
      ∧ get "top_selling_products" m = Some (JArray []).
Proof.
  assert (Hf : Read.ok internal_error = false) by done.
  split; [done|].
  destruct (dashboard_fallback_agrees three_machine_store internal_error internal_error Hf)
    as (_ & m & Hm & _ & _ & _ & Hv & Ht).
  exists m. split_and!; [exact Hm|exact Hv|exact Ht].
Defined.

Lemma slashes_make_no_difference :
  ("http://host:3000" ≠ "" ∧ endsWith "http://host:3000" "/" = false
   ∧ startsWith "products" "/" = false)
  ∧ Api.url (Some "http://host:3000/") "/products" = "http://host:3000/api/products"
  ∧ Api.url (Some "http://host:3000") "products" = "http://host:3000/api/products".
Proof.
  assert (H1 : "http://host:3000" ≠ "") by done.
  assert (H2 : endsWith "http://host:3000" "/" = false) by done.
  assert (H3 : startsWith "products" "/" = false) by done.
  split; [done|].
  destruct (url_ignores_the_slashes "http://host:3000" "products" H1 H2 H3)
    as (Ha & _ & _ & Hb & _).
  split; [exact Hb|exact Ha].
Defined.

Lemma seven_typed_over_ten :
  (unique_ids (inventory stocked_store)
   ∧ inventory stocked_store !! 0%nat = Some (Inventory.mk 1 1 1 10 500)
   ∧ truthy (JNumber (Num 1)) = true ∧ Z.abs 1 ≤ 2 ^ 53 ∧ 0 ≤ 7 ≤ 2 ^ 53)
  ∧ InventoryPage.saveEdit (JNumber (Num 1)) (JNumber (Num 1)) (Num 7)
    = InventoryPage.Fetch (set_request 1 7)
  ∧ inventory (serve stocked_store 2000 (set_request 1 7)).1 = [Inventory.mk 1 1 1 7 500].
Proof.
  assert (Hu : unique_ids (inventory stocked_store)) by apply NoDup_singleton.
  assert (Hi : inventory stocked_store !! 0%nat = Some (Inventory.mk 1 1 1 10 500)) by done.
  assert (Hk : (1 : Z) ≠ 0) by done.
  assert (Hsm : truthy (JNumber (Num 1)) = true) by done.
  assert (Hb : Z.abs 1 ≤ 2 ^ 53) by (by vm_compute).
  assert (Ht : 0 ≤ 7 ≤ 2 ^ 53) by (split; by vm_compute).
  split; [done|].
  destruct (edit_form_sets_the_quantity stocked_store 2000 (JNumber (Num 1))
              (InventoryPage.mkItem (Num 1) "Chips" (Num 20) (Num 10))
              0%nat (Inventory.mk 1 1 1 10 500) 7 Hu Hi eq_refl eq_refl Hk Hb Hsm Ht)
    as (Hreq & _ & Hinv & _).
  split; [exact Hreq|exact Hinv].
Defined.

Lemma ten_minus_three_and_ten_minus_fifteen :
  (unique_ids (inventory stocked_store)
   ∧ inventory stocked_store !! 0%nat = Some (Inventory.mk 1 1 1 10 500)
   ∧ toLowerCase (trim "3") ≠ "all" ∧ parseInt10 (toLowerCase (trim "3")) = Num 3
   ∧ toLowerCase (trim "15") ≠ "all" ∧ parseInt10 (toLowerCase (trim "15")) = Num 15)
  ∧ (InventoryPage.handleRemove (JNumber (Num 1))
       (InventoryPage.mkItem (Num 1) "Chips" (Num 20) (Num 10)) (Some "3") false
     = InventoryPage.Fetch (set_request 1 7)
     ∧ inventory (serve stocked_store 2000 (set_request 1 7)).1 !! 0%nat
       = Some (Inventory.mk 1 1 1 7 500))
  ∧ (InventoryPage.handleRemove (JNumber (Num 1))
       (InventoryPage.mkItem (Num 1) "Chips" (Num 20) (Num 10)) (Some "15") false
     = InventoryPage.Fetch (set_request 1 0)
     ∧ inventory (serve stocked_store 2000 (set_request 1 0)).1 !! 0%nat
       = Some (Inventory.mk 1 1 1 0 500))
  ∧ InventoryPage.loadInventory (Server.get_inventory stocked_store "1")
    = Some [shown_item (Inventory.mk 1 1 1 10 500, Product.mk 1 "Chips" 20 "pcs")].
Proof.
  assert (Hu : unique_ids (inventory stocked_store)) by apply NoDup_singleton.
  assert (Hi : inventory stocked_store !! 0%nat = Some (Inventory.mk 1 1 1 10 500)) by done.
  assert (Hne3 : toLowerCase (trim "3") ≠ "") by done.
  assert (Hna3 : toLowerCase (trim "3") ≠ "all") by done.
  assert (Hp3 : parseInt10 (toLowerCase (trim "3")) = Num 3) by done.
  assert (Hne : toLowerCase (trim "15") ≠ "") by done.
  assert (Hna : toLowerCase (trim "15") ≠ "all") by done.
  assert (Hp : parseInt10 (toLowerCase (trim "15")) = Num 15) by done.
  assert (H3 : 0 ≤ 3) by done.
  assert (H15 : 0 ≤ 15) by done.
  split; [done|].
  destruct (remove_by_decrement_clamps stocked_store 2000 (JNumber (Num 1))
              (InventoryPage.mkItem (Num 1) "Chips" (Num 20) (Num 10))
              "3" false 0%nat (Inventory.mk 1 1 1 10 500) 10 3
              Hu Hi eq_refl eq_refl eq_refl Hne3 Hna3 Hp3 H3)
    as (Hreq3 & _ & Hat3 & _).
  destruct (remove_by_decrement_clamps stocked_store 2000 (JNumber (Num 1))
              (InventoryPage.mkItem (Num 1) "Chips" (Num 20) (Num 10))
              "15" false 0%nat (Inventory.mk 1 1 1 10 500) 10 15
              Hu Hi eq_refl eq_refl eq_refl Hne Hna Hp H15)
    as (Hreq & _ & Hat & _).
  split_and!; [exact Hreq3|exact Hat3|exact Hreq|exact Hat|by vm_compute].
Defined.

Lemma set_to_three_is_read_back :
  (unique_ids (inventory stocked_store) ∧ unique_products stocked_store
   ∧ inventory stocked_store !! 0%nat = Some (Inventory.mk 1 1 1 10 500)
   ∧ Product.mk 1 "Chips" 20 "pcs" ∈ products stocked_store)
  ∧ Server.put_inventory stocked_store "1" (qty_body 3)
    = (with_inventory stocked_store [Inventory.mk 1 1 1 3 500],
       mkResponse 200
         (Server.joined_row (Inventory.mk 1 1 1 3 500, Product.mk 1 "Chips" 20 "pcs"))).
Proof.
  assert (Hu : unique_ids (inventory stocked_store)) by apply NoDup_singleton.
  assert (Hup : unique_products stocked_store) by apply NoDup_singleton.
  assert (Hi : inventory stocked_store !! 0%nat = Some (Inventory.mk 1 1 1 10 500)) by done.
  assert (Hp : Product.mk 1 "Chips" 20 "pcs" ∈ products stocked_store)
    by apply list_elem_of_here.
  split; [done|].
  exact (proj1 (direct_set_answers_with_the_record stocked_store 3 0%nat
                  (Inventory.mk 1 1 1 10 500) (Product.mk 1 "Chips" 20 "pcs")
                  Hu Hup Hi Hp eq_refl)).
Defined.

(** The lists of the three-machine store as the inventory page shows them,
    and the trend of a week of sales seen on day 12. *)
Example lists_of_three_machines :
  InventoryPage.loadMachines (Server.get_machines three_machine_store) (JVal JNull)
  = Some ([listed_machine (Machine.mk 1 (Some "Lobby") None);
           listed_machine (Machine.mk 2 (Some "") None);
           listed_machine (Machine.mk 3 None (Some "Gym"))],
          JVal (JNumber (Num 1)))
  ∧ Http.get "name" (listed_machine (Machine.mk 1 (Some "Lobby") None))
    = Some (JVal (JStr "Machine 1"))
  ∧ InventoryPage.loadInventory (Server.get_inventory three_machine_store "1")
    = Some [shown_item (Inventory.mk 2 1 1 10 100, Product.mk 1 "Chips" 20 "pcs");
            shown_item (Inventory.mk 3 1 2 2 100, Product.mk 2 "Cola" 35 "pcs")]
  ∧ Server.revenue_trend_rows week_store (12 * 86400 + 3600) = [(10, 50); (12, 25)]
  ∧ Server.revenue_trend_rows week_store (17 * 86400 + 3600) = [(10, 50); (12, 25)]
  ∧ Server.revenue_trend_rows week_store (18 * 86400) = [(12, 25)].
Proof. by vm_compute. Qed.

End Evaluated.
